(** * ZueriCrop dataset accessor (torchgeo/datasets/zuericrop.py)

    A shallow embedding of the [ZueriCrop] class: band validation, the
    presence check of the two dataset files, the per-sample loading of the
    image and of the instance masks, boxes and labels, and the panel layout
    of [plot].  Exceptions are values of an error monad; the array
    operations of torch that the class calls are defined on tensors given by
    a dtype, a shape and an element function. *)

From Stdlib Require Import Ascii Sorted.
From stdpp Require Import base decidable option list numbers strings gmap.

Local Open Scope string_scope.
Local Open Scope Z_scope.
Local Open Scope list_scope.
Local Open Scope nat_scope.

(** ** Exceptions and the error monad *)

(** The exception classes that the module and the calls it makes can raise.
    [AssertionError] and [ValueError] carry their message. *)
Inductive exn : Type :=
  | AssertionError (msg : string)
  | ValueError (msg : string)
  | TypeError
  | IndexError
  | KeyError (key : string)
  | RuntimeError
  | OSError
  | FileNotFoundError
  | ModuleNotFoundError
  | DependencyNotFoundError
  | DatasetNotFoundError
  | RGBBandsMissingError
  | DownloadError.

(** [isinstance(e, TypeError)]: no class of the list derives from TypeError. *)
Definition is_TypeError_class (e : exn) : bool :=
  match e with
  | TypeError => true
  | _ => false
  end.

(** [isinstance(e, ValueError)]: torchgeo's RGBBandsMissingError derives
    from ValueError. *)
Definition is_ValueError_class (e : exn) : bool :=
  match e with
  | ValueError _ | RGBBandsMissingError => true
  | _ => false
  end.

Inductive result (A : Type) : Type :=
  | Ok (a : A)
  | Raise (e : exn).
Arguments Ok {A} a.
Arguments Raise {A} e.

#[global] Instance result_ret : MRet result := fun A a => Ok a.
#[global] Instance result_bind : MBind result := fun A B k m =>
  match m with
  | Ok a => k a
  | Raise e => Raise e
  end.

(** A Python [for] loop that appends one result per element, or a list
    comprehension, stopping at the first exception. *)
Fixpoint for_each {A B : Type} (f : A -> result B) (l : list A) : result (list B) :=
  match l with
  | [] => Ok []
  | a :: l' => b ← f a; bs ← for_each f l'; Ok (b :: bs)
  end.

(** ** Tensors *)

Inductive DType : Type := Bool | UInt8 | Int32 | Int64 | Float32.

(** A tensor (or numpy array): dtype, shape, and the element at a
    multi-index.  Elements are integers; [Bool] tensors hold 0 and 1, and a
    [Float32] tensor holds floats whose value is an integer: the class never
    computes on floats, it only converts integer coordinates to float.  Only
    indices within the shape are meaningful. *)
Record Tensor : Type := mkTensor {
  dtype : DType;
  shape : list nat;
  elt : list nat -> Z
}.

(** All multi-indices of a shape, in row-major order. *)
Fixpoint all_indices (s : list nat) : list (list nat) :=
  match s with
  | [] => [[]]
  | d :: s' => flat_map (fun i => map (cons i) (all_indices s')) (seq 0 d)
  end.

(** The elements in row-major order ([t.flatten().tolist()]). *)
Definition flatten (t : Tensor) : list Z := map (elt t) (all_indices (shape t)).

(** A one-dimensional tensor from a list. *)
Definition tensor1 (dt : DType) (l : list Z) : Tensor :=
  mkTensor dt [length l] (fun ix => nth (hd 0 ix) l 0%Z).

(** [torch.from_numpy]: same dtype, shape and elements; what indexing a
    one-dimensional array gives is a numpy scalar, not an array, and is
    refused. *)
Definition from_numpy (a : Tensor) : result Tensor :=
  match shape a with
  | [] => Raise TypeError
  | _ => Ok a
  end.

(** The float32 nearest to an integer, ties to the even significand:
    integers below 2^24 in magnitude are floats; from 2^k on, k >= 24, the
    floats are the multiples of 2^(k-23).  (64-bit integers are far below
    the largest float.) *)
Definition round_float32 (z : Z) : Z :=
  let a := Z.abs z in
  if (a <? 2 ^ 24)%Z then z
  else
    let e := (Z.log2 a - 23)%Z in
    let q := (a / 2 ^ e)%Z in
    let r := (a mod 2 ^ e)%Z in
    let half := (2 ^ (e - 1))%Z in
    let q' := if (r <? half)%Z then q
              else if (half <? r)%Z then (q + 1)%Z
              else if Z.even q then q else (q + 1)%Z in
    (Z.sgn z * (q' * 2 ^ e))%Z.

(** The value of an element after conversion to a dtype: conversion to
    float rounds; the conversions to integer dtypes that the class makes
    (Bool to UInt8, integers to Int64) keep the value. *)
Definition convert (dt : DType) (z : Z) : Z :=
  match dt with
  | Float32 => round_float32 z
  | _ => z
  end.

(** [t.to(dt)]. *)
Definition to (dt : DType) (t : Tensor) : Tensor :=
  mkTensor dt (shape t) (fun ix => convert dt (elt t ix)).

(** [t.permute(dims)]: output dimension [k] is input dimension [dims[k]]. *)
Definition is_permutation (dims : list nat) (n : nat) : bool :=
  (length dims =? n) && forallb (fun j => existsb (Nat.eqb j) dims) (seq 0 n).

(** The first position of [j] in [dims] (its length when absent). *)
Fixpoint position (j : nat) (dims : list nat) : nat :=
  match dims with
  | [] => 0
  | d :: dims' => if d =? j then 0 else S (position j dims')
  end.

Definition permute (dims : list nat) (t : Tensor) : result Tensor :=
  if is_permutation dims (length (shape t)) then
    Ok (mkTensor (dtype t)
          (map (fun d => nth d (shape t) 0) dims)
          (fun ix => elt t (map (fun j => nth (position j dims) ix 0)
                                (seq 0 (length (shape t))))))
  else Raise RuntimeError.

(** [torch.unique] on the values: sorted ascending, duplicates removed. *)
Fixpoint insert_unique (x : Z) (l : list Z) : list Z :=
  match l with
  | [] => [x]
  | y :: l' =>
      if (x <? y)%Z then x :: l
      else if (x =? y)%Z then l
      else y :: insert_unique x l'
  end.

Definition sort_unique (l : list Z) : list Z := foldr insert_unique [] l.

(** [torch.unique(t)]: the distinct elements of the flattened tensor,
    sorted, as a one-dimensional tensor. *)
Definition unique (t : Tensor) : Tensor := tensor1 (dtype t) (sort_unique (flatten t)).

(** [t != c] for a scalar [c]. *)
Definition ne_scalar (t : Tensor) (c : Z) : Tensor :=
  mkTensor Bool (shape t) (fun ix => if (elt t ix =? c)%Z then 0%Z else 1%Z).

(** The multi-indices at which a tensor is nonzero (true), row-major. *)
Definition nonzero (m : Tensor) : list (list nat) :=
  List.filter (fun ix => negb (elt m ix =? 0)%Z) (all_indices (shape m)).

(** [t[m]] for a boolean tensor [m]: the shape of [m] has to equal the
    leading dimensions of [t] exactly (torch does not broadcast a boolean
    index); the selected positions, in row-major order, become the first
    dimension of the result. *)
Definition index_bool (t m : Tensor) : result Tensor :=
  if decide (take (length (shape m)) (shape t) = shape m) then
    let sel := nonzero m in
    Ok (mkTensor (dtype t)
          (length sel :: drop (length (shape m)) (shape t))
          (fun ix => match ix with
                     | [] => 0%Z
                     | i :: jx => elt t (nth i sel [] ++ jx)
                     end))
  else Raise IndexError.

(** [t.unsqueeze(dim)], which is what indexing with [None] at position
    [dim] does: a new dimension of size 1. *)
Definition unsqueeze (dim : nat) (t : Tensor) : Tensor :=
  mkTensor (dtype t)
    (take dim (shape t) ++ 1 :: drop dim (shape t))
    (fun ix => elt t (take dim ix ++ drop (S dim) ix)).

(** Broadcasting of two shapes, aligned at the last dimension: sizes have
    to be equal or one of them 1. *)
Definition broadcast_dim (a b : nat) : option nat :=
  if a =? b then Some a
  else if a =? 1 then Some b
  else if b =? 1 then Some a
  else None.

Fixpoint broadcast_rev (s1 s2 : list nat) : option (list nat) :=
  match s1, s2 with
  | [], _ => Some s2
  | _, [] => Some s1
  | a :: s1', b :: s2' =>
      match broadcast_dim a b, broadcast_rev s1' s2' with
      | Some d, Some r => Some (d :: r)
      | _, _ => None
      end
  end.

Definition broadcast_shapes (s1 s2 : list nat) : option (list nat) :=
  match broadcast_rev (rev s1) (rev s2) with
  | Some r => Some (rev r)
  | None => None
  end.

(** The index into an operand of shape [s] for the index [ix] of the
    broadcast result. *)
Definition broadcast_index (s ix : list nat) : list nat :=
  zip_with (fun d i => if d =? 1 then 0 else i) s (drop (length ix - length s) ix).

(** [a == b], elementwise with broadcasting. *)
Definition eq_tensor (a b : Tensor) : result Tensor :=
  match broadcast_shapes (shape a) (shape b) with
  | Some s =>
      Ok (mkTensor Bool s
            (fun ix => if (elt a (broadcast_index (shape a) ix)
                           =? elt b (broadcast_index (shape b) ix))%Z
                       then 1%Z else 0%Z))
  | None => Raise RuntimeError
  end.

(** Iterating over a tensor yields its slices along the first dimension. *)
Definition slice0 (t : Tensor) (rest : list nat) (i : nat) : Tensor :=
  mkTensor (dtype t) rest (fun ix => elt t (i :: ix)).

Definition iterate (t : Tensor) : result (list Tensor) :=
  match shape t with
  | [] => Raise TypeError
  | d :: rest => Ok (map (slice0 t rest) (seq 0 d))
  end.

(** [torch.where(m)]: one coordinate tensor per dimension of [m]. *)
Definition where_ (m : Tensor) : list Tensor :=
  map (fun k => tensor1 Int64 (map (fun ix => Z.of_nat (nth k ix 0)) (nonzero m)))
      (seq 0 (length (shape m))).

(** Indexing a Python tuple or list at a constant position. *)
Definition tuple_get {A : Type} (l : list A) (k : nat) : result A :=
  match l !! k with
  | Some a => Ok a
  | None => Raise IndexError
  end.

(** [torch.min(t)] and [torch.max(t)] over all elements. *)
Definition torch_min (t : Tensor) : result Z :=
  match flatten t with
  | [] => Raise RuntimeError
  | x :: l => Ok (foldl Z.min x l)
  end.

Definition torch_max (t : Tensor) : result Z :=
  match flatten t with
  | [] => Raise RuntimeError
  | x :: l => Ok (foldl Z.max x l)
  end.

(** [t[0]] on a one-dimensional tensor. *)
Definition first_element (t : Tensor) : result Z :=
  match flatten t with
  | [] => Raise IndexError
  | x :: _ => Ok x
  end.

(** [torch.tensor(l)] for a Python list of scalars of dtype [dt]; the empty
    list gives an empty tensor of the default dtype. *)
Definition torch_tensor1 (dt : DType) (l : list Z) : Tensor :=
  match l with
  | [] => mkTensor Float32 [0] (fun _ => 0%Z)
  | _ => tensor1 dt l
  end.

(** [torch.tensor(rows)] for a Python list of lists of scalars: the shape
    is (number of rows, length of a row); the empty list gives the
    one-dimensional empty tensor of shape (0,). *)
Definition torch_tensor2 (dt : DType) (rows : list (list Z)) : result Tensor :=
  match rows with
  | [] => Ok (mkTensor Float32 [0] (fun _ => 0%Z))
  | r :: _ =>
      if forallb (fun r' => length r' =? length r) rows then
        Ok (mkTensor dt [length rows; length r]
              (fun ix => nth (nth 1 ix 0) (nth (nth 0 ix 0) rows []) 0%Z))
      else Raise (ValueError "expected sequence of equal length")
  end.

(** [torch.index_select(t, dim, index)] for a one-dimensional integer
    [index]. *)
Definition index_select (t : Tensor) (dim : nat) (index : Tensor) : result Tensor :=
  match shape index, shape t !! dim with
  | [n], Some d =>
      let idx := flatten index in
      if forallb (fun i => (0 <=? i)%Z && (i <? Z.of_nat d)%Z) idx then
        Ok (mkTensor (dtype t) (<[dim := n]> (shape t))
              (fun ix => elt t (<[dim := Z.to_nat (nth (nth dim ix 0) idx 0%Z)]> ix)))
      else Raise RuntimeError
  | [_], None => Raise IndexError
  | _, _ => Raise RuntimeError
  end.

(** A Python integer index into a dimension of size [n]: negative indices
    count from the end. *)
Definition wrap_index (i : Z) (n : nat) : result nat :=
  let j := if (i <? 0)%Z then (Z.of_nat n + i)%Z else i in
  if (0 <=? j)%Z && (j <? Z.of_nat n)%Z then Ok (Z.to_nat j) else Raise IndexError.

(** [a[index, ...]]: the slice at [index] of the first dimension. *)
Definition getitem0 (a : Tensor) (index : Z) : result Tensor :=
  match shape a with
  | [] => Raise IndexError
  | d :: rest => i ← wrap_index index d; Ok (slice0 a rest i)
  end.

(** A Python integer used as an index of a torch tensor is first unpacked
    to a 64-bit integer. *)
Definition torch_index (i : Z) (n : nat) : result nat :=
  if (- 2 ^ 63 <=? i)%Z && (i <? 2 ^ 63)%Z then wrap_index i n
  else Raise RuntimeError.

(** [t[i, l]] for an integer [i] and a Python list [l] of integers: the
    slice at [i], restricted along its first dimension to the positions
    of [l]. *)
Definition getitem_int_list (t : Tensor) (i : Z) (l : list nat) : result Tensor :=
  match shape t with
  | d0 :: d1 :: rest =>
      i0 ← torch_index i d0;
      if forallb (fun j => j <? d1) l then
        Ok (mkTensor (dtype t) (length l :: rest)
              (fun ix => match ix with
                         | [] => 0%Z
                         | k :: jx => elt t (i0 :: nth k l 0 :: jx)
                         end))
      else Raise IndexError
  | _ => Raise IndexError
  end.

(** [torch.argmax(t, dim=0)]: for each position of the remaining
    dimensions the first index along dimension 0 that holds the maximum;
    an empty dimension 0 is an error, a scalar gives 0; there is no argmax
    of a boolean tensor. *)
Fixpoint argmax_from (f : nat -> Z) (best : nat) (i n : nat) : nat :=
  match n with
  | O => best
  | S n' => argmax_from f (if (f best <? f i)%Z then i else best) (S i) n'
  end.

Definition is_Bool (dt : DType) : bool :=
  match dt with
  | Bool => true
  | _ => false
  end.

Definition argmax0 (t : Tensor) : result Tensor :=
  match shape t with
  | [] => if is_Bool (dtype t) then Raise RuntimeError
          else Ok (mkTensor Int64 [] (fun _ => 0%Z))
  | O :: _ => Raise IndexError
  | S d :: rest =>
      if is_Bool (dtype t) then Raise RuntimeError
      else
        Ok (mkTensor Int64 rest
              (fun ix => Z.of_nat (argmax_from (fun i => elt t (i :: ix)) 0 1 d)))
  end.

(** ** Python values passed as [bands] *)

(** The values a caller can pass as the band subset: the sequences (list,
    tuple, str) and some values that are not sequences.  Entries are
    strings, as the annotation [Sequence[str]] says. *)
Inductive pyobj : Type :=
  | PyNone
  | PyInt (z : Z)
  | PyStr (s : string)
  | PyList (l : list string)
  | PyTuple (l : list string)
  | PySet (l : list string).

(** [isinstance(o, collections.abc.Sequence)]. *)
Definition is_Sequence (o : pyobj) : bool :=
  match o with
  | PyStr _ | PyList _ | PyTuple _ => true
  | PyNone | PyInt _ | PySet _ => false
  end.

(** The characters of a string, as strings of length one. *)
Fixpoint chars (s : string) : list string :=
  match s with
  | EmptyString => []
  | String c s' => String c EmptyString :: chars s'
  end.

(** [for x in o]. *)
Definition py_iter (o : pyobj) : result (list string) :=
  match o with
  | PyStr s => Ok (chars s)
  | PyList l | PyTuple l | PySet l => Ok l
  | PyNone | PyInt _ => Raise TypeError
  end.

(** [x in o]: membership, and the substring test on a str. *)
Definition py_contains (o : pyobj) (x : string) : result bool :=
  match o with
  | PyStr s => Ok (bool_decide (is_Some (String.index 0 x s)))
  | PyList l | PyTuple l | PySet l => Ok (bool_decide (x ∈ l))
  | PyNone | PyInt _ => Raise TypeError
  end.

(** [l.index(x)] on a list or tuple: the first position of [x]. *)
Fixpoint list_index (x : string) (l : list string) : option nat :=
  match l with
  | [] => None
  | y :: l' => if decide (y = x) then Some 0 else S <$> list_index x l'
  end.

Definition seq_index (l : list string) (x : string) : result nat :=
  match list_index x l with
  | Some i => Ok i
  | None => Raise (ValueError "x not in sequence")
  end.

(** [o.index(x)]. *)
Definition py_index (o : pyobj) (x : string) : result nat :=
  match o with
  | PyStr s =>
      match String.index 0 x s with
      | Some i => Ok i
      | None => Raise (ValueError "substring not found")
      end
  | PyList l | PyTuple l => seq_index l x
  | PyNone | PyInt _ | PySet _ => Raise TypeError
  end.

(** ** The file system and the HDF5 archive *)

(** A file is an HDF5 archive with named arrays, or something else. *)
Inductive File : Type :=
  | HDF5 (datasets : gmap string Tensor)
  | OtherFile.

(** What the class sees of its environment: whether h5py can be imported,
    the files by path, and what the remote URLs serve (the file and its
    MD5). *)
Record World : Type := mkWorld {
  h5py_installed : bool;
  fs : gmap string File;
  remote : gmap string (File * string)
}.

(** [os.path.exists]. *)
Definition path_exists (w : World) (p : string) : bool :=
  bool_decide (is_Some (fs w !! p)).

Fixpoint ends_with_slash (s : string) : bool :=
  match s with
  | EmptyString => false
  | String c EmptyString => bool_decide (c = "/"%char)
  | String _ s' => ends_with_slash s'
  end.

(** [os.path.join(a, b)] for a relative [b]. *)
Definition path_join (a b : string) : string :=
  match a with
  | EmptyString => b
  | _ => if ends_with_slash a then a +:+ b else a +:+ "/" +:+ b
  end.

(** Modelled from the spec: [lazy_import] of [.utils] is not part of the
    sources; the archive-reading library being unavailable surfaces as the
    missing-optional-dependency error. *)
Definition lazy_import (w : World) (name : string) : result unit :=
  if h5py_installed w then Ok () else Raise DependencyNotFoundError.

(** [import h5py]. *)
Definition import_h5py (w : World) : result unit :=
  if h5py_installed w then Ok () else Raise ModuleNotFoundError.

(** Modelled from the spec: [download_url] of [.utils] is not part of the
    sources; given URL, destination directory, file name and optional
    checksum it fetches and verifies the file, and its failures (network
    error, checksum mismatch) propagate. *)
Definition download_url (w : World) (url root filename : string)
    (md5 : option string) : result World :=
  match remote w !! url with
  | None => Raise DownloadError
  | Some (file, sum) =>
      if bool_decide (md5 = None ∨ md5 = Some sum) then
        Ok (mkWorld (h5py_installed w) (<[path_join root filename := file]> (fs w)) (remote w))
      else Raise RuntimeError
  end.

(** [h5py.File(path, 'r')]. *)
Definition h5py_File (w : World) (path : string) : result (gmap string Tensor) :=
  match fs w !! path with
  | Some (HDF5 d) => Ok d
  | Some OtherFile => Raise OSError
  | None => Raise FileNotFoundError
  end.

(** [f[name]]. *)
Definition h5_get (f : gmap string Tensor) (name : string) : result Tensor :=
  match f !! name with
  | Some a => Ok a
  | None => Raise (KeyError name)
  end.

(** ** Figures *)

(** One panel of a matplotlib figure and the figure returned by
    [plt.subplots]. *)
Record Axes : Type := mkAxes {
  ax_image : option Tensor;
  ax_on : bool;
  ax_title : option string
}.

Record Figure : Type := mkFigure {
  figsize : nat * nat;
  axes : list Axes;
  fig_suptitle : option string
}.

(** [plt.subplots(ncols=ncols, figsize=figsize)]. *)
Definition subplots (ncols : nat) (size : nat * nat) : Figure :=
  mkFigure size (replicate ncols (mkAxes None true None)) None.

Definition update_axes (fig : Figure) (k : nat) (f : Axes -> Axes) : result Figure :=
  match axes fig !! k with
  | Some ax => Ok (mkFigure (figsize fig) (<[k := f ax]> (axes fig)) (fig_suptitle fig))
  | None => Raise IndexError
  end.

(** [axs[k].imshow(img)]: image data is M×N, M×N×3 or M×N×4. *)
Definition imshow (fig : Figure) (k : nat) (img : Tensor) : result Figure :=
  match shape img with
  | [_; _] | [_; _; 3] | [_; _; 4] =>
      update_axes fig k (fun ax => mkAxes (Some img) (ax_on ax) (ax_title ax))
  | _ => Raise TypeError
  end.

(** [axs[k].axis('off')]. *)
Definition axis_off (fig : Figure) (k : nat) : result Figure :=
  update_axes fig k (fun ax => mkAxes (ax_image ax) false (ax_title ax)).

(** [axs[k].set_title(title)]. *)
Definition set_title (fig : Figure) (k : nat) (title : string) : result Figure :=
  update_axes fig k (fun ax => mkAxes (ax_image ax) (ax_on ax) (Some title)).

(** [plt.suptitle(title)]. *)
Definition set_suptitle (fig : Figure) (title : string) : Figure :=
  mkFigure (figsize fig) (axes fig) (Some title).

(** ** The class *)

(** A sample is a Python dict from key to tensor. *)
Abbreviation Sample := (gmap string Tensor).

(** [sample[key]]. *)
Definition dict_get (sample : Sample) (key : string) : result Tensor :=
  match sample !! key with
  | Some t => Ok t
  | None => Raise (KeyError key)
  end.

Definition url : string :=
  "https://hf.co/datasets/torchgeo/zuericrop/resolve/8ac0f416fbaab032d8670cc55f984b9f079e86b2/".
Definition md5s : list string :=
  ["1635231df67f3d25f4f1e62c98e221a4"; "5118398c7a5bbc246f5f6bb35d8d529b"].
Definition filenames : list string := ["ZueriCrop.hdf5"; "labels.csv"].

Definition band_names : list string :=
  ["NIR"; "B03"; "B02"; "B04"; "B05"; "B06"; "B07"; "B11"; "B12"].
Definition rgb_bands : list string := ["B04"; "B03"; "B02"].

(** The attributes set by the constructor. *)
Record ZueriCrop : Type := mkZueriCrop {
  band_indices : Tensor;
  root : string;
  bands : pyobj;
  transforms : option (Sample -> result Sample);
  download : bool;
  checksum : bool;
  filepath : string
}.

(** [_validate_bands]: the assertion on the type, then the first entry
    that is not a band name raises ValueError with the entry in the
    message. *)
Fixpoint check_band_names (items : list string) : result unit :=
  match items with
  | [] => Ok ()
  | band :: items' =>
      if bool_decide (band ∈ band_names) then check_band_names items'
      else Raise (ValueError ("'" +:+ (band +:+ "' is an invalid band name.")))
  end.

Definition _validate_bands (bands : pyobj) : result unit :=
  if is_Sequence bands then
    items ← py_iter bands;
    check_band_names items
  else Raise (AssertionError "'bands' must be a sequence").

(** [_download]: fetches each of the two files that is not there yet. *)
Fixpoint download_files (root : string) (checksum : bool) (w : World)
    (files : list (string * string)) : result World :=
  match files with
  | [] => Ok w
  | (filename, md5) :: files' =>
      let filepath := path_join root filename in
      if negb (path_exists w filepath) then
        w' ← download_url w (url +:+ filename) root filename
               (if checksum then Some md5 else None);
        download_files root checksum w' files'
      else download_files root checksum w files'
  end.

Definition _download (self : ZueriCrop) (w : World) : result World :=
  download_files (root self) (checksum self) w (zip filenames md5s).

(** [_verify]: nothing to do when both files exist; otherwise an error
    unless a download was requested. *)
Definition _verify (self : ZueriCrop) (w : World) : result World :=
  let exists_ :=
    map (fun filename => path_exists w (path_join (root self) filename)) filenames in
  if forallb id exists_ then Ok w
  else if negb (download self) then Raise DatasetNotFoundError
  else _download self w.

Definition __init__ (w : World) (root : string) (bands : pyobj)
    (transforms : option (Sample -> result Sample)) (download checksum : bool)
    : result (ZueriCrop * World) :=
  _ ← lazy_import w "h5py";
  _ ← _validate_bands bands;
  items ← py_iter bands;
  indices ← for_each (seq_index band_names) items;
  let band_indices := to Int64 (torch_tensor1 Int64 (map Z.of_nat indices)) in
  let self := mkZueriCrop band_indices root bands transforms download checksum
                (path_join root "ZueriCrop.hdf5") in
  w' ← _verify self w;
  Ok (self, w').

Definition __len__ (self : ZueriCrop) (w : World) : result nat :=
  _ ← lazy_import w "h5py";
  f ← h5py_File w (filepath self);
  data ← h5_get f "data";
  tuple_get (shape data) 0.

Definition _load_image (self : ZueriCrop) (w : World) (index : Z) : result Tensor :=
  _ ← lazy_import w "h5py";
  f ← h5py_File w (filepath self);
  data ← h5_get f "data";
  array ← getitem0 data index;
  tensor ← from_numpy array;
  tensor ← permute [0; 3; 1; 2] tensor;
  tensor ← index_select tensor 1 (band_indices self);
  Ok tensor.

(** The label of one instance mask: [torch.unique(mask_tensor[mask[None, :, :]])[0]]. *)
Definition instance_label (mask_tensor mask : Tensor) : result Z :=
  label ← index_bool mask_tensor (unsqueeze 0 mask);
  first_element (unique label).

(** The box of one instance mask, from the coordinates of its true
    pixels: columns are [pos[1]], rows are [pos[0]]. *)
Definition instance_box (mask : Tensor) : result (list Z) :=
  let pos := where_ mask in
  pos1 ← tuple_get pos 1;
  xmin ← torch_min pos1;
  pos1 ← tuple_get pos 1;
  xmax ← torch_max pos1;
  pos0 ← tuple_get pos 0;
  ymin ← torch_min pos0;
  pos0 ← tuple_get pos 0;
  ymax ← torch_max pos0;
  Ok [xmin; ymin; xmax; ymax].

Definition _load_target (self : ZueriCrop) (w : World) (index : Z)
    : result (Tensor * Tensor * Tensor) :=
  _ ← import_h5py w;
  f ← h5py_File w (filepath self);
  gt ← h5_get f "gt";
  mask_array ← getitem0 gt index;
  gt_instance ← h5_get f "gt_instance";
  instance_array ← getitem0 gt_instance index;
  mask_tensor ← from_numpy mask_array;
  instance_tensor ← from_numpy instance_array;
  mask_tensor ← permute [2; 0; 1] mask_tensor;
  instance_tensor ← permute [2; 0; 1] instance_tensor;
  let instance_ids := unique instance_tensor in
  instance_ids ← index_bool instance_ids (ne_scalar instance_ids 0);
  let instance_ids := unsqueeze 2 (unsqueeze 1 instance_ids) in
  masks ← eq_tensor instance_tensor instance_ids;
  planes ← iterate masks;
  labels_list ← for_each (instance_label mask_tensor) planes;
  planes ← iterate masks;
  boxes_list ← for_each instance_box planes;
  let masks := to UInt8 masks in
  boxes ← torch_tensor2 Int64 boxes_list;
  let boxes := to Float32 boxes in
  let labels := to Int64 (torch_tensor1 (dtype mask_tensor) labels_list) in
  Ok (masks, boxes, labels).

Definition __getitem__ (self : ZueriCrop) (w : World) (index : Z) : result Sample :=
  image ← _load_image self w index;
  '(mask, boxes, label) ← _load_target self w index;
  let sample : Sample :=
    {[ "image" := image; "mask" := mask; "bbox_xyxy" := boxes; "label" := label ]} in
  match transforms self with
  | Some f => f sample
  | None => Ok sample
  end.

Section Plot.

(** [percentile_normalization] of [.utils] is not part of the sources and
    computes on floats: the parameter gives, for an image array, the
    elements of [percentile_normalization(a) * 255] converted to uint8.
    The result has the shape of the argument. *)
Variable percentile_normalization_255 : Tensor -> list nat -> Z.

(** [torch.tensor(percentile_normalization(image.numpy()) * 255,
    dtype=torch.uint8)]: the percentiles of an image without elements do
    not exist, and those of a boolean image are not computed (numpy
    interpolates by subtraction); numpy raises. *)
Definition normalized_uint8 (image : Tensor) : result Tensor :=
  if existsb (Nat.eqb 0) (shape image) then Raise IndexError
  else if is_Bool (dtype image) then Raise TypeError
  else Ok (mkTensor UInt8 (shape image) (percentile_normalization_255 image)).

(** The loop over the RGB bands: the position of each in [self.bands]. *)
Fixpoint rgb_positions (bands : pyobj) (rgb : list string) : result (list nat) :=
  match rgb with
  | [] => Ok []
  | band :: rgb' =>
      present ← py_contains bands band;
      if (present : bool) then
        i ← py_index bands band;
        rest ← rgb_positions bands rgb';
        Ok (i :: rest)
      else Raise RGBBandsMissingError
  end.

Definition plot (self : ZueriCrop) (sample : Sample) (time_step : Z)
    (show_titles : bool) (suptitle : option string) : result Figure :=
  rgb_indices ← rgb_positions (bands self) rgb_bands;
  let ncols := 2 in
  image ← dict_get sample "image";
  image ← getitem_int_list image time_step rgb_indices;
  mask ← dict_get sample "mask";
  image ← normalized_uint8 image;
  mask ← argmax0 mask;
  '(ncols, preds) ←
    match sample !! "prediction" with
    | Some prediction => preds ← argmax0 prediction; Ok (ncols + 1, Some preds)
    | None => Ok (ncols, None)
    end;
  let fig := subplots ncols (10, 10 * ncols) in
  image ← permute [1; 2; 0] image;
  fig ← imshow fig 0 image;
  fig ← axis_off fig 0;
  fig ← imshow fig 1 mask;
  fig ← axis_off fig 1;
  fig ← (if show_titles then
           fig ← set_title fig 0 "Image"; set_title fig 1 "Mask"
         else Ok fig);
  fig ← match preds with
        | Some preds =>
            fig ← imshow fig 2 preds;
            fig ← axis_off fig 2;
            if show_titles then set_title fig 2 "Prediction" else Ok fig
        | None => Ok fig
        end;
  let fig := match suptitle with
             | Some title => set_suptitle fig title
             | None => fig
             end in
  Ok fig.

End Plot.

(** ** The computation of [_load_target] on the arrays read *)

(** What [_load_target] computes once [mask_tensor] and [instance_tensor]
    are permuted to channel-first: the body from [torch.unique] on. *)
Definition target_of (mask_tensor instance_tensor : Tensor)
    : result (Tensor * Tensor * Tensor) :=
  let instance_ids := unique instance_tensor in
  instance_ids ← index_bool instance_ids (ne_scalar instance_ids 0);
  let instance_ids := unsqueeze 2 (unsqueeze 1 instance_ids) in
  masks ← eq_tensor instance_tensor instance_ids;
  planes ← iterate masks;
  labels_list ← for_each (instance_label mask_tensor) planes;
  planes ← iterate masks;
  boxes_list ← for_each instance_box planes;
  let masks := to UInt8 masks in
  boxes ← torch_tensor2 Int64 boxes_list;
  let boxes := to Float32 boxes in
  let labels := to Int64 (torch_tensor1 (dtype mask_tensor) labels_list) in
  Ok (masks, boxes, labels).

(** The distinct nonzero values of a tensor in ascending order. *)
Definition instance_id_list (instance_tensor : Tensor) : list Z :=
  List.filter (fun v => negb (v =? 0)%Z) (sort_unique (flatten instance_tensor)).

(** The archive format of the dataset: [data] is N×T×H×W×9, [gt] and
    [gt_instance] are N×H×W×1. *)
Definition archive_format (f : gmap string Tensor) (N T H W : nat) : Prop :=
  ∃ data gt gt_instance,
    f !! "data" = Some data ∧ shape data = [N; T; H; W; 9] ∧
    f !! "gt" = Some gt ∧ shape gt = [N; H; W; 1] ∧
    f !! "gt_instance" = Some gt_instance ∧ shape gt_instance = [N; H; W; 1].

(** [lo] and [hi] are the least and the greatest value of [coord] over
    the true pixels of the H×W plane [mask], and both are attained. *)
Definition extent_of (mask : nat -> nat -> Z) (H W : nat)
    (coord : nat -> nat -> nat) (lo hi : Z) : Prop :=
  (∃ r c, r < H ∧ c < W ∧ mask r c ≠ 0%Z ∧ lo = Z.of_nat (coord r c)) ∧
  (∃ r c, r < H ∧ c < W ∧ mask r c ≠ 0%Z ∧ hi = Z.of_nat (coord r c)) ∧
  (∀ r c, r < H -> c < W -> mask r c ≠ 0%Z ->
          (lo <= Z.of_nat (coord r c) <= hi)%Z).

(** [v] is the least of the values [value r c] over the true pixels of
    the H×W plane [mask], and it is attained. *)
Definition least_at (mask value : nat -> nat -> Z) (H W : nat) (v : Z) : Prop :=
  (∃ r c, r < H ∧ c < W ∧ mask r c ≠ 0%Z ∧ value r c = v) ∧
  (∀ r c, r < H -> c < W -> mask r c ≠ 0%Z -> (v <= value r c)%Z).

(** The band indices of a dataset select channels of a 9-band image. *)
Definition band_indices_valid (self : ZueriCrop) : Prop :=
  ∃ k, shape (band_indices self) = [k] ∧
       ∀ j, j < k -> (0 <= elt (band_indices self) [j] < 9)%Z.

(** The dataset can read an archive of the dataset format. *)
Definition readable (self : ZueriCrop) (w : World) (N T H W : nat) : Prop :=
  h5py_installed w = true ∧ band_indices_valid self ∧
  ∃ f, h5py_File w (filepath self) = Ok f ∧ archive_format f N T H W.

(** ** Example archives *)

(** An N×H×W×K array from nested lists. *)
Definition array4 (dt : DType) (s : list nat) (l : list (list (list (list Z)))) : Tensor :=
  mkTensor dt s
    (fun ix => nth (nth 3 ix 0) (nth (nth 2 ix 0) (nth (nth 1 ix 0) (nth (nth 0 ix 0) l []) []) []) 0%Z).

(** An image array N×T×H×W×C whose elements are the channel numbers. *)
Definition channel_data (s : list nat) : Tensor :=
  mkTensor Int32 s (fun ix => Z.of_nat (nth 4 ix 0)).

Definition world_of (datasets : gmap string Tensor) : World :=
  mkWorld true {[ "data/ZueriCrop.hdf5" := HDF5 datasets; "data/labels.csv" := OtherFile ]} ∅.

Definition dataset_of (bands : pyobj) (indices : list Z) : ZueriCrop :=
  mkZueriCrop (to Int64 (torch_tensor1 Int64 indices)) "data" bands None false false
    "data/ZueriCrop.hdf5".

(** One series of a 1×5 region with instance ids 0,0,2,2,5 and class
    values 0,0,7,4,9. *)
Definition example_gt : Tensor :=
  array4 Int32 [1; 1; 5; 1] [[[[0]; [0]; [7]; [4]; [9]]]]%Z.
Definition example_gt_instance : Tensor :=
  array4 Int32 [1; 1; 5; 1] [[[[0]; [0]; [2]; [2]; [5]]]]%Z.

Definition example_archive : gmap string Tensor :=
  {[ "data" := channel_data [1; 2; 1; 5; 9];
     "gt" := example_gt;
     "gt_instance" := example_gt_instance ]}.

(** One series of a single pixel with two instance channels, both 3. *)
Definition two_channel_archive : gmap string Tensor :=
  {[ "data" := channel_data [1; 1; 1; 1; 9];
     "gt" := array4 Int32 [1; 1; 1; 1] [[[[6]]]]%Z;
     "gt_instance" := array4 Int32 [1; 1; 1; 2] [[[[3; 3]]]]%Z ]}.

(** One series of a single pixel with two class channels. *)
Definition two_class_channel_archive : gmap string Tensor :=
  {[ "data" := channel_data [1; 1; 1; 1; 9];
     "gt" := array4 Int32 [1; 1; 1; 2] [[[[6; 4]]]]%Z;
     "gt_instance" := array4 Int32 [1; 1; 1; 1] [[[[3]]]]%Z ]}.

(** One series of a 1×2 region that is background only. *)
Definition background_archive : gmap string Tensor :=
  {[ "data" := channel_data [1; 1; 1; 2; 9];
     "gt" := array4 Int32 [1; 1; 2; 1] [[[[0]; [0]]]]%Z;
     "gt_instance" := array4 Int32 [1; 1; 2; 1] [[[[0]; [0]]]]%Z ]}.

(** One series of a 1×W region whose only instance, id 1, is the pixel at
    column [c]. *)
Definition single_pixel_archive (W c : nat) : gmap string Tensor :=
  {[ "data" := channel_data [1; 1; 1; W; 9];
     "gt" := mkTensor Int32 [1; 1; W; 1] (fun _ => 7%Z);
     "gt_instance" := mkTensor Int32 [1; 1; W; 1]
                        (fun ix => if nth 2 ix 0 =? c then 1%Z else 0%Z) ]}.

(** A region of 16777218 columns with the instance at column 16777217,
    the first integer that is not a 32-bit float. *)
Definition wide_archive : gmap string Tensor :=
  single_pixel_archive (Z.to_nat 16777218) (Z.to_nat 16777217).

(** A root directory that holds the archive but not the label table. *)
Definition missing_labels_world : World :=
  mkWorld true {[ "data/ZueriCrop.hdf5" := HDF5 example_archive ]} ∅.

(** The dataset with all nine bands. *)
Definition all_bands_dataset : ZueriCrop :=
  dataset_of (PyTuple band_names) [0; 1; 2; 3; 4; 5; 6; 7; 8]%Z.

(** A sample as [__getitem__] returns it for the example archive: two
    time steps of nine channels over the 1×5 region and the two instance
    planes. *)
Definition plot_sample : Sample :=
  {[ "image" := mkTensor Int32 [2; 9; 1; 5] (fun ix => Z.of_nat (nth 1 ix 0));
     "mask" := mkTensor UInt8 [2; 1; 5]
                 (fun ix => match ix with
                            | [0; 0; 2] | [0; 0; 3] | [1; 0; 4] => 1%Z
                            | _ => 0%Z
                            end) ]}.




(** What is observed of a result: the shape and the elements of a field
    of the sample. *)
Definition field_shape (r : result Sample) (key : string) : option (list nat) :=
  match r with
  | Ok sample => shape <$> sample !! key
  | Raise _ => None
  end.

Definition field_values (r : result Sample) (key : string) : option (list Z) :=
  match r with
  | Ok sample => flatten <$> sample !! key
  | Raise _ => None
  end.

(** ** Further definitions for the properties of the class *)

(** An image that [plot] can draw: T×C×H×W with T within the 64-bit
    integers, not boolean, and with at least one pixel. *)
Definition image_to_plot (image : Tensor) (T C H W : nat) : Prop :=
  shape image = [T; C; H; W] ∧ is_Bool (dtype image) = false ∧
  H ≠ 0 ∧ W ≠ 0 ∧ (Z.of_nat T <= 2 ^ 63)%Z.

(** A mask or prediction that [plot] can draw: I planes of H×W, I at
    least 1, not boolean, and with at least one pixel. *)
Definition planes_to_plot (t : Tensor) (I H W : nat) : Prop :=
  shape t = [I; H; W] ∧ is_Bool (dtype t) = false ∧ I ≠ 0 ∧ H ≠ 0 ∧ W ≠ 0.

(** The dataset with its transform removed. *)
Definition without_transforms (self : ZueriCrop) : ZueriCrop :=
  mkZueriCrop (band_indices self) (root self) (bands self) None
    (download self) (checksum self) (filepath self).

(** An empty root directory, and a remote that serves both files with the
    checksums of the class. *)
Definition remote_world : World :=
  mkWorld true ∅
    {[ url +:+ "ZueriCrop.hdf5" := (HDF5 example_archive, "1635231df67f3d25f4f1e62c98e221a4");
       url +:+ "labels.csv" := (OtherFile, "5118398c7a5bbc246f5f6bb35d8d529b") ]}.

(** An archive that holds the images only. *)
Definition images_only_archive : gmap string Tensor :=
  {[ "data" := channel_data [1; 2; 1; 5; 9] ]}.

(** The exceptions that report a missing library or a missing file. *)
Definition missing_environment (e : exn) : bool :=
  match e with
  | FileNotFoundError | DependencyNotFoundError | ModuleNotFoundError
  | DatasetNotFoundError => true
  | _ => false
  end.

(** ** Lemmas on the error monad *)

Lemma bind_Ok_inv {A B : Type} (m : result A) (k : A -> result B) (b : B) :
  m ≫= k = Ok b -> ∃ a, m = Ok a ∧ k a = Ok b.
Proof. destruct m as [a|e]; simpl; [eauto | discriminate]. Qed.

Lemma bind_Ok {A B : Type} (m : result A) (k : A -> result B) (a : A) :
  m = Ok a -> m ≫= k = k a.
Proof. intros ->. reflexivity. Qed.

Ltac inv_bind H :=
  let a := fresh "a" in
  let Ha := fresh "Ha" in
  apply bind_Ok_inv in H; destruct H as (a & Ha & H).

Lemma for_each_Ok_inv {A B : Type} (f : A -> result B) (l : list A) (bs : list B) :
  for_each f l = Ok bs -> Forall2 (fun a b => f a = Ok b) l bs.
Proof.
  revert bs. induction l as [|a l IH]; intros bs H; simpl in H.
  - injection H as <-. constructor.
  - inv_bind H. inv_bind H. injection H as <-. constructor; auto.
Qed.

Lemma for_each_Ok {A B : Type} (f : A -> result B) (l : list A) :
  Forall (fun a => ∃ b, f a = Ok b) l -> ∃ bs, for_each f l = Ok bs.
Proof.
  induction 1 as [|a l [b Hb] _ [bs Hbs]]; simpl.
  - eauto.
  - rewrite Hb. simpl. rewrite Hbs. simpl. eauto.
Qed.

Lemma for_each_map {A B : Type} (f : A -> result B) (g : A -> B) (l : list A) :
  Forall (fun a => f a = Ok (g a)) l -> for_each f l = Ok (map g l).
Proof.
  induction 1 as [|a l Ha _ IH]; simpl; [reflexivity|].
  rewrite Ha. simpl. rewrite IH. reflexivity.
Qed.

(** ** Lemmas on indices and one-dimensional tensors *)

Lemma in_all_indices (s ix : list nat) :
  In ix (all_indices s) <-> Forall2 lt ix s.
Proof.
  revert ix. induction s as [|d s IH]; intros ix; simpl.
  - split.
    + intros [<-|[]]. constructor.
    + intros H. inversion H. now left.
  - rewrite in_flat_map. split.
    + intros (i & Hi & Hix). apply in_map_iff in Hix as (jx & <- & Hjx).
      apply in_seq in Hi. constructor; [lia|]. now apply IH.
    + intros H. inversion H as [|i d' jx s' Hlt Hrest]; subst.
      exists i. split; [apply in_seq; lia|].
      apply in_map_iff. exists jx. split; [reflexivity|]. now apply IH.
Qed.

Lemma map_nth_seq (l : list Z) :
  map (fun i => nth i l 0%Z) (seq 0 (length l)) = l.
Proof.
  induction l as [|x l IH]; simpl; [reflexivity|].
  f_equal. rewrite <- seq_shift, map_map. exact IH.
Qed.

Lemma all_indices_1 (n : nat) : all_indices [n] = map (fun i => [i]) (seq 0 n).
Proof.
  simpl. induction (seq 0 n) as [|i l IH]; simpl; [reflexivity|]. now rewrite IH.
Qed.

Lemma flatten_tensor1 (dt : DType) (l : list Z) : flatten (tensor1 dt l) = l.
Proof.
  unfold flatten, tensor1. cbn [shape elt]. rewrite all_indices_1, map_map. simpl.
  apply map_nth_seq.
Qed.

(** ** Lemmas on [sort_unique] *)

Lemma in_insert_unique (x y : Z) (l : list Z) :
  In y (insert_unique x l) <-> y = x ∨ In y l.
Proof.
  induction l as [|z l IH]; simpl.
  - intuition.
  - destruct (Z.ltb_spec x z); [simpl; intuition|].
    destruct (Z.eqb_spec x z); simpl; [subst; intuition|].
    rewrite IH. intuition.
Qed.

Lemma in_sort_unique (y : Z) (l : list Z) : In y (sort_unique l) <-> In y l.
Proof.
  induction l as [|x l IH]; simpl; [reflexivity|].
  rewrite in_insert_unique, IH. intuition.
Qed.

Lemma insert_unique_sorted (x : Z) (l : list Z) :
  StronglySorted Z.lt l -> StronglySorted Z.lt (insert_unique x l).
Proof.
  induction 1 as [|z l Hs IH Hall]; simpl.
  - repeat constructor.
  - destruct (Z.ltb_spec x z).
    + constructor; [now constructor|]. constructor; [assumption|].
      eapply Forall_impl; [exact Hall|]. simpl. intros. lia.
    + destruct (Z.eqb_spec x z); [now constructor|].
      constructor; [assumption|]. apply Forall_forall. intros y Hy.
      apply list_elem_of_In, in_insert_unique in Hy as [->|Hy]; [lia|].
      rewrite Forall_forall in Hall. apply Hall. now apply list_elem_of_In.
Qed.

Lemma sort_unique_sorted (l : list Z) : StronglySorted Z.lt (sort_unique l).
Proof.
  induction l as [|x l IH]; simpl; [constructor|]. now apply insert_unique_sorted.
Qed.

Lemma filter_sorted (p : Z -> bool) (l : list Z) :
  StronglySorted Z.lt l -> StronglySorted Z.lt (List.filter p l).
Proof.
  induction 1 as [|z l Hs IH Hall]; simpl; [constructor|].
  destruct (p z); [|assumption]. constructor; [assumption|].
  apply Forall_forall. intros y Hy. apply list_elem_of_In, filter_In in Hy as [Hy _].
  rewrite Forall_forall in Hall. apply Hall. now apply list_elem_of_In.
Qed.

Lemma instance_id_list_sorted (t : Tensor) : StronglySorted Z.lt (instance_id_list t).
Proof. apply filter_sorted, sort_unique_sorted. Qed.

Lemma in_flatten (t : Tensor) (v : Z) :
  In v (flatten t) <-> ∃ ix, Forall2 lt ix (shape t) ∧ elt t ix = v.
Proof.
  unfold flatten. rewrite in_map_iff. split.
  - intros (ix & <- & Hix). exists ix. split; [now apply in_all_indices | reflexivity].
  - intros (ix & Hix & <-). exists ix. split; [reflexivity | now apply in_all_indices].
Qed.

Lemma in_instance_id_list (t : Tensor) (v : Z) :
  In v (instance_id_list t) <->
  v ≠ 0%Z ∧ ∃ ix, Forall2 lt ix (shape t) ∧ elt t ix = v.
Proof.
  unfold instance_id_list. rewrite filter_In, in_sort_unique, in_flatten.
  rewrite negb_true_iff, Z.eqb_neq. tauto.
Qed.

(** ** The instance ids and the instance masks *)

Lemma filter_map_comm {A B : Type} (p : B -> bool) (g : A -> B) (l : list A) :
  List.filter p (map g l) = map g (List.filter (fun a => p (g a)) l).
Proof.
  induction l as [|a l IH]; simpl; [reflexivity|].
  destruct (p (g a)); simpl; now rewrite IH.
Qed.

Lemma filter_ext_eq {A : Type} (p q : A -> bool) (l : list A) :
  (∀ a, p a = q a) -> List.filter p l = List.filter q l.
Proof.
  intros H. induction l as [|a l IH]; simpl; [reflexivity|].
  rewrite H, IH. reflexivity.
Qed.

Lemma nonzero_ne_scalar (dt : DType) (l : list Z) :
  map (fun ix => nth (hd 0 ix) l 0%Z) (nonzero (ne_scalar (tensor1 dt l) 0))
  = List.filter (fun v => negb (v =? 0)%Z) l.
Proof.
  unfold nonzero. cbn [ne_scalar tensor1 shape elt].
  rewrite all_indices_1, filter_map_comm, map_map. cbn [hd].
  transitivity (List.filter (fun v => negb (v =? 0)%Z)
                  (map (fun i => nth i l 0%Z) (seq 0 (length l))));
    [|now rewrite map_nth_seq].
  rewrite filter_map_comm.
  f_equal. apply filter_ext_eq. intros i.
  destruct (nth i l 0%Z =? 0)%Z; reflexivity.
Qed.

Lemma nonzero_ne_scalar_singletons (dt : DType) (l : list Z) :
  Forall (fun ix => ∃ j, ix = [j]) (nonzero (ne_scalar (tensor1 dt l) 0)).
Proof.
  unfold nonzero. cbn [ne_scalar tensor1 shape elt]. rewrite all_indices_1.
  apply Forall_forall. intros ix Hix.
  apply list_elem_of_In, filter_In in Hix as [Hix _].
  apply in_map_iff in Hix as (j & <- & _). eauto.
Qed.

Lemma instance_ids_ok (t : Tensor) :
  ∃ ids, index_bool (unique t) (ne_scalar (unique t) 0) = Ok ids ∧
    shape ids = [length (instance_id_list t)] ∧
    ∀ i, i < length (instance_id_list t) ->
         elt ids [i] = nth i (instance_id_list t) 0%Z.
Proof.
  unfold index_bool, unique.
  set (su := sort_unique (flatten t)).
  set (sel := nonzero (ne_scalar (tensor1 (dtype t) su) 0)).
  assert (Hmap : map (fun ix => nth (hd 0 ix) su 0%Z) sel = instance_id_list t)
    by apply nonzero_ne_scalar.
  assert (Hlen : length sel = length (instance_id_list t))
    by (rewrite <- Hmap; now rewrite length_map).
  cbn [ne_scalar tensor1 shape elt length take].
  rewrite decide_True by reflexivity.
  eexists. split; [reflexivity|]. cbn [shape elt drop].
  split; [now rewrite Hlen|].
  intros i Hi. rewrite <- Hmap, app_nil_r.
  set (g := fun ix : list nat => nth (hd 0 ix) su 0%Z).
  change (g (nth i sel []) = nth i (map g sel) 0%Z).
  rewrite (nth_indep (map g sel) 0%Z (g [])) by (rewrite length_map; lia).
  symmetry. apply map_nth.
Qed.

Lemma broadcast_dim_1_r (a : nat) : broadcast_dim a 1 = Some a.
Proof.
  unfold broadcast_dim. destruct (Nat.eqb_spec a 1); [congruence|].
  destruct (Nat.eqb_spec a 1); [congruence|]. reflexivity.
Qed.

Lemma broadcast_dim_1_l (b : nat) : broadcast_dim 1 b = Some b.
Proof.
  unfold broadcast_dim. destruct (Nat.eqb_spec 1 b); [congruence|]. reflexivity.
Qed.

Lemma broadcast_shapes_masks (H W I : nat) :
  broadcast_shapes [1; H; W] [I; 1; 1] = Some [I; H; W].
Proof.
  unfold broadcast_shapes. simpl.
  now rewrite !broadcast_dim_1_r, broadcast_dim_1_l.
Qed.

Lemma clamp_index (d i : nat) : i < d -> (if d =? 1 then 0 else i) = i.
Proof. intros Hi. destruct (Nat.eqb_spec d 1); lia. Qed.

(** With a single instance channel the masks are one plane per id. *)
Lemma eq_tensor_masks (inst ids : Tensor) (H W I : nat) :
  shape inst = [1; H; W] -> shape ids = [I; 1; 1] ->
  ∃ masks, eq_tensor inst ids = Ok masks ∧ shape masks = [I; H; W] ∧
    dtype masks = Bool ∧
    ∀ i h w, i < I -> h < H -> w < W ->
      elt masks [i; h; w]
      = if (elt inst [0%nat; h; w] =? elt ids [i; 0%nat; 0%nat])%Z then 1%Z else 0%Z.
Proof.
  intros Hs Hi. unfold eq_tensor. rewrite Hs, Hi, broadcast_shapes_masks.
  eexists. split; [reflexivity|]. cbn [shape dtype elt].
  split; [reflexivity|]. split; [reflexivity|].
  intros i h w Hi' Hh Hw. unfold broadcast_index. cbn.
  now rewrite !clamp_index by assumption.
Qed.

(** ** Labels and boxes of one plane *)

Lemma map_nth_seq_gen {A B : Type} (g : A -> B) (d : A) (l : list A) :
  map (fun i => g (nth i l d)) (seq 0 (length l)) = map g l.
Proof.
  induction l as [|x l IH]; simpl; [reflexivity|].
  f_equal. rewrite <- seq_shift, map_map. exact IH.
Qed.

Lemma in_nonzero (m : Tensor) (ix : list nat) :
  In ix (nonzero m) <-> Forall2 lt ix (shape m) ∧ elt m ix ≠ 0%Z.
Proof.
  unfold nonzero. rewrite filter_In, in_all_indices, negb_true_iff, Z.eqb_neq.
  reflexivity.
Qed.

Lemma index_bool_full (t m : Tensor) :
  shape t = shape m ->
  ∃ r, index_bool t m = Ok r ∧ flatten r = map (elt t) (nonzero m).
Proof.
  intros Hs. unfold index_bool. rewrite Hs.
  rewrite decide_True by apply firstn_all.
  eexists. split; [reflexivity|].
  unfold flatten. cbn [shape elt]. rewrite drop_all, all_indices_1, map_map.
  rewrite <- (map_nth_seq_gen (elt t) [] (nonzero m)).
  apply map_ext. intros i. now rewrite app_nil_r.
Qed.

Lemma index_bool_same_rank (t m r : Tensor) :
  length (shape t) = length (shape m) ->
  index_bool t m = Ok r -> shape t = shape m.
Proof.
  intros Hlen. unfold index_bool. case_decide as Hd; [|discriminate].
  intros _. rewrite <- Hlen in Hd. now rewrite firstn_all in Hd.
Qed.

Lemma sorted_head_least (x : Z) (l : list Z) :
  StronglySorted Z.lt (x :: l) -> ∀ y, In y (x :: l) -> (x <= y)%Z.
Proof.
  intros Hs y [->|Hy]; [lia|].
  apply StronglySorted_inv in Hs as [_ Hall].
  rewrite Forall_forall in Hall. apply list_elem_of_In, Hall in Hy. lia.
Qed.

(** The first element of the sorted distinct values is the least value. *)
Lemma first_unique_least (t : Tensor) (v : Z) :
  first_element (unique t) = Ok v ->
  In v (flatten t) ∧ ∀ y, In y (flatten t) -> (v <= y)%Z.
Proof.
  unfold first_element, unique. rewrite flatten_tensor1.
  destruct (sort_unique (flatten t)) as [|x l] eqn:E; [discriminate|].
  intros [= ->]. split.
  - apply in_sort_unique. rewrite E. now left.
  - intros y Hy. apply (sorted_head_least v l).
    + rewrite <- E. apply sort_unique_sorted.
    + rewrite <- E. now apply in_sort_unique.
Qed.

Lemma first_unique_Ok (t : Tensor) (y : Z) :
  In y (flatten t) -> ∃ v, first_element (unique t) = Ok v.
Proof.
  intros Hy. unfold first_element, unique. rewrite flatten_tensor1.
  apply in_sort_unique in Hy.
  destruct (sort_unique (flatten t)); [destruct Hy | eauto].
Qed.

Lemma shape_unsqueeze0 (m : Tensor) : shape (unsqueeze 0 m) = 1 :: shape m.
Proof. reflexivity. Qed.

Lemma in_nonzero_unsqueeze0 (m : Tensor) (ix : list nat) :
  In ix (nonzero (unsqueeze 0 m)) <->
  ∃ jx, ix = 0 :: jx ∧ Forall2 lt jx (shape m) ∧ elt m jx ≠ 0%Z.
Proof.
  rewrite in_nonzero, shape_unsqueeze0. cbn [unsqueeze elt]. split.
  - intros [Hix Hne]. inversion Hix as [|i d jx s Hi Hjx]; subst.
    assert (i = 0) as -> by lia. exists jx. simpl in Hne. auto.
  - intros (jx & -> & Hjx & Hne). split; [constructor; [lia|assumption]|].
    exact Hne.
Qed.

(** If a label is assigned, the class tensor has one channel and the
    shape of the plane, and the label is the least class value on the
    true pixels. *)
Lemma instance_label_inv (mt mask : Tensor) (v : Z) :
  length (shape mt) = S (length (shape mask)) ->
  instance_label mt mask = Ok v ->
  shape mt = 1 :: shape mask ∧
  (∃ jx, Forall2 lt jx (shape mask) ∧ elt mask jx ≠ 0%Z ∧ elt mt (0 :: jx) = v) ∧
  (∀ jx, Forall2 lt jx (shape mask) -> elt mask jx ≠ 0%Z -> (v <= elt mt (0%nat :: jx))%Z).
Proof.
  intros Hrank H. unfold instance_label in H. inv_bind H.
  assert (Hs : shape mt = 1 :: shape mask).
  { apply (index_bool_same_rank mt (unsqueeze 0 mask) a); [|assumption].
    rewrite shape_unsqueeze0. exact Hrank. }
  destruct (index_bool_full mt (unsqueeze 0 mask) Hs) as (r & Hr & Hflat).
  rewrite Hr in Ha. injection Ha as <-.
  apply first_unique_least in H as [Hin Hleast]. rewrite Hflat in Hin, Hleast.
  split; [exact Hs|]. split.
  - apply in_map_iff in Hin as (ix & Hv & Hix).
    apply in_nonzero_unsqueeze0 in Hix as (jx & -> & Hjx & Hne). eauto.
  - intros jx Hjx Hne. apply Hleast, in_map_iff. exists (0 :: jx).
    split; [reflexivity|]. apply in_nonzero_unsqueeze0. eauto.
Qed.

Lemma instance_label_Ok (mt mask : Tensor) (jx : list nat) :
  shape mt = 1 :: shape mask ->
  Forall2 lt jx (shape mask) -> elt mask jx ≠ 0%Z ->
  ∃ v, instance_label mt mask = Ok v.
Proof.
  intros Hs Hjx Hne. unfold instance_label.
  destruct (index_bool_full mt (unsqueeze 0 mask) Hs) as (r & Hr & Hflat).
  rewrite Hr. simpl. apply (first_unique_Ok r (elt mt (0 :: jx))).
  rewrite Hflat. apply in_map_iff. exists (0 :: jx). split; [reflexivity|].
  apply in_nonzero_unsqueeze0. eauto.
Qed.

Lemma foldl_min_spec (l : list Z) (x : Z) :
  In (foldl Z.min x l) (x :: l) ∧ ∀ y, In y (x :: l) -> (foldl Z.min x l <= y)%Z.
Proof.
  revert x. induction l as [|z l IH]; intros x; simpl.
  - split; [now left|]. intros y [->|[]]. lia.
  - destruct (IH (Z.min x z)) as [Hin Hle]. split.
    + destruct Hin as [Hin|Hin]; [|now right; right].
      rewrite <- Hin. destruct (Z.min_spec x z) as [[_ ->]|[_ ->]]; auto.
    + intros y Hy.
      assert (foldl Z.min (Z.min x z) l <= Z.min x z)%Z by (apply Hle; now left).
      destruct Hy as [->|[->|Hy]]; [lia|lia|]. apply Hle. now right.
Qed.

Lemma foldl_max_spec (l : list Z) (x : Z) :
  In (foldl Z.max x l) (x :: l) ∧ ∀ y, In y (x :: l) -> (y <= foldl Z.max x l)%Z.
Proof.
  revert x. induction l as [|z l IH]; intros x; simpl.
  - split; [now left|]. intros y [->|[]]. lia.
  - destruct (IH (Z.max x z)) as [Hin Hle]. split.
    + destruct Hin as [Hin|Hin]; [|now right; right].
      rewrite <- Hin. destruct (Z.max_spec x z) as [[_ ->]|[_ ->]]; auto.
    + intros y Hy.
      assert (Z.max x z <= foldl Z.max (Z.max x z) l)%Z by (apply Hle; now left).
      destruct Hy as [->|[->|Hy]]; [lia|lia|]. apply Hle. now right.
Qed.

Lemma torch_min_spec (dt : DType) (l : list Z) (v : Z) :
  torch_min (tensor1 dt l) = Ok v -> In v l ∧ ∀ y, In y l -> (v <= y)%Z.
Proof.
  unfold torch_min. rewrite flatten_tensor1. destruct l as [|x l]; [discriminate|].
  intros [= <-]. apply foldl_min_spec.
Qed.

Lemma torch_max_spec (dt : DType) (l : list Z) (v : Z) :
  torch_max (tensor1 dt l) = Ok v -> In v l ∧ ∀ y, In y l -> (y <= v)%Z.
Proof.
  unfold torch_max. rewrite flatten_tensor1. destruct l as [|x l]; [discriminate|].
  intros [= <-]. apply foldl_max_spec.
Qed.

Lemma in_nonzero_2 (m : Tensor) (H W : nat) (ix : list nat) :
  shape m = [H; W] ->
  In ix (nonzero m) <-> ∃ r c, ix = [r; c] ∧ r < H ∧ c < W ∧ elt m [r; c] ≠ 0%Z.
Proof.
  intros Hs. rewrite in_nonzero, Hs. split.
  - intros [Hix Hne]. inversion Hix as [|r ? jx ? Hr Hjx]; subst.
    inversion Hjx as [|c ? kx ? Hc Hkx]; subst. inversion Hkx; subst.
    exists r, c. auto.
  - intros (r & c & -> & Hr & Hc & Hne). split; [|assumption].
    repeat constructor; assumption.
Qed.

Lemma coordinate_extent (m : Tensor) (H W k : nat) (lo hi : Z) :
  shape m = [H; W] ->
  let l := map (fun ix => Z.of_nat (nth k ix 0)) (nonzero m) in
  (In lo l ∧ ∀ y, In y l -> (lo <= y)%Z) ->
  (In hi l ∧ ∀ y, In y l -> (y <= hi)%Z) ->
  extent_of (fun r c => elt m [r; c]) H W (fun r c => nth k [r; c] 0) lo hi.
Proof.
  intros Hs l [Hlo Hlo'] [Hhi Hhi']. unfold extent_of. repeat split.
  - apply in_map_iff in Hlo as (ix & <- & Hix).
    apply (in_nonzero_2 m H W) in Hix as (r & c & -> & ? & ? & ?); [|assumption].
    exists r, c. auto.
  - apply in_map_iff in Hhi as (ix & <- & Hix).
    apply (in_nonzero_2 m H W) in Hix as (r & c & -> & ? & ? & ?); [|assumption].
    exists r, c. auto.
  - apply Hlo', in_map_iff. exists [r; c]. split; [reflexivity|].
    apply (in_nonzero_2 m H W); eauto 10.
  - apply Hhi', in_map_iff. exists [r; c]. split; [reflexivity|].
    apply (in_nonzero_2 m H W); eauto 10.
Qed.

(** The box of a plane: the extents of the true pixels, columns first. *)
Lemma instance_box_inv (m : Tensor) (H W : nat) (box : list Z) :
  shape m = [H; W] -> instance_box m = Ok box ->
  ∃ xmin ymin xmax ymax, box = [xmin; ymin; xmax; ymax] ∧
    extent_of (fun r c => elt m [r; c]) H W (fun r c => c) xmin xmax ∧
    extent_of (fun r c => elt m [r; c]) H W (fun r c => r) ymin ymax.
Proof.
  intros Hs Hbox. unfold instance_box, where_ in Hbox. rewrite Hs in Hbox.
  cbn [length seq map tuple_get lookup list_lookup] in Hbox.
  cbn [mbind result_bind] in Hbox.
  inv_bind Hbox. inv_bind Hbox. inv_bind Hbox. inv_bind Hbox.
  injection Hbox as <-.
  apply torch_min_spec in Ha. apply torch_max_spec in Ha0.
  apply torch_min_spec in Ha1. apply torch_max_spec in Ha2.
  exists a, a1, a0, a2. split; [reflexivity|]. split.
  - exact (coordinate_extent m H W 1 a a0 Hs Ha Ha0).
  - exact (coordinate_extent m H W 0 a1 a2 Hs Ha1 Ha2).
Qed.

Lemma instance_box_Ok (m : Tensor) (H W r c : nat) :
  shape m = [H; W] -> r < H -> c < W -> elt m [r; c] ≠ 0%Z ->
  ∃ box, instance_box m = Ok box.
Proof.
  intros Hs Hr Hc Hne. unfold instance_box, where_. rewrite Hs.
  cbn [length seq map tuple_get lookup list_lookup]. cbn [mbind result_bind].
  assert (Hin : In [r; c] (nonzero m)) by (apply (in_nonzero_2 m H W); eauto 10).
  unfold torch_min, torch_max. rewrite !flatten_tensor1.
  destruct (nonzero m) as [|ix nz]; [destruct Hin|]. simpl. eauto.
Qed.

(** ** The steps of [target_of] *)

Lemma target_of_steps (mt it masks boxes labels : Tensor) :
  target_of mt it = Ok (masks, boxes, labels) ->
  ∃ ids m planes labels_list boxes_list b,
    index_bool (unique it) (ne_scalar (unique it) 0) = Ok ids ∧
    eq_tensor it (unsqueeze 2 (unsqueeze 1 ids)) = Ok m ∧
    iterate m = Ok planes ∧
    for_each (instance_label mt) planes = Ok labels_list ∧
    for_each instance_box planes = Ok boxes_list ∧
    torch_tensor2 Int64 boxes_list = Ok b ∧
    masks = to UInt8 m ∧ boxes = to Float32 b ∧
    labels = to Int64 (torch_tensor1 (dtype mt) labels_list).
Proof.
  intros H. unfold target_of in H.
  inv_bind H. inv_bind H. inv_bind H. inv_bind H. inv_bind H. inv_bind H. inv_bind H.
  injection H as <- <- <-.
  rewrite Ha1 in Ha3. injection Ha3 as <-.
  exists a, a0, a1, a2, a4, a5. repeat split; assumption.
Qed.

Lemma Forall2_map_seq {A B : Type} (P : A -> B -> Prop) (g : nat -> A)
    (bs : list B) (d : B) (n a : nat) :
  Forall2 P (map g (seq a n)) bs ->
  length bs = n ∧ ∀ i, i < n -> P (g (a + i)) (nth i bs d).
Proof.
  revert a bs. induction n as [|n IH]; intros a bs H; simpl in H.
  - inversion H; subst. split; [reflexivity|]. intros i Hi. lia.
  - inversion H as [|x y l l' Hxy Hrest]; subst.
    apply IH in Hrest as [Hlen Hnth]. split; [simpl; lia|].
    intros [|i] Hi; simpl.
    + now rewrite Nat.add_0_r.
    + replace (a + S i) with (S a + i) by lia. apply Hnth. lia.
Qed.

Lemma Forall_map_seq {A : Type} (P : A -> Prop) (g : nat -> A) (n : nat) :
  (∀ i, i < n -> P (g i)) -> Forall P (map g (seq 0 n)).
Proof.
  intros H. apply Forall_forall. intros x Hx.
  apply list_elem_of_In, in_map_iff in Hx as (i & <- & Hi).
  apply in_seq in Hi. apply H. lia.
Qed.

Lemma shape_ids3 (ids : Tensor) (k : nat) :
  shape ids = [k] -> shape (unsqueeze 2 (unsqueeze 1 ids)) = [k; 1; 1].
Proof. intros Hs. cbn [unsqueeze shape]. rewrite Hs. reflexivity. Qed.

Lemma elt_ids3 (ids : Tensor) (i : nat) :
  elt (unsqueeze 2 (unsqueeze 1 ids)) [i; 0; 0] = elt ids [i].
Proof. reflexivity. Qed.

(** The masks tensor has one plane per size of the broadcast first
    dimension, each of the height and width of the instance tensor, and
    holds 0 and 1 only. *)
Lemma eq_tensor_rank3 (it ids m : Tensor) (Ki H W k : nat) :
  shape it = [Ki; H; W] -> shape ids = [k; 1; 1] ->
  eq_tensor it ids = Ok m ->
  ∃ I, broadcast_dim Ki k = Some I ∧ shape m = [I; H; W] ∧ dtype m = Bool ∧
       ∀ ix, elt m ix = 0%Z ∨ elt m ix = 1%Z.
Proof.
  intros Hit Hids. unfold eq_tensor, broadcast_shapes. rewrite Hit, Hids. simpl.
  rewrite !broadcast_dim_1_r.
  destruct (broadcast_dim Ki k) as [I|]; [|discriminate].
  intros [= <-]. exists I. cbn [shape dtype elt]. repeat split.
  intros ix. destruct (_ =? _)%Z; auto.
Qed.

Lemma instance_box_length (m : Tensor) (box : list Z) :
  instance_box m = Ok box -> length box = 4.
Proof.
  unfold instance_box. intros H.
  inv_bind H. inv_bind H. inv_bind H. inv_bind H.
  inv_bind H. inv_bind H. inv_bind H. inv_bind H.
  injection H as <-. reflexivity.
Qed.

(** [torch.tensor] on a nonempty list of boxes. *)
Lemma torch_tensor2_boxes (rows : list (list Z)) (b : Tensor) :
  Forall (fun r => length r = 4) rows ->
  torch_tensor2 Int64 rows = Ok b ->
  (rows = [] -> shape b = [0]) ∧
  (rows ≠ [] -> shape b = [length rows; 4] ∧
     ∀ i j, elt b [i; j] = nth j (nth i rows []) 0%Z).
Proof.
  intros Hall. unfold torch_tensor2. destruct rows as [|r rows].
  - intros [= <-]. split; [reflexivity | congruence].
  - destruct (forallb _ _); [|discriminate]. intros [= <-].
    split; [discriminate|]. intros _. cbn [shape elt].
    apply Forall_inv in Hall. rewrite Hall. split; reflexivity.
Qed.

Lemma torch_tensor2_Ok (rows : list (list Z)) :
  Forall (fun r => length r = 4) rows -> ∃ b, torch_tensor2 Int64 rows = Ok b.
Proof.
  intros Hall. unfold torch_tensor2. destruct rows as [|r rows]; [eauto|].
  assert (Hr : length r = 4) by (now apply Forall_inv in Hall).
  replace (forallb _ (r :: rows)) with true; [eauto|].
  symmetry. apply forallb_forall. intros r' Hr'.
  rewrite Forall_forall in Hall. apply list_elem_of_In, Hall in Hr'.
  rewrite Hr, Hr'. reflexivity.
Qed.

Lemma shape_torch_tensor1 (dt : DType) (l : list Z) :
  shape (torch_tensor1 dt l) = [length l].
Proof. destruct l; reflexivity. Qed.

Lemma elt_torch_tensor1 (dt : DType) (l : list Z) (i : nat) :
  i < length l -> elt (torch_tensor1 dt l) [i] = nth i l 0%Z.
Proof. destruct l; simpl; [lia | reflexivity]. Qed.

(** ** What [target_of] returns *)

(** Whatever the number of channels: when [target_of] returns, the masks
    are I planes of 0 and 1, there is one label and one box per plane, the
    label is the least class value on the true pixels of the plane and the
    box is the extent of the true pixels. *)
Lemma target_of_instances (mt it masks boxes labels : Tensor) (Kc Hm Wm Ki H W : nat) :
  shape mt = [Kc; Hm; Wm] -> shape it = [Ki; H; W] ->
  target_of mt it = Ok (masks, boxes, labels) ->
  ∃ I, shape masks = [I; H; W] ∧ dtype masks = UInt8 ∧
    (∀ ix, elt masks ix = 0%Z ∨ elt masks ix = 1%Z) ∧
    shape labels = [I] ∧ dtype labels = Int64 ∧ dtype boxes = Float32 ∧
    (I = 0 -> shape boxes = [0]) ∧
    (I ≠ 0 -> shape boxes = [I; 4]) ∧
    (I ≠ 0 -> Kc = 1 ∧ Hm = H ∧ Wm = W) ∧
    ∀ i, i < I ->
      least_at (fun r c => elt masks [i; r; c]) (fun r c => elt mt [0; r; c]) H W
               (elt labels [i]) ∧
      ∃ xmin ymin xmax ymax,
        extent_of (fun r c => elt masks [i; r; c]) H W (fun r c => c) xmin xmax ∧
        extent_of (fun r c => elt masks [i; r; c]) H W (fun r c => r) ymin ymax ∧
        elt boxes [i; 0] = round_float32 xmin ∧ elt boxes [i; 1] = round_float32 ymin ∧
        elt boxes [i; 2] = round_float32 xmax ∧ elt boxes [i; 3] = round_float32 ymax.
Proof.
  intros Hmt Hit Ht.
  apply target_of_steps in Ht
    as (ids & m & planes & ll & bl & b & Hids & Hm' & Hpl & Hll & Hbl & Hb & -> & -> & ->).
  destruct (instance_ids_ok it) as (ids' & Hids' & Hsids & _).
  rewrite Hids in Hids'. injection Hids' as <-.
  destruct (eq_tensor_rank3 it _ m Ki H W _ Hit (shape_ids3 ids _ Hsids) Hm')
    as (I & _ & Hsm & _ & H01).
  unfold iterate in Hpl. rewrite Hsm in Hpl. injection Hpl as <-.
  apply for_each_Ok_inv, (Forall2_map_seq _ _ _ 0%Z) in Hll as [Hlenl Hlab].
  apply for_each_Ok_inv, (Forall2_map_seq _ _ _ []) in Hbl as [Hlenb Hbox].
  assert (Hrows : Forall (fun r => length r = 4) bl).
  { apply Forall_forall. intros r Hr.
    apply list_elem_of_In, (In_nth _ _ []) in Hr as (i & Hi & <-).
    apply (instance_box_length (slice0 m [H; W] (0 + i))), Hbox. lia. }
  destruct (torch_tensor2_boxes bl b Hrows Hb) as [Hb0 Hb1].
  exists I. cbn [to shape dtype elt convert].
  split; [exact Hsm|]. split; [reflexivity|]. split; [exact H01|].
  split; [now rewrite shape_torch_tensor1, Hlenl|]. split; [reflexivity|].
  split; [reflexivity|].
  split; [intros ->; apply Hb0; now destruct bl|].
  assert (Hne : I ≠ 0 -> bl ≠ []) by (intros HI ->; simpl in Hlenb; lia).
  split; [intros HI; destruct (Hb1 (Hne HI)) as [-> _]; now rewrite Hlenb|].
  split.
  { intros HI. assert (H0 : 0 < I) by lia.
    apply Hlab, instance_label_inv in H0 as [Hs _]; [|now rewrite Hmt].
    rewrite Hmt in Hs. cbn [slice0 shape] in Hs. now injection Hs. }
  intros i Hi.
  pose proof (Hlab i Hi) as Hl. pose proof (Hbox i Hi) as Hbx. simpl in Hl, Hbx.
  apply instance_label_inv in Hl as (_ & (jx & Hjx & Hjne & Hjv) & Hleast);
    [|now rewrite Hmt].
  apply (instance_box_inv _ H W) in Hbx
    as (xmin & ymin & xmax & ymax & Hrow & Hx & Hy); [|reflexivity].
  destruct (Hb1 (Hne ltac:(lia))) as [_ Helt]. rewrite !Helt, Hrow.
  rewrite elt_torch_tensor1 by lia. cbn [nth].
  split; [|exists xmin, ymin, xmax, ymax; split; [exact Hx|]; split; [exact Hy|];
           repeat split; reflexivity].
  cbn [slice0 shape elt] in Hjx, Hjne, Hjv, Hleast. split.
  - inversion Hjx as [|r ? kx ? Hr Hkx]; subst.
    inversion Hkx as [|c ? lx ? Hc Hlx]; subst. inversion Hlx; subst.
    exists r, c. auto.
  - intros r c Hr Hc Hne'. apply (Hleast [r; c]); [|exact Hne'].
    repeat constructor; assumption.
Qed.

(** With one class channel and one instance channel of the same height
    and width, [target_of] returns, and the masks are one plane per
    distinct nonzero id, in ascending order. *)
Lemma target_of_single_channel (mt it : Tensor) (H W : nat) :
  shape mt = [1; H; W] -> shape it = [1; H; W] ->
  ∃ masks boxes labels, target_of mt it = Ok (masks, boxes, labels) ∧
    shape masks = [length (instance_id_list it); H; W] ∧
    ∀ i h w, i < length (instance_id_list it) -> h < H -> w < W ->
      elt masks [i; h; w]
      = if (elt it [0%nat; h; w] =? nth i (instance_id_list it) 0)%Z then 1%Z else 0%Z.
Proof.
  intros Hmt Hit. unfold target_of.
  destruct (instance_ids_ok it) as (ids & -> & Hsids & Hids). cbn [mbind result_bind].
  set (idl := instance_id_list it) in *.
  destruct (eq_tensor_masks it _ H W _ Hit (shape_ids3 ids _ Hsids))
    as (m & -> & Hsm & _ & Hm). cbn [mbind result_bind].
  unfold iterate. rewrite Hsm. cbn [mbind result_bind].
  assert (Htrue : ∀ i, i < length idl ->
            ∃ h w, h < H ∧ w < W ∧ elt m [i; h; w] ≠ 0%Z).
  { intros i Hi.
    assert (Hin : In (nth i idl 0%Z) idl) by (apply nth_In; exact Hi).
    apply in_instance_id_list in Hin as (_ & ix & Hix & Hv). rewrite Hit in Hix.
    inversion Hix as [|k ? jx ? Hk Hjx]; subst.
    inversion Hjx as [|h ? kx ? Hh Hkx]; subst.
    inversion Hkx as [|w ? lx ? Hw Hlx]; subst. inversion Hlx; subst.
    assert (k = 0) as -> by lia.
    exists h, w. split; [assumption|]. split; [assumption|].
    rewrite Hm, elt_ids3, Hids, Hv, Z.eqb_refl by assumption. discriminate. }
  destruct (for_each_Ok (instance_label mt) (map (slice0 m [H; W]) (seq 0 (length idl))))
    as (ll & ->).
  { apply Forall_map_seq. intros i Hi. destruct (Htrue i Hi) as (h & w & Hh & Hw & Hne).
    apply (instance_label_Ok mt _ [h; w]); [exact Hmt | | exact Hne].
    repeat constructor; assumption. }
  cbn [mbind result_bind].
  destruct (for_each_Ok instance_box (map (slice0 m [H; W]) (seq 0 (length idl))))
    as (bl & Hbl).
  { apply Forall_map_seq. intros i Hi. destruct (Htrue i Hi) as (h & w & Hh & Hw & Hne).
    apply (instance_box_Ok _ H W h w); auto. }
  rewrite Hbl. cbn [mbind result_bind].
  destruct (torch_tensor2_Ok bl) as (b & ->).
  { apply for_each_Ok_inv in Hbl. clear -Hbl.
    induction Hbl as [|p box ps bs Hp _ IH]; constructor; [|exact IH].
    now apply instance_box_length in Hp. }
  cbn [mbind result_bind]. do 3 eexists. split; [reflexivity|].
  cbn [to shape elt]. split; [exact Hsm|].
  intros i h w Hi Hh Hw. now rewrite Hm, elt_ids3, Hids.
Qed.

(** ** Reading the arrays *)

Lemma permute_201_inv (a t : Tensor) :
  permute [2; 0; 1] a = Ok t ->
  ∃ H W K, shape a = [H; W; K] ∧ shape t = [K; H; W] ∧ dtype t = dtype a ∧
    ∀ k h w, elt t [k; h; w] = elt a [h; w; k].
Proof.
  unfold permute, is_permutation.
  destruct (shape a) as [|H [|W [|K [|? ?]]]] eqn:Hs; try discriminate.
  intros [= <-]. exists H, W, K. repeat split.
Qed.

Lemma permute_201_Ok (a : Tensor) (H W K : nat) :
  shape a = [H; W; K] -> ∃ t, permute [2; 0; 1] a = Ok t.
Proof. intros Hs. unfold permute. rewrite Hs. simpl. eauto. Qed.

Lemma permute_0312_inv (a t : Tensor) :
  permute [0; 3; 1; 2] a = Ok t ->
  ∃ T H W C, shape a = [T; H; W; C] ∧ shape t = [T; C; H; W] ∧ dtype t = dtype a ∧
    ∀ i c h w, elt t [i; c; h; w] = elt a [i; h; w; c].
Proof.
  unfold permute, is_permutation.
  destruct (shape a) as [|T [|H [|W [|C [|? ?]]]]] eqn:Hs; try discriminate.
  intros [= <-]. exists T, H, W, C. repeat split.
Qed.

Lemma getitem0_inv (a s : Tensor) (index : Z) :
  getitem0 a index = Ok s ->
  ∃ N rest n, shape a = N :: rest ∧ wrap_index index N = Ok n ∧ s = slice0 a rest n.
Proof.
  unfold getitem0. destruct (shape a) as [|N rest]; [discriminate|].
  intros H. inv_bind H. injection H as <-. eauto 6.
Qed.

Lemma wrap_index_lt (index : Z) (N n : nat) : wrap_index index N = Ok n -> n < N.
Proof.
  unfold wrap_index. destruct (_ && _) eqn:E; [|discriminate].
  intros [= <-]. apply andb_true_iff in E as [E1 E2]. lia.
Qed.

Lemma nth_flatten_1 (t : Tensor) (k j : nat) :
  shape t = [k] -> j < k -> nth j (flatten t) 0%Z = elt t [j].
Proof.
  intros Hs Hj. unfold flatten. rewrite Hs, all_indices_1, map_map.
  rewrite (nth_indep _ 0%Z (elt t [0])) by (rewrite length_map, length_seq; lia).
  rewrite (map_nth (fun i => elt t [i])). now rewrite seq_nth.
Qed.

Lemma length_flatten_1 (t : Tensor) (k : nat) :
  shape t = [k] -> length (flatten t) = k.
Proof.
  intros Hs. unfold flatten. now rewrite Hs, all_indices_1, !length_map, length_seq.
Qed.

Lemma from_numpy_inv (a t : Tensor) : from_numpy a = Ok t -> t = a.
Proof. unfold from_numpy. destruct (shape a); [discriminate|]. now intros [= <-]. Qed.

Lemma from_numpy_Ok (a : Tensor) (d : nat) (rest : list nat) :
  shape a = d :: rest -> from_numpy a = Ok a.
Proof. unfold from_numpy. now intros ->. Qed.

(** The image read by [_load_image]: one channel per entry of
    [band_indices], holding the archive channel of that index. *)
Lemma load_image_inv (self : ZueriCrop) (w : World) (index : Z) (image : Tensor) :
  _load_image self w index = Ok image ->
  ∃ f data N T H W C n k,
    h5py_File w (filepath self) = Ok f ∧ f !! "data" = Some data ∧
    shape data = [N; T; H; W; C] ∧ wrap_index index N = Ok n ∧
    shape (band_indices self) = [k] ∧ shape image = [T; k; H; W] ∧
    ∀ t j h c, j < k ->
      elt image [t; j; h; c]
      = elt data [n; t; h; c; Z.to_nat (elt (band_indices self) [j])].
Proof.
  intros H. unfold _load_image in H.
  inv_bind H. inv_bind H. inv_bind H. inv_bind H.
  apply bind_Ok_inv in H as (arr & Harr & H). apply from_numpy_inv in Harr as ->.
  inv_bind H. inv_bind H.
  injection H as <-.
  unfold h5_get in Ha1. destruct (a0 !! "data") as [data|] eqn:Hd; [|discriminate].
  injection Ha1 as <-.
  apply getitem0_inv in Ha2 as (N & rest & n & Hs & Hn & ->).
  apply permute_0312_inv in Ha3 as (T & H' & W & C & Hsa & Hsp & _ & Hp).
  cbn [slice0 shape] in Hsa. subst rest.
  unfold index_select in Ha4. rewrite Hsp in Ha4.
  destruct (shape (band_indices self)) as [|k [|? ?]] eqn:Hbi; try discriminate.
  cbn [lookup list_lookup] in Ha4.
  destruct (forallb _ _); [|discriminate]. injection Ha4 as <-.
  exists a0, data, N, T, H', W, C, n, k. repeat split; try assumption.
  intros t j h c Hj. cbn [elt nth]. cbn. rewrite Hp. cbn [slice0 elt].
  now rewrite (nth_flatten_1 _ k j Hbi Hj).
Qed.

Lemma load_image_Ok (self : ZueriCrop) (w : World) (index : Z)
    (f : gmap string Tensor) (data : Tensor) (N T H W C n k : nat) :
  h5py_installed w = true -> h5py_File w (filepath self) = Ok f ->
  f !! "data" = Some data -> shape data = [N; T; H; W; C] ->
  wrap_index index N = Ok n -> shape (band_indices self) = [k] ->
  (∀ j, j < k -> (0 <= elt (band_indices self) [j] < Z.of_nat C)%Z) ->
  ∃ image, _load_image self w index = Ok image.
Proof.
  intros Hh Hf Hd Hs Hn Hbi Hval. unfold _load_image, lazy_import, h5_get, getitem0.
  rewrite Hh. cbn [mbind result_bind]. rewrite Hf. cbn [mbind result_bind].
  rewrite Hd. cbn [mbind result_bind]. rewrite Hs, Hn. cbn [mbind result_bind].
  rewrite (from_numpy_Ok _ T [H; W; C]) by reflexivity. cbn [mbind result_bind].
  unfold permute. cbn [slice0 shape length is_permutation].
  cbn. unfold index_select. cbn [shape]. rewrite Hbi. cbn [lookup list_lookup].
  replace (forallb _ (flatten (band_indices self))) with true; [eauto|].
  symmetry. apply forallb_forall. intros v Hv.
  apply (In_nth _ _ 0%Z) in Hv as (j & Hj & <-).
  rewrite (length_flatten_1 _ k Hbi) in Hj.
  rewrite (nth_flatten_1 _ k j Hbi Hj). specialize (Hval j Hj).
  apply andb_true_iff. lia.
Qed.

(** The arrays read by [_load_target] and what is computed from them. *)
Lemma load_target_inv (self : ZueriCrop) (w : World) (index : Z)
    (r : Tensor * Tensor * Tensor) :
  _load_target self w index = Ok r ->
  ∃ f gt gi N1 N2 H1 W1 Kc H W Ki n1 n2 mt it,
    h5py_File w (filepath self) = Ok f ∧
    f !! "gt" = Some gt ∧ shape gt = [N1; H1; W1; Kc] ∧ wrap_index index N1 = Ok n1 ∧
    f !! "gt_instance" = Some gi ∧ shape gi = [N2; H; W; Ki] ∧
    wrap_index index N2 = Ok n2 ∧
    shape mt = [Kc; H1; W1] ∧ dtype mt = dtype gt ∧
    (∀ k h c, elt mt [k; h; c] = elt gt [n1; h; c; k]) ∧
    shape it = [Ki; H; W] ∧
    (∀ k h c, elt it [k; h; c] = elt gi [n2; h; c; k]) ∧
    target_of mt it = Ok r.
Proof.
  intros H. unfold _load_target in H. fold (target_of) in H.
  inv_bind H. inv_bind H. inv_bind H. inv_bind H. inv_bind H. inv_bind H.
  apply bind_Ok_inv in H as (arr1 & Harr1 & H). apply from_numpy_inv in Harr1 as ->.
  apply bind_Ok_inv in H as (arr2 & Harr2 & H). apply from_numpy_inv in Harr2 as ->.
  inv_bind H. inv_bind H.
  change (target_of a5 a6 = Ok r) in H.
  unfold h5_get in Ha1, Ha3.
  destruct (a0 !! "gt") as [gt|] eqn:Hgt; [|discriminate]. injection Ha1 as <-.
  destruct (a0 !! "gt_instance") as [gi|] eqn:Hgi; [|discriminate]. injection Ha3 as <-.
  apply getitem0_inv in Ha2 as (N1 & rest1 & n1 & Hs1 & Hn1 & ->).
  apply getitem0_inv in Ha4 as (N2 & rest2 & n2 & Hs2 & Hn2 & ->).
  apply permute_201_inv in Ha5 as (H1 & W1 & Kc & Hsa1 & Hsm & Hdm & Hem).
  apply permute_201_inv in Ha6 as (H' & W & Ki & Hsa2 & Hsi & _ & Hei).
  cbn [slice0 shape dtype elt] in *. subst rest1 rest2.
  exists a0, gt, gi, N1, N2, H1, W1, Kc, H', W, Ki, n1, n2, a5, a6.
  repeat split; assumption.
Qed.

Lemma load_target_Ok (self : ZueriCrop) (w : World) (index : Z)
    (f : gmap string Tensor) (gt gi : Tensor) (N H W n : nat) :
  h5py_installed w = true -> h5py_File w (filepath self) = Ok f ->
  f !! "gt" = Some gt -> shape gt = [N; H; W; 1] ->
  f !! "gt_instance" = Some gi -> shape gi = [N; H; W; 1] ->
  wrap_index index N = Ok n ->
  ∃ r, _load_target self w index = Ok r.
Proof.
  intros Hh Hf Hgt Hsgt Hgi Hsgi Hn.
  unfold _load_target, import_h5py, h5_get, getitem0.
  rewrite Hh. cbn [mbind result_bind]. rewrite Hf. cbn [mbind result_bind].
  rewrite Hgt. cbn [mbind result_bind]. rewrite Hsgt, Hn. cbn [mbind result_bind].
  rewrite Hgi. cbn [mbind result_bind]. rewrite Hsgi, Hn. cbn [mbind result_bind].
  rewrite !(from_numpy_Ok _ H [W; 1]) by reflexivity. cbn [mbind result_bind].
  destruct (permute_201_Ok (slice0 gt [H; W; 1] n) H W 1 eq_refl) as (mt & Hmt).
  destruct (permute_201_Ok (slice0 gi [H; W; 1] n) H W 1 eq_refl) as (it & Hit).
  rewrite Hmt, Hit. cbn [mbind result_bind].
  apply permute_201_inv in Hmt as (? & ? & ? & Hs1 & Hsm & _).
  apply permute_201_inv in Hit as (? & ? & ? & Hs2 & Hsi & _).
  cbn [slice0 shape] in Hs1, Hs2. injection Hs1 as <- <- <-. injection Hs2 as <- <- <-.
  destruct (target_of_single_channel mt it H W Hsm Hsi) as (m & b & l & Ht & _).
  change (∃ r, target_of mt it = Ok r). eauto.
Qed.

(** ** [__getitem__] *)

Lemma getitem_inv (self : ZueriCrop) (w : World) (index : Z) (sample : Sample) :
  transforms self = None -> __getitem__ self w index = Ok sample ->
  ∃ image masks boxes labels,
    _load_image self w index = Ok image ∧
    _load_target self w index = Ok (masks, boxes, labels) ∧
    sample !! "image" = Some image ∧ sample !! "mask" = Some masks ∧
    sample !! "bbox_xyxy" = Some boxes ∧ sample !! "label" = Some labels ∧
    sample !! "prediction" = None.
Proof.
  intros Htr H. unfold __getitem__ in H. rewrite Htr in H.
  inv_bind H. inv_bind H. destruct a0 as [[masks boxes] labels].
  injection H as <-. exists a, masks, boxes, labels.
  repeat split; try assumption; by simplify_map_eq.
Qed.

Lemma getitem_returns (self : ZueriCrop) (w : World) (index : Z) (N T H W : nat) :
  transforms self = None -> readable self w N T H W ->
  (- Z.of_nat N <= index < Z.of_nat N)%Z ->
  ∃ sample, __getitem__ self w index = Ok sample.
Proof.
  intros Htr (Hh & (k & Hbi & Hval) & f & Hf & data & gt & gi & Hd & Hsd & Hgt & Hsgt & Hgi & Hsgi) Hidx.
  assert (Hn : ∃ n, wrap_index index N = Ok n).
  { unfold wrap_index. destruct (Z.ltb_spec index 0).
    - replace (_ && _) with true; [eauto|]. symmetry. apply andb_true_iff. lia.
    - replace (_ && _) with true; [eauto|]. symmetry. apply andb_true_iff. lia. }
  destruct Hn as (n & Hn).
  destruct (load_image_Ok self w index f data N T H W 9 n k Hh Hf Hd Hsd Hn Hbi Hval)
    as (image & Himg).
  destruct (load_target_Ok self w index f gt gi N H W n Hh Hf Hgt Hsgt Hgi Hsgi Hn)
    as ([[masks boxes] labels] & Htg).
  unfold __getitem__. rewrite Himg. cbn [mbind result_bind]. rewrite Htg.
  cbn [mbind result_bind]. rewrite Htr. eauto.
Qed.

(** ** Band validation and construction *)

Lemma check_band_names_Ok (items : list string) :
  Forall (fun b => b ∈ band_names) items -> check_band_names items = Ok ().
Proof.
  induction 1 as [|b items Hb _ IH]; simpl; [reflexivity|].
  now rewrite bool_decide_eq_true_2.
Qed.

Lemma check_band_names_inv (items : list string) :
  check_band_names items = Ok () -> Forall (fun b => b ∈ band_names) items.
Proof.
  induction items as [|b items IH]; simpl; [constructor|].
  case_bool_decide; [|discriminate]. intros Hrest. constructor; auto.
Qed.

(** The first entry that is not a band name is the one reported. *)
Lemma check_band_names_invalid (valid : list string) (band : string) (rest : list string) :
  Forall (fun b => b ∈ band_names) valid -> band ∉ band_names ->
  check_band_names (valid ++ band :: rest)
  = Raise (ValueError ("'" +:+ (band +:+ "' is an invalid band name."))).
Proof.
  intros Hvalid Hband. induction Hvalid as [|b items Hb _ IH]; simpl.
  - now rewrite bool_decide_eq_false_2.
  - now rewrite bool_decide_eq_true_2.
Qed.

Lemma split_first_invalid (items : list string) :
  ¬ Forall (fun b => b ∈ band_names) items ->
  ∃ valid band rest, items = valid ++ band :: rest ∧
    Forall (fun b => b ∈ band_names) valid ∧ band ∉ band_names.
Proof.
  induction items as [|b items IH]; intros Hnot.
  - destruct Hnot. constructor.
  - destruct (decide (b ∈ band_names)) as [Hb|Hb].
    + destruct IH as (valid & band & rest & -> & Hvalid & Hband).
      { intros Hall. apply Hnot. now constructor. }
      exists (b :: valid), band, rest. repeat split; [|assumption].
      now constructor.
    + exists [], b, items. repeat split; [constructor | assumption].
Qed.

Lemma list_index_Some (x : string) (l : list string) (i : nat) :
  list_index x l = Some i ->
  l !! i = Some x ∧ ∀ j, j < i -> l !! j ≠ Some x.
Proof.
  revert i. induction l as [|y l IH]; intros i; simpl; [discriminate|].
  case_decide as Hy.
  - intros [= <-]. subst. split; [reflexivity|]. intros j Hj. lia.
  - destruct (list_index x l) as [i'|]; [|discriminate]. simpl.
    intros [= <-]. destruct (IH i' eq_refl) as [Hi Hfirst]. split; [exact Hi|].
    intros [|j] Hj; simpl; [congruence|]. apply Hfirst. lia.
Qed.

Lemma list_index_elem (x : string) (l : list string) :
  x ∈ l -> ∃ i, list_index x l = Some i.
Proof.
  induction 1 as [x l|x y l _ [i IH]]; simpl.
  - rewrite decide_True by reflexivity. eauto.
  - case_decide; [eauto|]. rewrite IH. simpl. eauto.
Qed.

Lemma band_position_lt (b : string) (i : nat) :
  list_index b band_names = Some i -> i < 9.
Proof.
  intros H. apply list_index_Some in H as [H _].
  apply lookup_lt_Some in H. exact H.
Qed.

Lemma download_files_h5py (root : string) (ck : bool) (files : list (string * string))
    (w w' : World) :
  download_files root ck w files = Ok w' -> h5py_installed w' = h5py_installed w.
Proof.
  revert w. induction files as [|[filename md5] files IH]; intros w; simpl.
  - now intros [= <-].
  - destruct (negb _); [|apply IH]. intros H. inv_bind H.
    apply IH in H. rewrite H. unfold download_url in Ha.
    destruct (remote w !! _) as [[file sum]|]; [|discriminate].
    destruct (bool_decide _); [|discriminate]. now injection Ha as <-.
Qed.

Lemma verify_h5py (self : ZueriCrop) (w w' : World) :
  _verify self w = Ok w' -> h5py_installed w' = h5py_installed w.
Proof.
  unfold _verify. destruct (forallb _ _); [now intros [= <-]|].
  destruct (negb _); [discriminate|]. apply download_files_h5py.
Qed.

(** What a successful construction has checked and stored. *)
Lemma init_inv (w0 w : World) (root : string) (bands : pyobj)
    (tr : option (Sample -> result Sample)) (dl ck : bool) (self : ZueriCrop) :
  __init__ w0 root bands tr dl ck = Ok (self, w) ->
  h5py_installed w = true ∧ is_Sequence bands = true ∧
  ∃ items indices,
    py_iter bands = Ok items ∧ Forall (fun b => b ∈ band_names) items ∧
    Forall2 (fun b i => list_index b band_names = Some i) items indices ∧
    self = mkZueriCrop (to Int64 (torch_tensor1 Int64 (map Z.of_nat indices)))
             root bands tr dl ck (path_join root "ZueriCrop.hdf5") ∧
    _verify self w0 = Ok w.
Proof.
  intros H. unfold __init__ in H.
  inv_bind H. inv_bind H. inv_bind H. inv_bind H. inv_bind H.
  injection H as <- <-.
  unfold lazy_import in Ha. destruct (h5py_installed w0) eqn:Hh; [|discriminate].
  unfold _validate_bands in Ha0. destruct (is_Sequence bands) eqn:Hseq; [|discriminate].
  rewrite Ha1 in Ha0. cbn [mbind result_bind] in Ha0. destruct a0.
  split; [now rewrite (verify_h5py _ _ _ Ha3)|]. split; [reflexivity|].
  exists a1, a2. split; [exact Ha1|]. split; [now apply check_band_names_inv|].
  split; [|split; [reflexivity | exact Ha3]].
  apply for_each_Ok_inv in Ha2. eapply Forall2_impl; [exact Ha2|].
  intros b i. unfold seq_index. destruct (list_index b band_names); [|discriminate].
  now intros [= <-].
Qed.

Lemma init_band_indices (indices : list nat) (items : list string) :
  Forall2 (fun b i => list_index b band_names = Some i) items indices ->
  let bi := to Int64 (torch_tensor1 Int64 (map Z.of_nat indices)) in
  shape bi = [length items] ∧ dtype bi = Int64 ∧
  ∀ j, j < length items ->
    ∃ p, elt bi [j] = Z.of_nat p ∧ p < 9 ∧ band_names !! p = items !! j ∧
         ∀ q, q < p -> band_names !! q ≠ items !! j.
Proof.
  intros Hall bi. subst bi. cbn [to shape dtype elt].
  pose proof (Forall2_length _ _ _ Hall) as Hlen.
  rewrite shape_torch_tensor1, length_map, <- Hlen.
  split; [reflexivity|]. split; [reflexivity|].
  intros j Hj.
  destruct (lookup_lt_is_Some_2 items j Hj) as [b Hb].
  destruct (Forall2_lookup_l _ _ _ _ _ Hall Hb) as (p & Hp & Hidx).
  exists p. rewrite elt_torch_tensor1 by (rewrite length_map; lia).
  rewrite (nth_indep _ 0%Z (Z.of_nat 0)) by (rewrite length_map; lia).
  rewrite (map_nth Z.of_nat). rewrite (nth_lookup_Some _ _ _ _ Hp).
  split; [reflexivity|]. split; [now apply band_position_lt in Hidx|].
  rewrite Hb. apply list_index_Some in Hidx. exact Hidx.
Qed.

Lemma init_band_indices_valid (w0 w : World) (root : string) (bands : pyobj)
    (tr : option (Sample -> result Sample)) (dl ck : bool) (self : ZueriCrop) :
  __init__ w0 root bands tr dl ck = Ok (self, w) -> band_indices_valid self.
Proof.
  intros H. apply init_inv in H as (_ & _ & items & indices & _ & _ & Hidx & -> & _).
  destruct (init_band_indices indices items Hidx) as (Hs & _ & Hp).
  exists (length items). cbn [band_indices]. split; [exact Hs|].
  intros j Hj. destruct (Hp j Hj) as (p & -> & Hlt & _). lia.
Qed.

Lemma target_of_masks (mt it masks boxes labels : Tensor) (H W : nat) :
  shape it = [1; H; W] -> target_of mt it = Ok (masks, boxes, labels) ->
  shape masks = [length (instance_id_list it); H; W] ∧
  ∀ i h w, i < length (instance_id_list it) -> h < H -> w < W ->
    elt masks [i; h; w]
    = if (elt it [0%nat; h; w] =? nth i (instance_id_list it) 0)%Z then 1%Z else 0%Z.
Proof.
  intros Hit Ht.
  apply target_of_steps in Ht
    as (ids & m & planes & ll & bl & b & Hids & Hm & _ & _ & _ & _ & -> & _ & _).
  destruct (instance_ids_ok it) as (ids' & Hids' & Hsids & Helt).
  rewrite Hids in Hids'. injection Hids' as <-.
  destruct (eq_tensor_masks it _ H W _ Hit (shape_ids3 ids _ Hsids))
    as (m' & Hm' & Hsm & _ & Hem).
  rewrite Hm in Hm'. injection Hm' as <-. cbn [to shape elt].
  split; [exact Hsm|]. intros i h w Hi Hh Hw. now rewrite Hem, elt_ids3, Helt.
Qed.

Lemma wrap_index_Ok (index : Z) (N : nat) :
  (- Z.of_nat N <= index < Z.of_nat N)%Z -> ∃ n, wrap_index index N = Ok n.
Proof.
  intros Hidx. unfold wrap_index. destruct (Z.ltb_spec index 0).
  - replace (_ && _) with true; [eauto|]. symmetry. apply andb_true_iff. lia.
  - replace (_ && _) with true; [eauto|]. symmetry. apply andb_true_iff. lia.
Qed.

Lemma wrap_index_range (index : Z) (N n : nat) :
  wrap_index index N = Ok n -> (- Z.of_nat N <= index < Z.of_nat N)%Z.
Proof.
  unfold wrap_index. destruct (_ && _) eqn:E; [|discriminate]. intros _.
  apply andb_true_iff in E as [E1 E2]. destruct (Z.ltb_spec index 0); lia.
Qed.

(** ** The claims on [__getitem__] *)

(** C1 (amended): when the instance array of the series has a single
    channel, the masks of the sample are one plane per distinct nonzero
    value of the instance array, in ascending order of the values, the
    plane of an id being 1 exactly where the instance array equals the id;
    the value 0 gives no plane.  A dataset that can read an archive of the
    dataset format returns a sample.  For the values 0,0,2,2,5 over a 1×5
    region the ids are 2 and 5. *)
Theorem getitem_masks_single_channel (self : ZueriCrop) (w : World) (index : Z)
    (f : gmap string Tensor) (gi : Tensor) (N H W n : nat) :
  transforms self = None ->
  h5py_File w (filepath self) = Ok f ->
  f !! "gt_instance" = Some gi -> shape gi = [N; H; W; 1] ->
  wrap_index index N = Ok n ->
  (∀ T, readable self w N T H W -> ∃ sample, __getitem__ self w index = Ok sample) ∧
  ∀ sample, __getitem__ self w index = Ok sample ->
    ∃ masks ids,
      sample !! "mask" = Some masks ∧
      StronglySorted Z.lt ids ∧
      (∀ v, In v ids <-> v ≠ 0%Z ∧ ∃ h c, h < H ∧ c < W ∧ elt gi [n; h; c; 0] = v) ∧
      shape masks = [length ids; H; W] ∧
      (∀ i h c, i < length ids -> h < H -> c < W ->
         elt masks [i; h; c]
         = if (elt gi [n; h; c; 0%nat] =? nth i ids 0)%Z then 1%Z else 0%Z) ∧
      (H = 1 -> W = 5 ->
       (∀ c, c < 5 -> elt gi [n; 0; c; 0] = nth c [0; 0; 2; 2; 5]%Z 0%Z) ->
       ids = [2; 5]%Z).
Proof.
  intros Htr Hf Hgi Hsgi Hn. split.
  { intros T Hr. apply (getitem_returns self w index N T H W Htr Hr).
    now apply wrap_index_range in Hn. }
  intros sample Hget.
  apply (getitem_inv _ _ _ _ Htr) in Hget
    as (image & masks & boxes & labels & _ & Htg & _ & Hmask & _).
  apply load_target_inv in Htg
    as (f' & gt & gi' & N1 & N2 & H1 & W1 & Kc & H' & W' & Ki & n1 & n2 & mt & it
        & Hf' & _ & _ & _ & Hgi' & Hsgi' & Hn2 & _ & _ & _ & Hsit & Heit & Ht).
  rewrite Hf in Hf'. injection Hf' as <-.
  rewrite Hgi in Hgi'. injection Hgi' as <-.
  rewrite Hsgi in Hsgi'. injection Hsgi' as <- <- <- <-.
  rewrite Hn in Hn2. injection Hn2 as <-.
  destruct (target_of_masks mt it masks boxes labels H W Hsit Ht) as [Hsm Hem].
  exists masks, (instance_id_list it).
  split; [exact Hmask|]. split; [apply instance_id_list_sorted|].
  split.
  { intros v. rewrite in_instance_id_list, Hsit. split.
    - intros (Hv & ix & Hix & Hval). split; [exact Hv|].
      inversion Hix as [|k ? jx ? Hk Hjx]; subst.
      inversion Hjx as [|h ? kx ? Hh Hkx]; subst.
      inversion Hkx as [|c ? lx ? Hc Hlx]; subst. inversion Hlx; subst.
      assert (k = 0) as -> by lia. exists h, c. now rewrite <- Heit.
    - intros (Hv & h & c & Hh & Hc & Hval). split; [exact Hv|].
      exists [0; h; c]. split; [repeat constructor; lia|]. now rewrite Heit. }
  split; [exact Hsm|]. split.
  { intros i h c Hi Hh Hc. now rewrite Hem, Heit. }
  intros -> -> Hvals. unfold instance_id_list, flatten. rewrite Hsit.
  cbn [all_indices seq flat_map map app]. rewrite !Heit.
  rewrite !Hvals by lia. reflexivity.
Qed.

Lemma all_bands_indices_valid : band_indices_valid all_bands_dataset.
Proof.
  exists 9. split; [reflexivity|]. intros j Hj.
  do 9 (destruct j as [|j]; [cbn; lia|]). lia.
Qed.

Lemma example_readable : readable all_bands_dataset (world_of example_archive) 1 2 1 5.
Proof.
  split; [reflexivity|]. split; [exact all_bands_indices_valid|].
  exists example_archive. split; [reflexivity|].
  do 3 eexists. repeat split; reflexivity.
Qed.

Lemma getitem_masks_single_channel_witness :
  ∃ sample masks,
    __getitem__ all_bands_dataset (world_of example_archive) 0 = Ok sample ∧
    sample !! "mask" = Some masks ∧ shape masks = [2; 1; 5] ∧
    map (fun c => elt masks [0; 0; c]) (seq 0 5) = [0; 0; 1; 1; 0]%Z ∧
    map (fun c => elt masks [1; 0; c]) (seq 0 5) = [0; 0; 0; 0; 1]%Z.
Proof.
  destruct (getitem_masks_single_channel all_bands_dataset (world_of example_archive) 0
              example_archive example_gt_instance 1 1 5 0)
    as [Hret Hchar]; try reflexivity.
  destruct (Hret 2 example_readable) as (sample & Hs).
  destruct (Hchar sample Hs) as (masks & ids & Hmask & _ & _ & Hshape & Helt & Hids).
  assert (ids = [2; 5]%Z) as ->.
  { apply Hids; try reflexivity. intros c Hc.
    do 5 (destruct c as [|c]; [reflexivity|]). lia. }
  exists sample, masks. split; [exact Hs|]. split; [exact Hmask|].
  split; [exact Hshape|]. cbn [map seq length] in *.
  rewrite !Helt by lia. split; reflexivity.
Defined.

(** C1 as stated fails with two instance channels: one distinct nonzero
    id, 3, but two planes. *)
Lemma getitem_masks_two_channels_counterexample :
  instance_id_list (array4 Int32 [1; 1; 1; 2] [[[[3; 3]]]]%Z) = [3]%Z ∧
  field_shape (__getitem__ all_bands_dataset (world_of two_channel_archive) 0) "mask"
  = Some [2; 1; 1].
Proof. split; vm_compute; reflexivity. Qed.

Lemma least_at_ext (m1 m2 value1 value2 : nat -> nat -> Z) (H W : nat) (v : Z) :
  (∀ r c, r < H -> c < W -> m1 r c = m2 r c ∧ value1 r c = value2 r c) ->
  least_at m1 value1 H W v -> least_at m2 value2 H W v.
Proof.
  intros Hext [(r & c & Hr & Hc & Hne & Hv) Hleast]. split.
  - exists r, c. destruct (Hext r c Hr Hc) as [<- <-]. auto.
  - intros r' c' Hr' Hc' Hne'. destruct (Hext r' c' Hr' Hc') as [Hm <-].
    apply Hleast; try assumption. now rewrite Hm.
Qed.

Lemma extent_of_ext (m1 m2 : nat -> nat -> Z) (H W : nat)
    (coord : nat -> nat -> nat) (lo hi : Z) :
  (∀ r c, r < H -> c < W -> m1 r c = m2 r c) ->
  extent_of m1 H W coord lo hi -> extent_of m2 H W coord lo hi.
Proof.
  intros Hext ((r1 & c1 & ? & ? & Hne1 & Hlo) & (r2 & c2 & ? & ? & Hne2 & Hhi) & Hb).
  split; [|split].
  - exists r1, c1. rewrite <- Hext by assumption. auto.
  - exists r2, c2. rewrite <- Hext by assumption. auto.
  - intros r c Hr Hc Hne. apply Hb; try assumption. now rewrite Hext.
Qed.

(** Integers below 2^24 in magnitude are floats. *)
Lemma round_float32_exact (z : Z) : (Z.abs z < 2 ^ 24)%Z -> round_float32 z = z.
Proof.
  intros Hz. unfold round_float32.
  destruct (Z.ltb_spec (Z.abs z) (2 ^ 24)) as [_|Hge]; [reflexivity | lia].
Qed.

(** A strictly ascending list is determined by its elements. *)
Lemma sorted_same_elements (l1 l2 : list Z) :
  StronglySorted Z.lt l1 -> StronglySorted Z.lt l2 ->
  (∀ v, In v l1 <-> In v l2) -> l1 = l2.
Proof.
  intros Hs1. revert l2. induction Hs1 as [|x l1 Hs1 IH Hall1]; intros l2 Hs2 Hsame.
  - destruct l2 as [|y l2]; [reflexivity|].
    destruct (proj2 (Hsame y) (or_introl eq_refl)).
  - destruct Hs2 as [|y l2 Hs2 Hall2].
    + destruct (proj1 (Hsame x) (or_introl eq_refl)).
    + rewrite Forall_forall in Hall1, Hall2.
      assert (Hxy : x = y).
      { destruct (proj1 (Hsame x) (or_introl eq_refl)) as [Hyx|Hx]; [congruence|].
        destruct (proj2 (Hsame y) (or_introl eq_refl)) as [Hxy|Hy]; [congruence|].
        apply list_elem_of_In, Hall2 in Hx. apply list_elem_of_In, Hall1 in Hy. lia. }
      subst y. f_equal. apply IH; [exact Hs2|]. intros v. split.
      * intros Hv. destruct (proj1 (Hsame v) (or_intror Hv)) as [Hxv|Hv2]; [|exact Hv2].
        apply list_elem_of_In, Hall1 in Hv. lia.
      * intros Hv. destruct (proj2 (Hsame v) (or_intror Hv)) as [Hxv|Hv1]; [|exact Hv1].
        apply list_elem_of_In, Hall2 in Hv. lia.
Qed.

(** The ids of the instance tensor of a series are the nonzero values of
    the single-channel instance array at the series. *)
Lemma instance_ids_of_series (it gi : Tensor) (n H W : nat) :
  shape it = [1; H; W] -> (∀ k h c, elt it [k; h; c] = elt gi [n; h; c; k]) ->
  ∀ v, In v (instance_id_list it)
       <-> v ≠ 0%Z ∧ ∃ h c, h < H ∧ c < W ∧ elt gi [n; h; c; 0] = v.
Proof.
  intros Hsit Heit v. rewrite in_instance_id_list, Hsit. split.
  - intros (Hv & ix & Hix & Hval). split; [exact Hv|].
    inversion Hix as [|k ? jx ? Hk Hjx]; subst.
    inversion Hjx as [|h ? kx ? Hh Hkx]; subst.
    inversion Hkx as [|c ? lx ? Hc Hlx]; subst. inversion Hlx; subst.
    assert (k = 0) as -> by lia. exists h, c. now rewrite <- Heit.
  - intros (Hv & h & c & Hh & Hc & Hval). split; [exact Hv|].
    exists [0; h; c]. split; [repeat constructor; lia|]. now rewrite Heit.
Qed.

(** With a single instance channel, the planes and the boxes of the
    sample by instance id: plane i is the set of pixels with the i-th
    smallest nonzero id, and row i of the boxes holds the floats nearest to
    the least column, least row, greatest column and greatest row of these
    pixels. *)
Lemma getitem_boxes_by_id (self : ZueriCrop) (w : World) (index : Z)
    (f : gmap string Tensor) (gi : Tensor) (N H W n : nat) :
  transforms self = None ->
  h5py_File w (filepath self) = Ok f ->
  f !! "gt_instance" = Some gi -> shape gi = [N; H; W; 1] ->
  wrap_index index N = Ok n ->
  ∀ sample, __getitem__ self w index = Ok sample ->
    ∃ masks boxes ids,
      sample !! "mask" = Some masks ∧ sample !! "bbox_xyxy" = Some boxes ∧
      StronglySorted Z.lt ids ∧
      (∀ v, In v ids <-> v ≠ 0%Z ∧ ∃ h c, h < H ∧ c < W ∧ elt gi [n; h; c; 0] = v) ∧
      shape masks = [length ids; H; W] ∧
      (∀ i h c, i < length ids -> h < H -> c < W ->
         elt masks [i; h; c]
         = if (elt gi [n; h; c; 0%nat] =? nth i ids 0)%Z then 1%Z else 0%Z) ∧
      (ids ≠ [] -> shape boxes = [length ids; 4]) ∧
      ∀ i, i < length ids ->
        let pixels := fun r c =>
          if (elt gi [n; r; c; 0%nat] =? nth i ids 0)%Z then 1%Z else 0%Z in
        ∃ xmin ymin xmax ymax,
          extent_of pixels H W (fun r c => c) xmin xmax ∧
          extent_of pixels H W (fun r c => r) ymin ymax ∧
          elt boxes [i; 0] = round_float32 xmin ∧ elt boxes [i; 1] = round_float32 ymin ∧
          elt boxes [i; 2] = round_float32 xmax ∧ elt boxes [i; 3] = round_float32 ymax.
Proof.
  intros Htr Hf Hgi Hsgi Hn sample Hget.
  apply (getitem_inv _ _ _ _ Htr) in Hget
    as (image & masks & boxes & labels & _ & Htg & _ & Hmask & Hbox & _).
  apply load_target_inv in Htg
    as (f' & gt & gi' & N1 & N2 & H1 & W1 & Kc & H' & W' & Ki & n1 & n2 & mt & it
        & Hf' & _ & _ & _ & Hgi' & Hsgi' & Hn2 & Hsmt & _ & _ & Hsit & Heit & Ht).
  rewrite Hf in Hf'. injection Hf' as <-.
  rewrite Hgi in Hgi'. injection Hgi' as <-.
  rewrite Hsgi in Hsgi'. injection Hsgi' as <- <- <- <-.
  rewrite Hn in Hn2. injection Hn2 as <-.
  destruct (target_of_masks mt it masks boxes labels H W Hsit Ht) as [Hsm Hem].
  destruct (target_of_instances mt it masks boxes labels Kc H1 W1 1 H W Hsmt Hsit Ht)
    as (I & Hsm' & _ & _ & _ & _ & _ & _ & Hsb & _ & Hinst).
  rewrite Hsm in Hsm'. injection Hsm' as <-.
  exists masks, boxes, (instance_id_list it).
  split; [exact Hmask|]. split; [exact Hbox|].
  split; [apply instance_id_list_sorted|].
  split; [exact (instance_ids_of_series it gi n H W Hsit Heit)|].
  split; [exact Hsm|]. split.
  { intros i h c Hi Hh Hc. now rewrite Hem, Heit. }
  split.
  { intros Hne. apply Hsb. destruct (instance_id_list it); [congruence | discriminate]. }
  intros i Hi pixels.
  destruct (Hinst i Hi) as (_ & xmin & ymin & xmax & ymax & Hx & Hy & Hb).
  assert (Hpix : ∀ r c, r < H -> c < W -> elt masks [i; r; c] = pixels r c).
  { intros r c Hr Hc. unfold pixels. now rewrite Hem, Heit. }
  exists xmin, ymin, xmax, ymax.
  split; [exact (extent_of_ext _ _ H W _ _ _ Hpix Hx)|].
  split; [exact (extent_of_ext _ _ H W _ _ _ Hpix Hy)|]. exact Hb.
Qed.

(** The ids of the example archive. *)
Lemma example_ids (ids : list Z) :
  StronglySorted Z.lt ids ->
  (∀ v, In v ids
        <-> v ≠ 0%Z ∧ ∃ h c, h < 1 ∧ c < 5 ∧ elt example_gt_instance [0; h; c; 0] = v) ->
  ids = [2; 5]%Z.
Proof.
  intros Hs Hin. apply sorted_same_elements; [exact Hs | repeat constructor; lia|].
  intros v. rewrite Hin. split.
  - intros (Hv & h & c & Hh & Hc & <-). assert (h = 0) as -> by lia.
    do 5 (destruct c as [|c]; [cbn in *; tauto|]). lia.
  - intros [<-|[<-|[]]].
    + split; [discriminate|]. exists 0, 2. repeat split; lia.
    + split; [discriminate|]. exists 0, 4. repeat split; lia.
Qed.

(** C2 (amended): when the class array and the instance array of the
    series have a single channel and the same height and width, as in the
    ZueriCrop archive, there is one label per distinct nonzero instance id,
    in ascending order of the ids, and the label of an id is the least of
    the class values at the pixels with that id, which are the pixels where
    the plane of the instance is 1; it is attained at such a pixel.  A
    dataset that can read an archive of the dataset format returns a
    sample. *)
Theorem getitem_label_least (self : ZueriCrop) (w : World) (index : Z)
    (f : gmap string Tensor) (gt gi : Tensor) (N H W n : nat) :
  transforms self = None ->
  h5py_File w (filepath self) = Ok f ->
  f !! "gt" = Some gt -> shape gt = [N; H; W; 1] ->
  f !! "gt_instance" = Some gi -> shape gi = [N; H; W; 1] ->
  wrap_index index N = Ok n ->
  (∀ T, readable self w N T H W -> ∃ sample, __getitem__ self w index = Ok sample) ∧
  ∀ sample, __getitem__ self w index = Ok sample ->
    ∃ masks labels ids,
      sample !! "mask" = Some masks ∧ sample !! "label" = Some labels ∧
      StronglySorted Z.lt ids ∧
      (∀ v, In v ids <-> v ≠ 0%Z ∧ ∃ h c, h < H ∧ c < W ∧ elt gi [n; h; c; 0] = v) ∧
      shape masks = [length ids; H; W] ∧ shape labels = [length ids] ∧
      ∀ i, i < length ids ->
        let pixels := fun r c =>
          if (elt gi [n; r; c; 0%nat] =? nth i ids 0)%Z then 1%Z else 0%Z in
        (∀ r c, r < H -> c < W -> elt masks [i; r; c] = pixels r c) ∧
        least_at pixels (fun r c => elt gt [n; r; c; 0]) H W (elt labels [i]).
Proof.
  intros Htr Hf Hgt Hsgt Hgi Hsgi Hn. split.
  { intros T Hr. apply (getitem_returns self w index N T H W Htr Hr).
    now apply wrap_index_range in Hn. }
  intros sample Hget.
  apply (getitem_inv _ _ _ _ Htr) in Hget
    as (image & masks & boxes & labels & _ & Htg & _ & Hmask & _ & Hlabel & _).
  apply load_target_inv in Htg
    as (f' & gt' & gi' & N1 & N2 & H1 & W1 & Kc & H' & W' & Ki & n1 & n2 & mt & it
        & Hf' & Hgt' & Hsgt' & Hn1 & Hgi' & Hsgi' & Hn2 & Hsmt & _ & Hemt & Hsit & Heit & Ht).
  rewrite Hf in Hf'. injection Hf' as <-.
  rewrite Hgt in Hgt'. injection Hgt' as <-.
  rewrite Hgi in Hgi'. injection Hgi' as <-.
  rewrite Hsgt in Hsgt'. injection Hsgt' as <- <- <- <-.
  rewrite Hsgi in Hsgi'. injection Hsgi' as <- <- <- <-.
  rewrite Hn in Hn1, Hn2. injection Hn1 as <-. injection Hn2 as <-.
  destruct (target_of_masks mt it masks boxes labels H W Hsit Ht) as [Hsm Hem].
  destruct (target_of_instances mt it masks boxes labels 1 H W 1 H W Hsmt Hsit Ht)
    as (I & Hsm' & _ & _ & Hsl & _ & _ & _ & _ & _ & Hinst).
  rewrite Hsm in Hsm'. injection Hsm' as <-.
  exists masks, labels, (instance_id_list it).
  split; [exact Hmask|]. split; [exact Hlabel|].
  split; [apply instance_id_list_sorted|].
  split; [exact (instance_ids_of_series it gi n H W Hsit Heit)|].
  split; [exact Hsm|]. split; [exact Hsl|].
  intros i Hi pixels. destruct (Hinst i Hi) as (Hl & _).
  assert (Hpix : ∀ r c, r < H -> c < W -> elt masks [i; r; c] = pixels r c).
  { intros r c Hr Hc. unfold pixels. now rewrite Hem, Heit. }
  split; [exact Hpix|].
  exact (least_at_ext _ _ _ _ H W _
           (fun r c Hr Hc => conj (Hpix r c Hr Hc) (Hemt 0 r c)) Hl).
Qed.

Lemma getitem_label_least_witness :
  ∃ sample labels,
    __getitem__ all_bands_dataset (world_of example_archive) 0 = Ok sample ∧
    sample !! "label" = Some labels ∧ shape labels = [2] ∧
    elt labels [0] = 4%Z ∧ elt labels [1] = 9%Z.
Proof.
  destruct (getitem_label_least all_bands_dataset (world_of example_archive) 0
              example_archive example_gt example_gt_instance 1 1 5 0
              eq_refl eq_refl eq_refl eq_refl eq_refl eq_refl eq_refl)
    as [Hret Hchar].
  destruct (Hret 2 example_readable) as (sample & Hs).
  destruct (Hchar sample Hs)
    as (masks & labels & ids & _ & Hlabel & Hsorted & Hin & _ & Hsl & Hinst).
  assert (ids = [2; 5]%Z) as -> by exact (example_ids ids Hsorted Hin).
  exists sample, labels. split; [exact Hs|]. split; [exact Hlabel|].
  split; [exact Hsl|]. split.
  - destruct (Hinst 0 ltac:(simpl; lia)) as [_ [(r & c & Hr & Hc & Hne & Hv) Hleast]].
    specialize (Hleast 0 3 ltac:(lia) ltac:(lia)). cbn in Hleast.
    assert (r = 0) as -> by lia. rewrite <- Hv in *.
    do 5 (destruct c as [|c]; [cbn in *; try congruence; try lia|]); lia.
  - destruct (Hinst 1 ltac:(simpl; lia)) as [_ [(r & c & Hr & Hc & Hne & Hv) Hleast]].
    assert (r = 0) as -> by lia. rewrite <- Hv in *.
    do 5 (destruct c as [|c]; [cbn in *; try congruence; try lia|]); lia.
Defined.

(** The sample of the example archive: instance 2 covers the class values
    7 and 4, instance 5 the class value 9. *)
Example example_sample_values :
  let r := __getitem__ all_bands_dataset (world_of example_archive) 0 in
  field_values r "mask" = Some [0; 0; 1; 1; 0; 0; 0; 0; 0; 1]%Z ∧
  field_values r "label" = Some [4; 9]%Z ∧
  field_values r "bbox_xyxy" = Some [2; 0; 3; 0; 4; 0; 4; 0]%Z ∧
  field_shape r "image" = Some [2; 9; 1; 5].
Proof. repeat split; vm_compute; reflexivity. Qed.

(** C2 as stated fails with two class channels: the series has one
    instance, id 3, whose pixel holds the class values 6 and 4, but no label
    is assigned: the boolean index has the shape 1×1×1, the class tensor the
    shape 2×1×1, the index is not broadcast and [__getitem__] raises
    IndexError. *)
Lemma getitem_label_two_channels_counterexample :
  instance_id_list (array4 Int32 [1; 1; 1; 1] [[[[3]]]]%Z) = [3]%Z ∧
  flatten (array4 Int32 [1; 1; 1; 2] [[[[6; 4]]]]%Z) = [6; 4]%Z ∧
  __getitem__ all_bands_dataset (world_of two_class_channel_archive) 0 = Raise IndexError.
Proof. repeat split; vm_compute; reflexivity. Qed.

(** C3 (amended): when the instance array of the series has a single
    channel, there is one box per distinct nonzero instance id, in ascending
    order of the ids, and the box of an id holds the floats nearest to the
    least column, the least row, the greatest column and the greatest row
    of the pixels with that id; the four coordinates are attained at such
    pixels.  For an image of at most 2^24 columns the columns of the box
    are these coordinates themselves, and for at most 2^24 rows so are the
    rows.  A dataset that can read an archive of the dataset format returns
    a sample. *)
Theorem getitem_bbox_extent (self : ZueriCrop) (w : World) (index : Z)
    (f : gmap string Tensor) (gi : Tensor) (N H W n : nat) :
  transforms self = None ->
  h5py_File w (filepath self) = Ok f ->
  f !! "gt_instance" = Some gi -> shape gi = [N; H; W; 1] ->
  wrap_index index N = Ok n ->
  (∀ T, readable self w N T H W -> ∃ sample, __getitem__ self w index = Ok sample) ∧
  ∀ sample, __getitem__ self w index = Ok sample ->
    ∃ boxes ids,
      sample !! "bbox_xyxy" = Some boxes ∧
      StronglySorted Z.lt ids ∧
      (∀ v, In v ids <-> v ≠ 0%Z ∧ ∃ h c, h < H ∧ c < W ∧ elt gi [n; h; c; 0] = v) ∧
      (ids ≠ [] -> shape boxes = [length ids; 4]) ∧
      ∀ i, i < length ids ->
        let pixels := fun r c =>
          if (elt gi [n; r; c; 0%nat] =? nth i ids 0)%Z then 1%Z else 0%Z in
        ∃ xmin ymin xmax ymax,
          extent_of pixels H W (fun r c => c) xmin xmax ∧
          extent_of pixels H W (fun r c => r) ymin ymax ∧
          elt boxes [i; 0] = round_float32 xmin ∧ elt boxes [i; 1] = round_float32 ymin ∧
          elt boxes [i; 2] = round_float32 xmax ∧ elt boxes [i; 3] = round_float32 ymax ∧
          ((Z.of_nat W <= 2 ^ 24)%Z ->
           elt boxes [i; 0] = xmin ∧ elt boxes [i; 2] = xmax) ∧
          ((Z.of_nat H <= 2 ^ 24)%Z ->
           elt boxes [i; 1] = ymin ∧ elt boxes [i; 3] = ymax).
Proof.
  intros Htr Hf Hgi Hsgi Hn. split.
  { intros T Hr. apply (getitem_returns self w index N T H W Htr Hr).
    now apply wrap_index_range in Hn. }
  intros sample Hget.
  destruct (getitem_boxes_by_id self w index f gi N H W n Htr Hf Hgi Hsgi Hn sample Hget)
    as (masks & boxes & ids & _ & Hbox & Hsorted & Hin & _ & _ & Hsb & Hinst).
  exists boxes, ids. split; [exact Hbox|]. split; [exact Hsorted|].
  split; [exact Hin|]. split; [exact Hsb|].
  intros i Hi pixels.
  destruct (Hinst i Hi) as (xmin & ymin & xmax & ymax & Hx & Hy & Hb0 & Hb1 & Hb2 & Hb3).
  exists xmin, ymin, xmax, ymax.
  split; [exact Hx|]. split; [exact Hy|].
  split; [exact Hb0|]. split; [exact Hb1|]. split; [exact Hb2|]. split; [exact Hb3|].
  destruct Hx as ((r1 & c1 & ? & ? & _ & Hxlo) & (r2 & c2 & ? & ? & _ & Hxhi) & _).
  destruct Hy as ((r3 & c3 & ? & ? & _ & Hylo) & (r4 & c4 & ? & ? & _ & Hyhi) & _).
  split.
  - intros HW. rewrite Hb0, Hb2. split; apply round_float32_exact; lia.
  - intros HH. rewrite Hb1, Hb3. split; apply round_float32_exact; lia.
Qed.

Lemma getitem_bbox_extent_witness :
  ∃ sample boxes,
    __getitem__ all_bands_dataset (world_of example_archive) 0 = Ok sample ∧
    sample !! "bbox_xyxy" = Some boxes ∧ shape boxes = [2; 4] ∧
    map (fun j => elt boxes [0; j]) (seq 0 4) = [2; 0; 3; 0]%Z ∧
    map (fun j => elt boxes [1; j]) (seq 0 4) = [4; 0; 4; 0]%Z.
Proof.
  destruct (getitem_bbox_extent all_bands_dataset (world_of example_archive) 0
              example_archive example_gt_instance 1 1 5 0
              eq_refl eq_refl eq_refl eq_refl eq_refl)
    as [Hret Hchar].
  destruct (Hret 2 example_readable) as (sample & Hs).
  destruct (Hchar sample Hs) as (boxes & ids & Hbox & Hsorted & Hin & Hsb & Hinst).
  assert (ids = [2; 5]%Z) as -> by exact (example_ids ids Hsorted Hin).
  exists sample, boxes. split; [exact Hs|]. split; [exact Hbox|].
  split; [apply Hsb; discriminate|].
  assert (Hbound : (Z.of_nat 5 <= 2 ^ 24)%Z ∧ (Z.of_nat 1 <= 2 ^ 24)%Z) by (split; lia).
  destruct Hbound as [HW HH]. cbn [map seq]. split.
  - destruct (Hinst 0 ltac:(simpl; lia))
      as (xmin & ymin & xmax & ymax & Hx & Hy & _ & _ & _ & _ & Hcol & Hrow).
    destruct (Hcol HW) as [-> ->]. destruct (Hrow HH) as [-> ->].
    destruct Hx as ((r1 & c1 & Hr1 & Hc1 & Hne1 & ->) & (r2 & c2 & Hr2 & Hc2 & Hne2 & ->) & Hxb).
    destruct Hy as ((r3 & c3 & Hr3 & Hc3 & _ & ->) & (r4 & c4 & Hr4 & Hc4 & _ & ->) & _).
    pose proof (Hxb 0 2 ltac:(lia) ltac:(lia) ltac:(discriminate)) as Hb2.
    pose proof (Hxb 0 3 ltac:(lia) ltac:(lia) ltac:(discriminate)) as Hb3.
    assert (r1 = 0) as -> by lia. assert (r2 = 0) as -> by lia.
    assert (c1 = 2 ∨ c1 = 3) as Hc1'.
    { do 5 (destruct c1 as [|c1]; [cbn in Hne1; try congruence; auto|]). lia. }
    assert (c2 = 2 ∨ c2 = 3) as Hc2'.
    { do 5 (destruct c2 as [|c2]; [cbn in Hne2; try congruence; auto|]). lia. }
    assert (c1 = 2) as -> by lia. assert (c2 = 3) as -> by lia.
    assert (r3 = 0) as -> by lia. assert (r4 = 0) as -> by lia. reflexivity.
  - destruct (Hinst 1 ltac:(simpl; lia))
      as (xmin & ymin & xmax & ymax & Hx & Hy & _ & _ & _ & _ & Hcol & Hrow).
    destruct (Hcol HW) as [-> ->]. destruct (Hrow HH) as [-> ->].
    destruct Hx as ((r1 & c1 & Hr1 & Hc1 & Hne1 & ->) & (r2 & c2 & Hr2 & Hc2 & Hne2 & ->) & _).
    destruct Hy as ((r3 & c3 & Hr3 & Hc3 & _ & ->) & (r4 & c4 & Hr4 & Hc4 & _ & ->) & _).
    assert (r1 = 0) as -> by lia. assert (r2 = 0) as -> by lia.
    assert (c1 = 4) as ->.
    { do 5 (destruct c1 as [|c1]; [cbn in Hne1; try congruence; auto|]). lia. }
    assert (c2 = 4) as ->.
    { do 5 (destruct c2 as [|c2]; [cbn in Hne2; try congruence; auto|]). lia. }
    assert (r3 = 0) as -> by lia. assert (r4 = 0) as -> by lia. reflexivity.
Defined.

(** The sample of an archive whose only instance is a single pixel at
    column [c] of a 1×W region. *)
Lemma single_pixel_box (W c : nat) :
  c < W ->
  ∃ sample masks boxes,
    __getitem__ all_bands_dataset (world_of (single_pixel_archive W c)) 0 = Ok sample ∧
    sample !! "mask" = Some masks ∧ sample !! "bbox_xyxy" = Some boxes ∧
    shape masks = [1; 1; W] ∧ shape boxes = [1; 4] ∧
    (∀ c', c' < W -> elt masks [0; 0; c'] = if c' =? c then 1%Z else 0%Z) ∧
    elt boxes [0; 0] = round_float32 (Z.of_nat c) ∧
    elt boxes [0; 2] = round_float32 (Z.of_nat c).
Proof.
  intros Hc.
  set (gi := mkTensor Int32 [1; 1; W; 1]
               (fun ix => if nth 2 ix 0 =? c then 1%Z else 0%Z)).
  assert (Hf : h5py_File (world_of (single_pixel_archive W c)) (filepath all_bands_dataset)
               = Ok (single_pixel_archive W c)) by reflexivity.
  assert (Hgi : single_pixel_archive W c !! "gt_instance" = Some gi) by reflexivity.
  assert (Hr : readable all_bands_dataset (world_of (single_pixel_archive W c)) 1 1 1 W).
  { split; [reflexivity|]. split; [exact all_bands_indices_valid|].
    exists (single_pixel_archive W c). split; [exact Hf|].
    do 3 eexists. repeat split; reflexivity. }
  destruct (getitem_returns all_bands_dataset _ 0 1 1 1 W eq_refl Hr ltac:(lia))
    as (sample & Hs).
  destruct (getitem_boxes_by_id all_bands_dataset _ 0 _ gi 1 1 W 0
              eq_refl Hf Hgi eq_refl eq_refl sample Hs)
    as (masks & boxes & ids & Hmask & Hbox & Hsorted & Hin & Hsm & Hem & Hsb & Hinst).
  assert (ids = [1]%Z) as ->.
  { apply sorted_same_elements; [exact Hsorted | repeat constructor|].
    intros v. rewrite Hin. cbn [elt gi nth]. split.
    - intros (Hv & h & c' & _ & _ & <-). destruct (c' =? c); [now left | congruence].
    - intros [<-|[]]. split; [discriminate|]. exists 0, c.
      rewrite Nat.eqb_refl. repeat split; lia. }
  exists sample, masks, boxes. split; [exact Hs|]. split; [exact Hmask|].
  split; [exact Hbox|]. split; [exact Hsm|]. split; [apply Hsb; discriminate|].
  assert (Hpix : ∀ r c',
            (if (elt gi [0%nat; r; c'; 0%nat] =? nth 0 [1] 0)%Z then 1%Z else 0%Z) ≠ 0%Z
            -> c' = c).
  { intros r c'. cbn [elt gi nth]. destruct (Nat.eqb_spec c' c); [auto|]. now cbn. }
  split.
  { intros c' Hc'. rewrite Hem by (simpl; lia). cbn [elt gi nth].
    now destruct (c' =? c). }
  destruct (Hinst 0 ltac:(simpl; lia))
    as (xmin & ymin & xmax & ymax & Hx & _ & -> & _ & -> & _).
  destruct Hx as ((r1 & c1 & _ & _ & Hne1 & ->) & (r2 & c2 & _ & _ & Hne2 & ->) & _).
  apply Hpix in Hne1, Hne2. subst c1 c2. split; reflexivity.
Qed.

(** C3 as stated fails for a wide image: in a region of 16777218 columns
    whose only instance is the pixel at column 16777217, the greatest (and
    least) column of the box is 16777216.0, the float nearest to 16777217,
    where the plane of the instance is 0. *)
Lemma getitem_bbox_rounding_counterexample :
  ∃ sample masks boxes,
    __getitem__ all_bands_dataset (world_of wide_archive) 0 = Ok sample ∧
    sample !! "mask" = Some masks ∧ sample !! "bbox_xyxy" = Some boxes ∧
    shape masks = [1; 1; Z.to_nat 16777218] ∧ shape boxes = [1; 4] ∧
    elt masks [0; 0; Z.to_nat 16777217] = 1%Z ∧
    elt masks [0; 0; Z.to_nat 16777216] = 0%Z ∧
    elt boxes [0; 0] = 16777216%Z ∧ elt boxes [0; 2] = 16777216%Z.
Proof.
  destruct (single_pixel_box (Z.to_nat 16777218) (Z.to_nat 16777217) ltac:(lia))
    as (sample & masks & boxes & Hs & Hmask & Hbox & Hsm & Hsb & Hem & Hb0 & Hb2).
  exists sample, masks, boxes. split; [exact Hs|]. split; [exact Hmask|].
  split; [exact Hbox|]. split; [exact Hsm|]. split; [exact Hsb|].
  rewrite Z2Nat.id in Hb0, Hb2 by lia.
  split; [|split; [|split; [exact Hb0 | exact Hb2]]].
  - rewrite Hem by lia. now rewrite Nat.eqb_refl.
  - rewrite Hem by lia.
    destruct (Nat.eqb_spec (Z.to_nat 16777216) (Z.to_nat 16777217)) as [Heq|]; [lia|].
    reflexivity.
Qed.




(** ** The claims on construction *)

Lemma validate_bands_valid (bands : pyobj) (items : list string) :
  is_Sequence bands = true -> py_iter bands = Ok items ->
  Forall (fun b => b ∈ band_names) items -> _validate_bands bands = Ok ().
Proof.
  intros Hseq Hit Hall. unfold _validate_bands. rewrite Hseq, Hit.
  cbn [mbind result_bind]. now apply check_band_names_Ok.
Qed.

Lemma band_positions_Ok (items : list string) :
  Forall (fun b => b ∈ band_names) items ->
  ∃ indices, for_each (seq_index band_names) items = Ok indices.
Proof.
  intros Hall. apply for_each_Ok. eapply Forall_impl; [exact Hall|].
  intros b Hb. unfold seq_index. destruct (list_index_elem b band_names Hb) as (i & ->).
  eauto.
Qed.

Lemma verify_present (self : ZueriCrop) (w : World) :
  (∀ filename, filename ∈ filenames ->
     path_exists w (path_join (root self) filename) = true) ->
  _verify self w = Ok w.
Proof.
  intros Hall. unfold _verify.
  replace (forallb id _) with true; [reflexivity|].
  symmetry. apply forallb_forall. intros b Hb.
  apply in_map_iff in Hb as (filename & <- & Hin).
  apply Hall. now apply list_elem_of_In.
Qed.

Lemma verify_missing (self : ZueriCrop) (w : World) (filename : string) :
  filename ∈ filenames ->
  path_exists w (path_join (root self) filename) = false ->
  download self = false -> _verify self w = Raise DatasetNotFoundError.
Proof.
  intros Hin Hmiss Hdl. unfold _verify.
  replace (forallb id _) with false; [now rewrite Hdl|].
  symmetry. apply not_true_is_false. intros Hall.
  rewrite forallb_forall in Hall.
  assert (Hin' : In (path_exists w (path_join (root self) filename))
                   (map (fun filename => path_exists w (path_join (root self) filename))
                        filenames)).
  { apply in_map_iff. exists filename. split; [reflexivity|]. now apply list_elem_of_In. }
  apply Hall in Hin'. rewrite Hmiss in Hin'. discriminate Hin'.
Qed.

Lemma validate_bands_error (bands : pyobj) (e : exn) :
  _validate_bands bands = Raise e ->
  ∃ msg, e = AssertionError msg ∨ e = ValueError msg.
Proof.
  unfold _validate_bands. destruct (is_Sequence bands) eqn:Hseq.
  - destruct (py_iter bands) as [items|e'] eqn:Hit; cbn [mbind result_bind].
    + clear Hit. induction items as [|b items IH]; simpl; [discriminate|].
      destruct (bool_decide _); [exact IH|]. intros [= <-]. eauto.
    + destruct bands; simpl in Hit, Hseq; congruence.
  - intros [= <-]. eauto.
Qed.

Lemma band_positions_error (items : list string) (e : exn) :
  for_each (seq_index band_names) items = Raise e -> ∃ msg, e = ValueError msg.
Proof.
  revert e. induction items as [|b items IH]; intros e; simpl; [discriminate|].
  destruct (seq_index band_names b) as [i|e'] eqn:Hb; cbn [mbind result_bind].
  - destruct (for_each _ items) as [bs|e''] eqn:E; cbn [mbind result_bind];
      [discriminate|]. intros [= <-]. now apply IH.
  - intros [= <-]. unfold seq_index in Hb.
    destruct (list_index b band_names); [discriminate|]. injection Hb as <-. eauto.
Qed.

(** C5 (amended): for every argument that is not a sequence, band
    validation fails with an AssertionError with the message "'bands' must
    be a sequence", which is not a TypeError; so does construction when
    h5py can be imported. *)
Theorem validate_bands_not_sequence (bands : pyobj) :
  is_Sequence bands = false ->
  let e := AssertionError "'bands' must be a sequence" in
  _validate_bands bands = Raise e ∧ is_TypeError_class e = false ∧
  ∀ w root tr dl ck, h5py_installed w = true ->
    __init__ w root bands tr dl ck = Raise e.
Proof.
  intros Hseq e. assert (Hv : _validate_bands bands = Raise e).
  { unfold _validate_bands. now rewrite Hseq. }
  split; [exact Hv|]. split; [reflexivity|].
  intros w root tr dl ck Hh. unfold __init__, lazy_import. rewrite Hh.
  cbn [mbind result_bind]. now rewrite Hv.
Qed.

Lemma validate_bands_not_sequence_witness :
  _validate_bands (PySet ["B02"])
  = Raise (AssertionError "'bands' must be a sequence") ∧
  is_TypeError_class (AssertionError "'bands' must be a sequence") = false ∧
  ∀ w root tr dl ck, h5py_installed w = true ->
    __init__ w root (PySet ["B02"]) tr dl ck
    = Raise (AssertionError "'bands' must be a sequence").
Proof. apply (validate_bands_not_sequence (PySet ["B02"])). reflexivity. Defined.

(** C5 as stated fails: an integer passed as the band subset makes
    construction raise an error that is not of the TypeError class. *)
Lemma init_not_sequence_counterexample :
  ∃ e, __init__ (world_of example_archive) "data" (PyInt 5) None false false = Raise e ∧
       is_TypeError_class e = false.
Proof. eexists. split; reflexivity. Qed.

(** C6: for every band subset with a name outside the nine band names,
    band validation, and with it construction when h5py can be imported,
    fails with a ValueError whose message names the first such entry. *)
Theorem init_invalid_band (bands : pyobj) (items : list string) :
  is_Sequence bands = true -> py_iter bands = Ok items ->
  (∃ b, b ∈ items ∧ b ∉ band_names) ->
  ∃ valid band rest,
    items = valid ++ band :: rest ∧
    Forall (fun b => b ∈ band_names) valid ∧ (band ∉ band_names) ∧
    (let e := ValueError ("'" +:+ (band +:+ "' is an invalid band name.")) in
     is_ValueError_class e = true ∧ _validate_bands bands = Raise e ∧
     ∀ w root tr dl ck, h5py_installed w = true ->
       __init__ w root bands tr dl ck = Raise e).
Proof.
  intros Hseq Hit (b & Hb & Hnb).
  destruct (split_first_invalid items) as (valid & band & rest & -> & Hvalid & Hband).
  { intros Hall. rewrite Forall_forall in Hall. exact (Hnb (Hall b Hb)). }
  exists valid, band, rest. split; [reflexivity|]. split; [exact Hvalid|].
  split; [exact Hband|]. intros e. split; [reflexivity|].
  assert (Hv : _validate_bands bands = Raise e).
  { unfold _validate_bands. rewrite Hseq, Hit. cbn [mbind result_bind].
    now apply check_band_names_invalid. }
  split; [exact Hv|].
  intros w root tr dl ck Hh. unfold __init__, lazy_import. rewrite Hh.
  cbn [mbind result_bind]. now rewrite Hv.
Qed.

Lemma init_invalid_band_witness :
  ∃ valid band rest,
    ["B04"; "B99"; "B02"; "XYZ"] = valid ++ band :: rest ∧
    Forall (fun b => b ∈ band_names) valid ∧ (band ∉ band_names) ∧
    (let e := ValueError ("'" +:+ (band +:+ "' is an invalid band name.")) in
     is_ValueError_class e = true ∧
     _validate_bands (PyList ["B04"; "B99"; "B02"; "XYZ"]) = Raise e ∧
     ∀ w root tr dl ck, h5py_installed w = true ->
       __init__ w root (PyList ["B04"; "B99"; "B02"; "XYZ"]) tr dl ck = Raise e).
Proof.
  apply (init_invalid_band (PyList ["B04"; "B99"; "B02"; "XYZ"])); try reflexivity.
  exists "B99". split.
  - apply (bool_decide_eq_true_1 _). reflexivity.
  - apply (bool_decide_eq_false_1 _). reflexivity.
Defined.

Example init_invalid_band_message :
  __init__ (world_of example_archive) "data" (PyList ["B04"; "B99"; "B02"; "XYZ"])
    None false false
  = Raise (ValueError "'B99' is an invalid band name.").
Proof. reflexivity. Qed.

(** C8: if one of the two required files is absent from the root
    directory and download is disabled, [_verify] raises
    DatasetNotFoundError, and so does construction with valid bands and
    h5py importable; if both files are present [_verify] returns and
    construction does not raise DatasetNotFoundError. *)
Theorem init_dataset_not_found (w : World) (dir : string) (bands : pyobj)
    (tr : option (Sample -> result Sample)) (dl ck : bool) :
  (∀ self filename, root self = dir -> filename ∈ filenames ->
     path_exists w (path_join dir filename) = false -> download self = false ->
     _verify self w = Raise DatasetNotFoundError) ∧
  (∀ filename, filename ∈ filenames ->
     path_exists w (path_join dir filename) = false -> dl = false ->
     h5py_installed w = true -> _validate_bands bands = Ok () ->
     __init__ w dir bands tr dl ck = Raise DatasetNotFoundError) ∧
  ((∀ filename, filename ∈ filenames -> path_exists w (path_join dir filename) = true) ->
     (∀ self, root self = dir -> _verify self w = Ok w) ∧
     __init__ w dir bands tr dl ck ≠ Raise DatasetNotFoundError).
Proof.
  split; [|split].
  - intros self filename <- Hin Hmiss Hdl. exact (verify_missing self w filename Hin Hmiss Hdl).
  - intros filename Hin Hmiss -> Hh Hv. unfold __init__, lazy_import. rewrite Hh.
    cbn [mbind result_bind]. rewrite Hv. cbn [mbind result_bind].
    unfold _validate_bands in Hv. destruct (is_Sequence bands); [|discriminate].
    destruct (py_iter bands) as [items|] eqn:Hit; [|discriminate].
    cbn [mbind result_bind] in Hv |- *.
    destruct (band_positions_Ok items (check_band_names_inv items Hv)) as (indices & ->).
    cbn [mbind result_bind].
    rewrite (verify_missing _ w filename Hin); [reflexivity | exact Hmiss | reflexivity].
  - intros Hall. split.
    + intros self <-. now apply verify_present.
    + unfold __init__.
      destruct (lazy_import w "h5py") as [u|e] eqn:Hl; cbn [mbind result_bind].
      2:{ unfold lazy_import in Hl. destruct (h5py_installed w); congruence. }
      destruct (_validate_bands bands) as [u'|e] eqn:Hv; cbn [mbind result_bind].
      2:{ apply validate_bands_error in Hv as [msg [->| ->]]; discriminate. }
      destruct (py_iter bands) as [items|e] eqn:Hit; cbn [mbind result_bind].
      2:{ destruct bands; simpl in Hit; congruence. }
      destruct (for_each _ items) as [indices|e] eqn:Hidx; cbn [mbind result_bind].
      2:{ apply band_positions_error in Hidx as [msg ->]. discriminate. }
      rewrite verify_present by exact Hall. cbn [mbind result_bind]. discriminate.
Qed.

Lemma init_dataset_not_found_witness :
  __init__ missing_labels_world "data" (PyTuple band_names) None false false
  = Raise DatasetNotFoundError ∧
  __init__ (world_of example_archive) "data" (PyTuple band_names) None false false
  ≠ Raise DatasetNotFoundError.
Proof.
  split.
  - destruct (init_dataset_not_found missing_labels_world "data" (PyTuple band_names)
                None false false) as (_ & Hmiss & _).
    apply (Hmiss "labels.csv"); try reflexivity.
    apply (bool_decide_eq_true_1 _). reflexivity.
  - destruct (init_dataset_not_found (world_of example_archive) "data"
                (PyTuple band_names) None false false) as (_ & _ & Hpresent).
    apply Hpresent. intros filename Hin.
    apply list_elem_of_In in Hin. simpl in Hin.
    destruct Hin as [<-|[<-|[]]]; reflexivity.
Defined.

Lemma init_Ok (w0 : World) (root : string) (bands : pyobj)
    (tr : option (Sample -> result Sample)) (dl ck : bool) (items : list string) :
  is_Sequence bands = true -> py_iter bands = Ok items ->
  Forall (fun b => b ∈ band_names) items ->
  h5py_installed w0 = true ->
  (∀ filename, filename ∈ filenames -> path_exists w0 (path_join root filename) = true) ->
  ∃ self, __init__ w0 root bands tr dl ck = Ok (self, w0).
Proof.
  intros Hseq Hit Hall Hh Hfiles. unfold __init__, lazy_import. rewrite Hh.
  cbn [mbind result_bind]. rewrite (validate_bands_valid bands items Hseq Hit Hall).
  cbn [mbind result_bind]. rewrite Hit. cbn [mbind result_bind].
  destruct (band_positions_Ok items Hall) as (indices & ->). cbn [mbind result_bind].
  rewrite verify_present by exact Hfiles. cbn [mbind result_bind]. eauto.
Qed.

Lemma init_readable (w0 w : World) (root : string) (bands : pyobj) (dl ck : bool)
    (tr : option (Sample -> result Sample))
    (self : ZueriCrop) (f : gmap string Tensor) (N T H W : nat) :
  __init__ w0 root bands tr dl ck = Ok (self, w) ->
  h5py_File w (filepath self) = Ok f -> archive_format f N T H W ->
  readable self w N T H W.
Proof.
  intros Hinit Hf Hfmt. split; [|split].
  - now apply init_inv in Hinit as (Hh & _).
  - exact (init_band_indices_valid _ _ _ _ _ _ _ _ Hinit).
  - eauto.
Qed.

(** C9: for every band subset whose names are all among the nine band
    names, construction succeeds when h5py can be imported and the two
    files are present; the band-index list of a constructed dataset has the
    length of the subset and holds at each position the position of that
    band in the fixed band order; a sample is returned for an archive of the
    dataset format, and the image of a sample has as many channels as the
    subset has entries. *)
Theorem init_band_indices_order (w0 : World) (root : string) (bands : pyobj)
    (dl ck : bool) (items : list string) :
  is_Sequence bands = true -> py_iter bands = Ok items ->
  Forall (fun b => b ∈ band_names) items ->
  (h5py_installed w0 = true ->
   (∀ filename, filename ∈ filenames -> path_exists w0 (path_join root filename) = true) ->
   ∃ self, __init__ w0 root bands None dl ck = Ok (self, w0)) ∧
  ∀ self w, __init__ w0 root bands None dl ck = Ok (self, w) ->
    shape (band_indices self) = [length items] ∧
    (∀ j, j < length items ->
       ∃ p, elt (band_indices self) [j] = Z.of_nat p ∧ band_names !! p = items !! j ∧
            ∀ q, q < p -> band_names !! q ≠ items !! j) ∧
    ∀ index,
      (∀ f N T H W, h5py_File w (filepath self) = Ok f -> archive_format f N T H W ->
         (- Z.of_nat N <= index < Z.of_nat N)%Z ->
         ∃ sample, __getitem__ self w index = Ok sample) ∧
      (∀ sample, __getitem__ self w index = Ok sample ->
         ∃ image T H W, sample !! "image" = Some image ∧
                        shape image = [T; length items; H; W]).
Proof.
  intros Hseq Hit Hall. split.
  { intros Hh Hfiles. exact (init_Ok w0 root bands None dl ck items Hseq Hit Hall Hh Hfiles). }
  intros self w Hinit. pose proof Hinit as Hinv.
  apply init_inv in Hinv as (Hh & _ & items' & indices & Hit' & _ & Hidx & Hself & _).
  rewrite Hit in Hit'. injection Hit' as <-.
  destruct (init_band_indices indices items Hidx) as (Hs & _ & Hp).
  assert (Hshape : shape (band_indices self) = [length items]) by (now subst self).
  assert (Htr : transforms self = None) by (now subst self).
  split; [exact Hshape|]. split.
  { intros j Hj. destruct (Hp j Hj) as (p & Helt & _ & Hpos & Hfirst).
    exists p. subst self. auto. }
  intros index. split.
  - intros f N T H W Hf Hfmt Hrange.
    apply (getitem_returns self w index N T H W Htr); [|exact Hrange].
    exact (init_readable _ _ _ _ _ _ _ _ _ _ _ _ _ Hinit Hf Hfmt).
  - intros sample Hget.
    apply (getitem_inv _ _ _ _ Htr) in Hget as (image & ? & ? & ? & Himg & _ & Hlook & _).
    apply load_image_inv in Himg
      as (f & data & N & T & H & W & C & n & k & _ & _ & _ & _ & Hk & Hsi & _).
    rewrite Hshape in Hk. injection Hk as <-. eauto 6.
Qed.

Lemma init_band_indices_order_witness :
  ∃ self,
    __init__ (world_of example_archive) "data" (PyList ["B04"; "NIR"; "B12"])
      None false false = Ok (self, world_of example_archive) ∧
    shape (band_indices self) = [3] ∧
    ∃ sample image T H W,
      __getitem__ self (world_of example_archive) 0 = Ok sample ∧
      sample !! "image" = Some image ∧ shape image = [T; 3; H; W].
Proof.
  destruct (init_band_indices_order (world_of example_archive) "data"
              (PyList ["B04"; "NIR"; "B12"]) false false ["B04"; "NIR"; "B12"]
              eq_refl eq_refl) as [Hinit Hchar].
  { repeat constructor; apply (bool_decide_eq_true_1 _); reflexivity. }
  destruct Hinit as (self & Hself); [reflexivity| |].
  { intros filename Hin. apply list_elem_of_In in Hin. simpl in Hin.
    destruct Hin as [<-|[<-|[]]]; reflexivity. }
  destruct (Hchar self _ Hself) as (Hshape & _ & Hget).
  destruct (Hget 0%Z) as [Hret Himg].
  destruct (Hret example_archive 1 2 1 5) as (sample & Hs).
  { subst. apply init_inv in Hself as (_ & _ & ? & ? & _ & _ & _ & -> & _). reflexivity. }
  { do 3 eexists. repeat split; reflexivity. }
  { lia. }
  destruct (Himg sample Hs) as (image & T & H & W & Hlook & Hsi).
  exists self. split; [exact Hself|]. split; [exact Hshape|].
  exists sample, image, T, H, W. auto.
Defined.

Example band_indices_values :
  match __init__ (world_of example_archive) "data" (PyList ["B04"; "NIR"; "B12"])
          None false false with
  | Ok (self, _) => Some (flatten (band_indices self))
  | Raise _ => None
  end = Some [3; 0; 8]%Z.
Proof. reflexivity. Qed.

(** C10: band validation only checks that each entry is one of the nine
    band names: a subset that is empty or repeats a name is accepted, and
    construction succeeds when h5py can be imported and the two files are
    present.  The image of a sample has one channel per entry of the subset,
    so none for the empty subset, and the channel at each position holds the
    archive channel of the band at that position, so a repeated band appears
    once per occurrence. *)
Theorem init_accepts_empty_and_duplicates (w0 : World) (root : string) (bands : pyobj)
    (dl ck : bool) (items : list string) :
  is_Sequence bands = true -> py_iter bands = Ok items ->
  Forall (fun b => b ∈ band_names) items ->
  _validate_bands bands = Ok () ∧
  (h5py_installed w0 = true ->
   (∀ filename, filename ∈ filenames -> path_exists w0 (path_join root filename) = true) ->
   ∃ self, __init__ w0 root bands None dl ck = Ok (self, w0)) ∧
  ∀ self w index sample,
    __init__ w0 root bands None dl ck = Ok (self, w) ->
    __getitem__ self w index = Ok sample ->
    ∃ image f data N T H W C n,
      sample !! "image" = Some image ∧
      h5py_File w (filepath self) = Ok f ∧ f !! "data" = Some data ∧
      shape data = [N; T; H; W; C] ∧ wrap_index index N = Ok n ∧
      shape image = [T; length items; H; W] ∧
      (items = [] -> shape image = [T; 0; H; W]) ∧
      ∀ j t h c, j < length items ->
        ∃ p, band_names !! p = items !! j ∧
             elt image [t; j; h; c] = elt data [n; t; h; c; p].
Proof.
  intros Hseq Hit Hall. split; [exact (validate_bands_valid bands items Hseq Hit Hall)|].
  split.
  { intros Hh Hfiles. exact (init_Ok w0 root bands None dl ck items Hseq Hit Hall Hh Hfiles). }
  intros self w index sample Hinit Hget.
  apply init_inv in Hinit as (Hh & _ & items' & indices & Hit' & _ & Hidx & Hself & _).
  rewrite Hit in Hit'. injection Hit' as <-.
  destruct (init_band_indices indices items Hidx) as (Hs & _ & Hp).
  assert (Hshape : shape (band_indices self) = [length items]) by (now subst self).
  assert (Htr : transforms self = None) by (now subst self).
  apply (getitem_inv _ _ _ _ Htr) in Hget as (image & ? & ? & ? & Himg & _ & Hlook & _).
  apply load_image_inv in Himg
    as (f & data & N & T & H & W & C & n & k & Hf & Hd & Hsd & Hn & Hk & Hsi & Helt).
  rewrite Hshape in Hk. injection Hk as <-.
  exists image, f, data, N, T, H, W, C, n.
  split; [exact Hlook|]. split; [exact Hf|]. split; [exact Hd|]. split; [exact Hsd|].
  split; [exact Hn|]. split; [exact Hsi|]. split; [now intros ->|].
  intros j t h c Hj. destruct (Hp j Hj) as (p & Hpj & _ & Hpos & _).
  exists p. split; [exact Hpos|]. rewrite Helt by exact Hj.
  subst self. cbn [band_indices]. now rewrite Hpj, Nat2Z.id.
Qed.

Lemma init_accepts_empty_and_duplicates_witness :
  _validate_bands (PyList ["B02"; "B02"]) = Ok () ∧
  ∃ self sample image,
    __init__ (world_of example_archive) "data" (PyList ["B02"; "B02"]) None false false
    = Ok (self, world_of example_archive) ∧
    __getitem__ self (world_of example_archive) 0 = Ok sample ∧
    sample !! "image" = Some image ∧
    ∃ T H W, shape image = [T; 2; H; W].
Proof.
  destruct (init_accepts_empty_and_duplicates (world_of example_archive) "data"
              (PyList ["B02"; "B02"]) false false ["B02"; "B02"] eq_refl eq_refl)
    as (Hv & Hinit & Hchar).
  { repeat constructor; apply (bool_decide_eq_true_1 _); reflexivity. }
  split; [exact Hv|].
  destruct Hinit as (self & Hself); [reflexivity| |].
  { intros filename Hin. apply list_elem_of_In in Hin. simpl in Hin.
    destruct Hin as [<-|[<-|[]]]; reflexivity. }
  destruct (getitem_returns self (world_of example_archive) 0 1 2 1 5) as (sample & Hs).
  { now apply init_inv in Hself as (_ & _ & ? & ? & _ & _ & _ & -> & _). }
  { apply (init_readable _ _ _ _ _ _ _ _ example_archive _ _ _ _ Hself).
    - apply init_inv in Hself as (_ & _ & ? & ? & _ & _ & _ & -> & _). reflexivity.
    - do 3 eexists. repeat split; reflexivity. }
  { lia. }
  destruct (Hchar self _ 0%Z sample Hself Hs)
    as (image & f & data & N & T & H & W & C & n & Hlook & _ & _ & _ & _ & Hsi & _).
  exists self, sample, image. split; [exact Hself|]. split; [exact Hs|].
  split; [exact Hlook|]. eauto.
Defined.

(** The empty subset and a repeated band on the example archive, whose
    image elements are the channel numbers. *)
Example empty_and_duplicate_bands :
  field_shape (__getitem__ (dataset_of (PyList []) []) (world_of example_archive) 0) "image"
  = Some [2; 0; 1; 5] ∧
  field_values (__getitem__ (dataset_of (PyList ["B02"; "B02"]) [2; 2]%Z)
                  (world_of example_archive) 0) "image"
  = Some (replicate 20 2%Z) ∧
  (∃ w, __init__ (world_of example_archive) "data" (PyList []) None false false
        = Ok (dataset_of (PyList []) [], w)) ∧
  (∃ w, __init__ (world_of example_archive) "data" (PyList ["B02"; "B02"]) None false false
        = Ok (dataset_of (PyList ["B02"; "B02"]) [2; 2]%Z, w)).
Proof.
  split; [vm_compute; reflexivity|]. split; [vm_compute; reflexivity|].
  split; eexists; reflexivity.
Qed.

(** ** The claim on [plot] *)

Lemma single_char_not_band (c : ascii) : String c EmptyString ∉ band_names.
Proof.
  intros Hin. apply list_elem_of_In in Hin. simpl in Hin.
  repeat (destruct Hin as [Hin|Hin]; [discriminate Hin|]). exact Hin.
Qed.

(** The band subset of a constructed dataset is a list or tuple of band
    names, or the empty string. *)
Lemma constructed_bands (w0 w : World) (root : string) (subset : pyobj)
    (tr : option (Sample -> result Sample)) (dl ck : bool) (self : ZueriCrop)
    (items : list string) :
  __init__ w0 root subset tr dl ck = Ok (self, w) -> py_iter subset = Ok items ->
  bands self = subset ∧
  (subset = PyList items ∨ subset = PyTuple items ∨ (subset = PyStr "" ∧ items = [])).
Proof.
  intros Hinit Hit.
  apply init_inv in Hinit as (_ & Hseq & items' & indices & Hit' & Hall & _ & -> & _).
  rewrite Hit in Hit'. injection Hit' as <-. split; [reflexivity|].
  destruct subset as [| |s|l|l|l]; simpl in Hseq, Hit; try discriminate.
  - right; right. destruct s as [|c s]; [now injection Hit as <-|].
    injection Hit as <-. apply Forall_inv in Hall.
    now apply single_char_not_band in Hall.
  - left. congruence.
  - right; left. congruence.
Qed.

Lemma list_index_lt (x : string) (l : list string) (i : nat) :
  list_index x l = Some i -> i < length l.
Proof.
  intros H. apply list_index_Some in H as [H _]. now apply lookup_lt_Some in H.
Qed.

Lemma rgb_positions_sequence (bands : pyobj) (items rgb : list string) :
  bands = PyList items ∨ bands = PyTuple items ->
  (Forall (fun b => b ∈ items) rgb ->
   ∃ l, rgb_positions bands rgb = Ok l ∧ length l = length rgb ∧
        Forall (fun i => i < length items) l) ∧
  (¬ Forall (fun b => b ∈ items) rgb ->
   rgb_positions bands rgb = Raise RGBBandsMissingError).
Proof.
  intros Hb.
  assert (Hc : ∀ x, py_contains bands x = Ok (bool_decide (x ∈ items)))
    by (destruct Hb as [-> | ->]; reflexivity).
  assert (Hi : ∀ x, py_index bands x = seq_index items x)
    by (destruct Hb as [-> | ->]; reflexivity).
  induction rgb as [|b rgb [IHok IHno]]; simpl.
  - split; [eauto|]. intros Hnot. destruct Hnot. constructor.
  - rewrite Hc. cbn [mbind result_bind]. case_bool_decide as Hin.
    + rewrite Hi. unfold seq_index.
      destruct (list_index_elem b items Hin) as (i & Hidx). rewrite Hidx.
      cbn [mbind result_bind]. split.
      * intros Hall. apply Forall_cons in Hall as [_ Hall].
        destruct (IHok Hall) as (l & -> & Hlen & Hlt). cbn [mbind result_bind].
        exists (i :: l). split; [reflexivity|]. split; [simpl; lia|].
        constructor; [now apply list_index_lt in Hidx | exact Hlt].
      * intros Hnot. rewrite IHno; [reflexivity|].
        intros Hall. apply Hnot. now constructor.
    + split; [|reflexivity]. intros Hall. apply Forall_cons in Hall as [Hb' _].
      contradiction.
Qed.

Lemma bind_not_rgb {A B : Type} (m : result A) (k : A -> result B) :
  m ≠ Raise RGBBandsMissingError ->
  (∀ a, m = Ok a -> k a ≠ Raise RGBBandsMissingError) ->
  m ≫= k ≠ Raise RGBBandsMissingError.
Proof. intros Hm Hk. destruct m as [a|e]; simpl; [now apply Hk | congruence]. Qed.

Lemma dict_get_not_rgb (sample : Sample) (key : string) :
  dict_get sample key ≠ Raise RGBBandsMissingError.
Proof. unfold dict_get. destruct (sample !! key); discriminate. Qed.

Lemma wrap_index_not_rgb (i : Z) (n : nat) : wrap_index i n ≠ Raise RGBBandsMissingError.
Proof. unfold wrap_index. destruct (_ && _); discriminate. Qed.

Lemma torch_index_not_rgb (i : Z) (n : nat) : torch_index i n ≠ Raise RGBBandsMissingError.
Proof.
  unfold torch_index. destruct (_ && _); [apply wrap_index_not_rgb | discriminate].
Qed.

Lemma getitem_int_list_not_rgb (t : Tensor) (i : Z) (l : list nat) :
  getitem_int_list t i l ≠ Raise RGBBandsMissingError.
Proof.
  unfold getitem_int_list. destruct (shape t) as [|d0 [|d1 rest]]; try discriminate.
  apply bind_not_rgb; [apply torch_index_not_rgb|]. intros i0 _.
  destruct (forallb _ l); discriminate.
Qed.

Lemma normalized_uint8_not_rgb (pn : Tensor -> list nat -> Z) (image : Tensor) :
  normalized_uint8 pn image ≠ Raise RGBBandsMissingError.
Proof.
  unfold normalized_uint8. destruct (existsb _ _); [discriminate|].
  destruct (is_Bool _); discriminate.
Qed.

Lemma argmax0_not_rgb (t : Tensor) : argmax0 t ≠ Raise RGBBandsMissingError.
Proof.
  unfold argmax0. destruct (shape t) as [|[|d] rest], (is_Bool (dtype t)); discriminate.
Qed.

Lemma permute_not_rgb (dims : list nat) (t : Tensor) :
  permute dims t ≠ Raise RGBBandsMissingError.
Proof. unfold permute. destruct (is_permutation _ _); discriminate. Qed.

Lemma update_axes_not_rgb (fig : Figure) (k : nat) (f : Axes -> Axes) :
  update_axes fig k f ≠ Raise RGBBandsMissingError.
Proof. unfold update_axes. destruct (axes fig !! k); discriminate. Qed.

Lemma imshow_not_rgb (fig : Figure) (k : nat) (img : Tensor) :
  imshow fig k img ≠ Raise RGBBandsMissingError.
Proof.
  unfold imshow.
  destruct (shape img) as [|? [|? [|[|[|[|[|[|?]]]]] [|? ?]]]];
    try discriminate; apply update_axes_not_rgb.
Qed.

Lemma axis_off_not_rgb (fig : Figure) (k : nat) :
  axis_off fig k ≠ Raise RGBBandsMissingError.
Proof. apply update_axes_not_rgb. Qed.

Lemma set_title_not_rgb (fig : Figure) (k : nat) (title : string) :
  set_title fig k title ≠ Raise RGBBandsMissingError.
Proof. apply update_axes_not_rgb. Qed.

Create HintDb not_rgb.
#[local] Hint Resolve dict_get_not_rgb getitem_int_list_not_rgb argmax0_not_rgb
  normalized_uint8_not_rgb
  permute_not_rgb imshow_not_rgb axis_off_not_rgb set_title_not_rgb : not_rgb.



Lemma rgb_positions_constructed (bands : pyobj) (items : list string) :
  bands = PyList items ∨ bands = PyTuple items ∨ (bands = PyStr "" ∧ items = []) ->
  ((∀ b, b ∈ rgb_bands -> b ∈ items) ->
   ∃ i0 i1 i2, rgb_positions bands rgb_bands = Ok [i0; i1; i2] ∧
               i0 < length items ∧ i1 < length items ∧ i2 < length items) ∧
  ((∃ b, b ∈ rgb_bands ∧ b ∉ items) ->
   rgb_positions bands rgb_bands = Raise RGBBandsMissingError).
Proof.
  intros [Hb|[Hb|[-> ->]]].
  1,2: destruct (rgb_positions_sequence bands items rgb_bands) as [Hok Hno];
    [tauto|]; split.
  1,3: intros Hall; destruct Hok as (l & Hl & Hlen & Hlt);
    [now apply Forall_forall|];
    destruct l as [|i0 [|i1 [|i2 [|? ?]]]]; try discriminate Hlen;
    exists i0, i1, i2; split; [exact Hl|];
    apply Forall_cons in Hlt as [? Hlt]; apply Forall_cons in Hlt as [? Hlt];
    apply Forall_cons in Hlt as [? _]; auto.
  1,2: intros (b & Hb1 & Hb2); apply Hno; intros Hall;
    rewrite Forall_forall in Hall; exact (Hb2 (Hall b Hb1)).
  split; [|reflexivity]. intros Hall.
  assert (Hin : "B04" ∈ rgb_bands) by (apply (bool_decide_eq_true_1 _); reflexivity).
  apply Hall in Hin. now apply elem_of_nil in Hin.
Qed.

(** An index within the 64-bit integers is a Python index. *)
Lemma torch_index_int64 (i : Z) (n : nat) :
  (- 2 ^ 63 <= i < 2 ^ 63)%Z -> torch_index i n = wrap_index i n.
Proof.
  intros Hi. unfold torch_index.
  replace (_ && _) with true; [reflexivity|]. symmetry. apply andb_true_iff.
  split; [apply Z.leb_le | apply Z.ltb_lt]; lia.
Qed.

Lemma torch_index_Ok (i : Z) (n : nat) :
  (Z.of_nat n <= 2 ^ 63)%Z -> (- Z.of_nat n <= i < Z.of_nat n)%Z ->
  ∃ i0, torch_index i n = Ok i0.
Proof.
  intros Hn Hi. rewrite torch_index_int64 by lia. now apply wrap_index_Ok.
Qed.

Lemma no_empty_dimension (H W : nat) :
  H ≠ 0 -> W ≠ 0 -> existsb (Nat.eqb 0) [3; H; W] = false.
Proof. intros HH HW. destruct H, W; try contradiction; reflexivity. Qed.

Ltac plot_steps Hrgb Himg Hsimg Hdimg Hne Ht0 Hsel Hmask Hsmask Hdmask :=
  unfold plot; rewrite Hrgb; cbn [mbind result_bind];
  unfold dict_get; rewrite Himg; cbn [mbind result_bind];
  unfold getitem_int_list; rewrite Hsimg, Ht0; cbn [mbind result_bind];
  rewrite Hsel; cbn [mbind result_bind];
  rewrite Hmask; cbn [mbind result_bind];
  unfold normalized_uint8; cbn [shape dtype length]; rewrite Hne, Hdimg;
  cbn [mbind result_bind];
  unfold argmax0; rewrite Hsmask, Hdmask; cbn [mbind result_bind].


Lemma rgb_in_band_names : ∀ b, b ∈ rgb_bands -> b ∈ band_names.
Proof.
  intros b Hb. apply list_elem_of_In in Hb. simpl in Hb.
  destruct Hb as [<-|[<-|[<-|[]]]]; apply (bool_decide_eq_true_1 _); reflexivity.
Qed.

Lemma plot_sample_image :
  image_to_plot (mkTensor Int32 [2; 9; 1; 5] (fun ix => Z.of_nat (nth 1 ix 0))) 2 9 1 5.
Proof. repeat split; try reflexivity; lia. Qed.

Lemma plot_sample_mask :
  planes_to_plot
    (mkTensor UInt8 [2; 1; 5]
       (fun ix => match ix with
                  | [0; 0; 2] | [0; 0; 3] | [1; 0; 4] => 1%Z
                  | _ => 0%Z
                  end)) 2 1 5.
Proof. repeat split; try reflexivity; lia. Qed.




(** The sample that [__getitem__] returns for a background-only series
    has a mask without planes, and [plot] raises IndexError at the argmax
    over it. *)
Example plot_no_instance_sample :
  field_shape (__getitem__ all_bands_dataset (world_of background_archive) 0) "mask"
  = Some [0; 1; 2] ∧
  ∀ pn, match __getitem__ all_bands_dataset (world_of background_archive) 0 with
        | Ok sample => plot pn all_bands_dataset sample 0 true None
        | Raise e => Raise e
        end = Raise IndexError.
Proof.
  split.
  - vm_compute. reflexivity.
  - intros pn. vm_compute. reflexivity.
Qed.

(** ** Further properties: length and index range *)

Lemma wrap_index_out (index : Z) (N : nat) :
  ¬ (- Z.of_nat N <= index < Z.of_nat N)%Z -> wrap_index index N = Raise IndexError.
Proof.
  intros Hout. unfold wrap_index.
  destruct (_ && _) eqn:E; [|reflexivity].
  apply andb_true_iff in E as [E1 E2]. destruct (Z.ltb_spec index 0); lia.
Qed.

(** X1: for a dataset that reads an archive of the dataset format with N
    series, [__len__] returns N, and [__getitem__] returns a sample for
    every index from -N to N-1 and raises IndexError for every other
    index. *)
Theorem len_and_index_range (self : ZueriCrop) (w : World) (N T H W : nat) (index : Z) :
  transforms self = None -> readable self w N T H W ->
  __len__ self w = Ok N ∧
  ((- Z.of_nat N <= index < Z.of_nat N)%Z ->
   ∃ sample, __getitem__ self w index = Ok sample) ∧
  (¬ (- Z.of_nat N <= index < Z.of_nat N)%Z ->
   __getitem__ self w index = Raise IndexError).
Proof.
  intros Htr Hr. split; [|split].
  - destruct Hr as (Hh & _ & f & Hf & data & gt & gi & Hd & Hsd & _).
    unfold __len__, lazy_import. rewrite Hh. cbn [mbind result_bind].
    rewrite Hf. cbn [mbind result_bind]. unfold h5_get. rewrite Hd.
    cbn [mbind result_bind]. now rewrite Hsd.
  - intros Hin. exact (getitem_returns self w index N T H W Htr Hr Hin).
  - intros Hout.
    destruct Hr as (Hh & _ & f & Hf & data & gt & gi & Hd & Hsd & _).
    unfold __getitem__, _load_image, lazy_import. rewrite Hh. cbn [mbind result_bind].
    rewrite Hf. cbn [mbind result_bind]. unfold h5_get. rewrite Hd.
    cbn [mbind result_bind]. unfold getitem0. rewrite Hsd.
    now rewrite (wrap_index_out index N Hout).
Qed.

Lemma len_and_index_range_witness :
  __len__ all_bands_dataset (world_of example_archive) = Ok 1 ∧
  (∃ sample, __getitem__ all_bands_dataset (world_of example_archive) (-1) = Ok sample) ∧
  __getitem__ all_bands_dataset (world_of example_archive) 1 = Raise IndexError.
Proof.
  destruct (len_and_index_range all_bands_dataset (world_of example_archive) 1 2 1 5 (-1)
              eq_refl example_readable) as (Hlen & Hin & _).
  destruct (len_and_index_range all_bands_dataset (world_of example_archive) 1 2 1 5 1
              eq_refl example_readable) as (_ & _ & Hout).
  split; [exact Hlen|]. split; [apply Hin; lia | apply Hout; lia].
Defined.

(** ** Further properties: the masks, boxes and labels *)

Lemma sorted_nth_lt (l : list Z) :
  StronglySorted Z.lt l ->
  ∀ i j, i < j -> j < length l -> (nth i l 0 < nth j l 0)%Z.
Proof.
  induction 1 as [|x l Hs IH Hall]; intros i j Hij Hj; simpl in Hj; [lia|].
  destruct j as [|j]; [lia|]. destruct i as [|i]; simpl.
  - rewrite Forall_forall in Hall. apply Hall, list_elem_of_In, nth_In. lia.
  - apply IH; lia.
Qed.

Lemma sorted_nth_inj (l : list Z) (i j : nat) :
  StronglySorted Z.lt l -> i < length l -> j < length l ->
  nth i l 0%Z = nth j l 0%Z -> i = j.
Proof.
  intros Hs Hi Hj Heq. destruct (Nat.lt_trichotomy i j) as [Hlt|[->|Hlt]]; [|reflexivity|].
  - pose proof (sorted_nth_lt l Hs i j Hlt Hj). lia.
  - pose proof (sorted_nth_lt l Hs j i Hlt Hi). lia.
Qed.

(** X2: with a single instance channel the planes of the sample partition
    the foreground: a pixel whose instance id is 0 is in no plane, and a
    pixel with a nonzero id is in exactly one plane. *)
Theorem getitem_masks_partition (self : ZueriCrop) (w : World) (index : Z)
    (f : gmap string Tensor) (gi : Tensor) (N H W n : nat) :
  transforms self = None ->
  h5py_File w (filepath self) = Ok f ->
  f !! "gt_instance" = Some gi -> shape gi = [N; H; W; 1] ->
  wrap_index index N = Ok n ->
  ∀ sample, __getitem__ self w index = Ok sample ->
    ∃ masks I,
      sample !! "mask" = Some masks ∧ shape masks = [I; H; W] ∧
      ∀ h c, h < H -> c < W ->
        (elt gi [n; h; c; 0] = 0%Z -> ∀ i, i < I -> elt masks [i; h; c] = 0%Z) ∧
        (elt gi [n; h; c; 0] ≠ 0%Z ->
         ∃ i, i < I ∧ elt masks [i; h; c] = 1%Z ∧
              ∀ j, j < I -> elt masks [j; h; c] = 1%Z -> j = i).
Proof.
  intros Htr Hf Hgi Hsgi Hn sample Hget.
  apply (getitem_inv _ _ _ _ Htr) in Hget
    as (image & masks & boxes & labels & _ & Htg & _ & Hmask & _).
  apply load_target_inv in Htg
    as (f' & gt & gi' & N1 & N2 & H1 & W1 & Kc & H' & W' & Ki & n1 & n2 & mt & it
        & Hf' & _ & _ & _ & Hgi' & Hsgi' & Hn2 & _ & _ & _ & Hsit & Heit & Ht).
  rewrite Hf in Hf'. injection Hf' as <-.
  rewrite Hgi in Hgi'. injection Hgi' as <-.
  rewrite Hsgi in Hsgi'. injection Hsgi' as <- <- <- <-.
  rewrite Hn in Hn2. injection Hn2 as <-.
  destruct (target_of_masks mt it masks boxes labels H W Hsit Ht) as [Hsm Hem].
  set (ids := instance_id_list it) in *.
  exists masks, (length ids). split; [exact Hmask|]. split; [exact Hsm|].
  intros h c Hh Hc. rewrite <- Heit. split.
  - intros Hzero i Hi. rewrite Hem, Hzero by assumption.
    destruct (Z.eqb_spec 0 (nth i ids 0%Z)) as [Heq|]; [|reflexivity].
    assert (Hin : In (nth i ids 0%Z) ids) by (now apply nth_In).
    apply in_instance_id_list in Hin as [Hne _]. congruence.
  - intros Hne.
    assert (Hin : In (elt it [0; h; c]) ids).
    { apply in_instance_id_list. split; [exact Hne|].
      exists [0; h; c]. split; [|reflexivity]. rewrite Hsit.
      repeat constructor; lia. }
    apply (In_nth _ _ 0%Z) in Hin as (i & Hi & Hnth).
    exists i. split; [exact Hi|]. split.
    + now rewrite Hem, Hnth, Z.eqb_refl.
    + intros j Hj Hone. rewrite Hem in Hone by assumption.
      destruct (Z.eqb_spec (elt it [0; h; c]) (nth j ids 0%Z)) as [Heq|]; [|discriminate].
      apply (sorted_nth_inj ids j i (instance_id_list_sorted it) Hj Hi). congruence.
Qed.

Lemma getitem_masks_partition_witness :
  ∃ sample masks I,
    __getitem__ all_bands_dataset (world_of example_archive) 0 = Ok sample ∧
    sample !! "mask" = Some masks ∧ shape masks = [I; 1; 5] ∧
    ∀ h c, h < 1 -> c < 5 ->
      (elt example_gt_instance [0; h; c; 0] = 0%Z ->
       ∀ i, i < I -> elt masks [i; h; c] = 0%Z) ∧
      (elt example_gt_instance [0; h; c; 0] ≠ 0%Z ->
       ∃ i, i < I ∧ elt masks [i; h; c] = 1%Z ∧
            ∀ j, j < I -> elt masks [j; h; c] = 1%Z -> j = i).
Proof.
  destruct (getitem_returns all_bands_dataset (world_of example_archive) 0 1 2 1 5
              eq_refl example_readable ltac:(lia)) as (sample & Hs).
  destruct (getitem_masks_partition all_bands_dataset (world_of example_archive) 0
              example_archive example_gt_instance 1 1 5 0
              eq_refl eq_refl eq_refl eq_refl eq_refl sample Hs)
    as (masks & I & Hmask & Hsm & Hpart).
  exists sample, masks, I. auto.
Defined.

(** X3: in a returned sample of at most 2^24 columns every box has
    0 <= xmin <= xmax < W, and in one of at most 2^24 rows every box has
    0 <= ymin <= ymax < H.  (Beyond 2^24 the float nearest to a coordinate
    can be W or H itself.) *)
Theorem getitem_bbox_within_image (self : ZueriCrop) (w : World) (index : Z) :
  transforms self = None ->
  ∀ sample, __getitem__ self w index = Ok sample ->
    ∃ masks boxes I H W,
      sample !! "mask" = Some masks ∧ sample !! "bbox_xyxy" = Some boxes ∧
      shape masks = [I; H; W] ∧
      ∀ i, i < I ->
        ((Z.of_nat W <= 2 ^ 24)%Z ->
         (0 <= elt boxes [i; 0%nat] <= elt boxes [i; 2%nat])%Z ∧
         (elt boxes [i; 2%nat] < Z.of_nat W)%Z) ∧
        ((Z.of_nat H <= 2 ^ 24)%Z ->
         (0 <= elt boxes [i; 1%nat] <= elt boxes [i; 3%nat])%Z ∧
         (elt boxes [i; 3%nat] < Z.of_nat H)%Z).
Proof.
  intros Htr sample Hget.
  apply (getitem_inv _ _ _ _ Htr) in Hget
    as (image & masks & boxes & labels & _ & Htg & _ & Hmask & Hbox & _).
  apply load_target_inv in Htg
    as (f & gt & gi & N1 & N2 & H1 & W1 & Kc & H & W & Ki & n1 & n2 & mt & it
        & _ & _ & _ & _ & _ & _ & _ & Hsmt & _ & _ & Hsit & _ & Ht).
  destruct (target_of_instances mt it masks boxes labels Kc H1 W1 Ki H W Hsmt Hsit Ht)
    as (I & Hsm & _ & _ & _ & _ & _ & _ & _ & _ & Hinst).
  exists masks, boxes, I, H, W.
  split; [exact Hmask|]. split; [exact Hbox|]. split; [exact Hsm|].
  intros i Hi.
  destruct (Hinst i Hi)
    as (_ & xmin & ymin & xmax & ymax & Hx & Hy & Hb0 & Hb1 & Hb2 & Hb3).
  destruct Hx as ((r1 & c1 & ? & ? & Hne1 & Hlo) & (r2 & c2 & ? & ? & _ & Hhi) & Hxb).
  destruct Hy as ((r3 & c3 & ? & ? & Hne3 & Hlo') & (r4 & c4 & ? & ? & _ & Hhi') & Hyb).
  pose proof (Hxb r1 c1 ltac:(assumption) ltac:(assumption) Hne1).
  pose proof (Hyb r3 c3 ltac:(assumption) ltac:(assumption) Hne3).
  split.
  - intros HW. rewrite Hb0, Hb2, !round_float32_exact by lia. lia.
  - intros HH. rewrite Hb1, Hb3, !round_float32_exact by lia. lia.
Qed.

Lemma getitem_bbox_within_image_witness :
  ∃ sample masks boxes,
    __getitem__ all_bands_dataset (world_of example_archive) 0 = Ok sample ∧
    sample !! "mask" = Some masks ∧ sample !! "bbox_xyxy" = Some boxes ∧
    shape masks = [2; 1; 5] ∧
    ∀ i, i < 2 ->
      (0 <= elt boxes [i; 0%nat] <= elt boxes [i; 2%nat])%Z ∧
      (elt boxes [i; 2%nat] < 5)%Z ∧
      (0 <= elt boxes [i; 1%nat] <= elt boxes [i; 3%nat])%Z ∧
      (elt boxes [i; 3%nat] < 1)%Z.
Proof.
  destruct (getitem_returns all_bands_dataset (world_of example_archive) 0 1 2 1 5
              eq_refl example_readable ltac:(lia)) as (sample & Hs).
  destruct (getitem_bbox_within_image all_bands_dataset (world_of example_archive) 0
              eq_refl sample Hs) as (masks & boxes & I & H & W & Hmask & Hbox & Hsm & Hin).
  assert (Hv : field_shape (__getitem__ all_bands_dataset (world_of example_archive) 0)
                 "mask" = Some [2; 1; 5]) by (vm_compute; reflexivity).
  rewrite Hs in Hv. cbn [field_shape] in Hv. rewrite Hmask in Hv. cbn in Hv.
  rewrite Hsm in Hv. injection Hv as -> -> ->.
  exists sample, masks, boxes. split; [exact Hs|]. split; [exact Hmask|].
  split; [exact Hbox|]. split; [exact Hsm|].
  intros i Hi. destruct (Hin i Hi) as [Hcol Hrow].
  destruct (Hcol ltac:(lia)) as [Hc1 Hc2]. destruct (Hrow ltac:(lia)) as [Hr1 Hr2].
  split; [exact Hc1|]. split; [exact Hc2|]. split; [exact Hr1 | exact Hr2].
Defined.

(** X4: a sample with at least one instance is returned only when the
    class array has exactly one channel and the height and width of the
    instance array. *)
Theorem getitem_instances_need_one_class_channel (self : ZueriCrop) (w : World)
    (index : Z) (f : gmap string Tensor) (gt gi : Tensor)
    (N1 N2 Hg Wg Kc H W Ki : nat) :
  transforms self = None ->
  h5py_File w (filepath self) = Ok f ->
  f !! "gt" = Some gt -> shape gt = [N1; Hg; Wg; Kc] ->
  f !! "gt_instance" = Some gi -> shape gi = [N2; H; W; Ki] ->
  ∀ sample labels I,
    __getitem__ self w index = Ok sample ->
    sample !! "label" = Some labels -> shape labels = [S I] ->
    Kc = 1 ∧ Hg = H ∧ Wg = W.
Proof.
  intros Htr Hf Hgt Hsgt Hgi Hsgi sample labels I Hget Hlabel Hsl.
  apply (getitem_inv _ _ _ _ Htr) in Hget
    as (image & masks & boxes & labels' & _ & Htg & _ & _ & _ & Hlabel' & _).
  rewrite Hlabel in Hlabel'. injection Hlabel' as <-.
  apply load_target_inv in Htg
    as (f' & gt' & gi' & N1' & N2' & H1 & W1 & Kc' & H' & W' & Ki' & n1 & n2 & mt & it
        & Hf' & Hgt' & Hsgt' & _ & Hgi' & Hsgi' & _ & Hsmt & _ & _ & Hsit & _ & Ht).
  rewrite Hf in Hf'. injection Hf' as <-.
  rewrite Hgt in Hgt'. injection Hgt' as <-.
  rewrite Hgi in Hgi'. injection Hgi' as <-.
  rewrite Hsgt in Hsgt'. injection Hsgt' as <- <- <- <-.
  rewrite Hsgi in Hsgi'. injection Hsgi' as <- <- <- <-.
  destruct (target_of_instances mt it masks boxes labels Kc Hg Wg Ki H W Hsmt Hsit Ht)
    as (I' & _ & _ & _ & Hsl' & _ & _ & _ & _ & Hone & _).
  rewrite Hsl in Hsl'. injection Hsl' as <-. apply Hone. discriminate.
Qed.

Lemma getitem_instances_need_one_class_channel_witness :
  ∃ sample labels,
    __getitem__ all_bands_dataset (world_of example_archive) 0 = Ok sample ∧
    sample !! "label" = Some labels ∧ shape labels = [2] ∧
    (1 = 1 ∧ 1 = 1 ∧ 5 = 5).
Proof.
  destruct (getitem_returns all_bands_dataset (world_of example_archive) 0 1 2 1 5
              eq_refl example_readable ltac:(lia)) as (sample & Hs).
  assert (Hv : field_shape (__getitem__ all_bands_dataset (world_of example_archive) 0)
                 "label" = Some [2]) by (vm_compute; reflexivity).
  rewrite Hs in Hv. cbn [field_shape] in Hv.
  destruct (sample !! "label") as [labels|] eqn:Hlabel; [|discriminate Hv].
  injection Hv as Hsl.
  exists sample, labels. split; [exact Hs|]. split; [exact Hlabel|].
  split; [exact Hsl|].
  exact (getitem_instances_need_one_class_channel all_bands_dataset
           (world_of example_archive) 0 example_archive example_gt example_gt_instance
           1 1 1 5 1 1 5 1 eq_refl eq_refl eq_refl eq_refl eq_refl eq_refl
           sample labels 1 Hs Hlabel Hsl).
Defined.

(** ** Further properties: band validation and the files *)

(** X5: [_validate_bands] accepts exactly the sequences all of whose
    entries are band names.  A str is a sequence of its characters: the
    empty str is accepted, and a nonempty one raises ValueError naming its
    first character. *)
Theorem validate_bands_accepts_exactly (bands : pyobj) :
  (_validate_bands bands = Ok () <->
   is_Sequence bands = true ∧
   ∃ items, py_iter bands = Ok items ∧ Forall (fun b => b ∈ band_names) items) ∧
  _validate_bands (PyStr "") = Ok () ∧
  ∀ c s, _validate_bands (PyStr (String c s))
         = Raise (ValueError ("'" +:+ (String c "" +:+ "' is an invalid band name."))).
Proof.
  split; [|split].
  - split.
    + intros Hv. unfold _validate_bands in Hv.
      destruct (is_Sequence bands) eqn:Hseq; [|discriminate]. split; [reflexivity|].
      destruct (py_iter bands) as [items|e]; [|discriminate].
      exists items. split; [reflexivity|]. now apply check_band_names_inv.
    + intros (Hseq & items & Hit & Hall). exact (validate_bands_valid bands items Hseq Hit Hall).
  - reflexivity.
  - intros c s. unfold _validate_bands. cbn [is_Sequence py_iter chars mbind result_bind].
    apply (check_band_names_invalid [] (String c "") (chars s)); [constructor|].
    apply single_char_not_band.
Qed.

Lemma download_url_inv (w w' : World) (url' root filename : string) (md5 : option string) :
  download_url w url' root filename md5 = Ok w' ->
  ∃ file, fs w' = <[path_join root filename := file]> (fs w) ∧
          h5py_installed w' = h5py_installed w ∧ remote w' = remote w.
Proof.
  unfold download_url. destruct (remote w !! url') as [[file sum]|]; [|discriminate].
  destruct (bool_decide _); [|discriminate]. intros [= <-]. eauto.
Qed.

Lemma path_exists_true (w : World) (p : string) :
  path_exists w p = true <-> is_Some (fs w !! p).
Proof. unfold path_exists. apply bool_decide_eq_true. Qed.

Lemma path_exists_mono (w w' : World) (p : string) :
  fs w ⊆ fs w' -> path_exists w p = true -> path_exists w' p = true.
Proof.
  rewrite !path_exists_true. intros Hsub [file Hfile]. exists file.
  eapply lookup_weaken; eassumption.
Qed.

(** [_download] keeps every file that is there, and afterwards each of
    the listed files is there. *)
Lemma download_files_inv (root : string) (ck : bool) (files : list (string * string))
    (w w' : World) :
  download_files root ck w files = Ok w' ->
  fs w ⊆ fs w' ∧ remote w' = remote w ∧
  ∀ fm, fm ∈ files -> path_exists w' (path_join root fm.1) = true.
Proof.
  revert w. induction files as [|[filename md5] files IH]; intros w; simpl.
  - intros [= <-]. split; [reflexivity|]. split; [reflexivity|].
    intros fm Hfm. now apply elem_of_nil in Hfm.
  - destruct (path_exists w (path_join root filename)) eqn:Hex; simpl.
    + intros Hrest. destruct (IH w Hrest) as (Hsub & Hrem & Hall).
      split; [exact Hsub|]. split; [exact Hrem|].
      intros fm Hfm. apply elem_of_cons in Hfm as [->|Hfm]; [|now apply Hall].
      exact (path_exists_mono w w' _ Hsub Hex).
    + intros Hdl. inv_bind Hdl.
      apply download_url_inv in Ha as (file & Hfs & _ & Hrem0).
      destruct (IH a Hdl) as (Hsub & Hrem & Hall).
      assert (Hnone : fs w !! path_join root filename = None).
      { apply eq_None_not_Some. rewrite <- path_exists_true. now rewrite Hex. }
      assert (Hsub0 : fs w ⊆ fs a) by (rewrite Hfs; now apply insert_subseteq).
      split; [now transitivity (fs a)|]. split; [congruence|].
      intros fm Hfm. apply elem_of_cons in Hfm as [->|Hfm]; [|now apply Hall].
      apply (path_exists_mono a w' _ Hsub). apply path_exists_true.
      rewrite Hfs. simpl. rewrite lookup_insert_eq. eauto.
Qed.

(** X6: a successful construction keeps every file that was there with
    its content, and afterwards both required files exist, so that
    [_verify] on the resulting world returns without a download; with
    download disabled the world is unchanged. *)
Theorem init_keeps_and_completes_files (w0 w : World) (dir : string) (subset : pyobj)
    (tr : option (Sample -> result Sample)) (dl ck : bool) (self : ZueriCrop) :
  __init__ w0 dir subset tr dl ck = Ok (self, w) ->
  fs w0 ⊆ fs w ∧
  (∀ filename, filename ∈ filenames -> path_exists w (path_join dir filename) = true) ∧
  _verify self w = Ok w ∧
  (dl = false -> w = w0).
Proof.
  intros Hinit.
  apply init_inv in Hinit as (_ & _ & items & indices & _ & _ & _ & Hself & Hv).
  assert (Hroot : root self = dir) by (now subst self).
  assert (Hdl : download self = dl) by (now subst self).
  unfold _verify in Hv. rewrite Hroot, Hdl in Hv.
  destruct (forallb id _) eqn:Hall.
  - injection Hv as <-.
    assert (Hfiles : ∀ filename, filename ∈ filenames ->
              path_exists w0 (path_join dir filename) = true).
    { intros filename Hin. rewrite forallb_forall in Hall.
      apply (Hall (path_exists w0 (path_join dir filename))).
      apply in_map_iff. exists filename. split; [reflexivity|].
      now apply list_elem_of_In. }
    split; [reflexivity|]. split; [exact Hfiles|]. split; [|reflexivity].
    apply verify_present. now rewrite Hroot.
  - destruct dl; [|discriminate]. simpl in Hv. unfold _download in Hv.
    rewrite Hroot in Hv. apply download_files_inv in Hv as (Hsub & _ & Hfiles).
    assert (Hfiles' : ∀ filename, filename ∈ filenames ->
              path_exists w (path_join dir filename) = true).
    { intros filename Hin. apply list_elem_of_In in Hin. simpl in Hin.
      destruct Hin as [<-|[<-|[]]].
      - apply (Hfiles ("ZueriCrop.hdf5", "1635231df67f3d25f4f1e62c98e221a4")).
        apply (bool_decide_eq_true_1 _). reflexivity.
      - apply (Hfiles ("labels.csv", "5118398c7a5bbc246f5f6bb35d8d529b")).
        apply (bool_decide_eq_true_1 _). reflexivity. }
    split; [exact Hsub|]. split; [exact Hfiles'|]. split; [|discriminate].
    apply verify_present. now rewrite Hroot.
Qed.

Lemma init_keeps_and_completes_files_witness :
  ∃ self w,
    __init__ remote_world "data" (PyTuple band_names) None true true = Ok (self, w) ∧
    fs remote_world ⊆ fs w ∧
    (∀ filename, filename ∈ filenames ->
       path_exists w (path_join "data" filename) = true) ∧
    _verify self w = Ok w ∧
    (true = false -> w = remote_world).
Proof.
  destruct (__init__ remote_world "data" (PyTuple band_names) None true true)
    as [[self w]|e] eqn:Hinit; [|vm_compute in Hinit; discriminate Hinit].
  exists self, w. split; [reflexivity|].
  exact (init_keeps_and_completes_files remote_world w "data" (PyTuple band_names)
           None true true self Hinit).
Defined.

(** ** Further properties: the transform and missing arrays *)

(** X7: a transform is applied to the sample that the dataset returns
    without it, a dict with exactly the keys 'image', 'mask', 'bbox_xyxy'
    and 'label', and its result or its exception is what [__getitem__]
    gives; when loading raises, the transform is not applied and the
    exception of the loading is raised. *)
Theorem getitem_applies_transform (self : ZueriCrop) (w : World) (index : Z)
    (f : Sample -> result Sample) :
  transforms self = Some f ->
  (∀ e, __getitem__ (without_transforms self) w index = Raise e ->
        __getitem__ self w index = Raise e) ∧
  (∀ sample, __getitem__ (without_transforms self) w index = Ok sample ->
     dom sample = ({[ "image"; "mask"; "bbox_xyxy"; "label" ]} : gset string) ∧
     __getitem__ self w index = f sample).
Proof.
  intros Htr. unfold __getitem__. rewrite Htr.
  change (_load_image (without_transforms self) w index) with (_load_image self w index).
  change (_load_target (without_transforms self) w index) with (_load_target self w index).
  cbn [without_transforms transforms].
  destruct (_load_image self w index) as [image|e1]; cbn [mbind result_bind].
  2:{ split; [intros e [= <-]; reflexivity | intros sample [=]]. }
  destruct (_load_target self w index) as [[[masks boxes] labels]|e2];
    cbn [mbind result_bind].
  2:{ split; [intros e [= <-]; reflexivity | intros sample [=]]. }
  split; [intros e [=]|]. intros sample [= <-]. split; [|reflexivity].
  rewrite !dom_insert_L, dom_singleton_L. set_solver.
Qed.

Lemma getitem_applies_transform_witness :
  ∃ sample,
    __getitem__ (without_transforms
                   (mkZueriCrop (band_indices all_bands_dataset) "data" (PyTuple band_names)
                      (Some (fun s => Ok (delete "label" s))) false false
                      "data/ZueriCrop.hdf5"))
      (world_of example_archive) 0 = Ok sample ∧
    dom sample = ({[ "image"; "mask"; "bbox_xyxy"; "label" ]} : gset string) ∧
    __getitem__ (mkZueriCrop (band_indices all_bands_dataset) "data" (PyTuple band_names)
                   (Some (fun s => Ok (delete "label" s))) false false
                   "data/ZueriCrop.hdf5")
      (world_of example_archive) 0 = Ok (delete "label" sample).
Proof.
  destruct (getitem_returns all_bands_dataset (world_of example_archive) 0 1 2 1 5
              eq_refl example_readable ltac:(lia)) as (sample & Hs).
  exists sample. split; [exact Hs|].
  destruct (getitem_applies_transform
              (mkZueriCrop (band_indices all_bands_dataset) "data" (PyTuple band_names)
                 (Some (fun s => Ok (delete "label" s))) false false
                 "data/ZueriCrop.hdf5")
              (world_of example_archive) 0 (fun s => Ok (delete "label" s)) eq_refl)
    as [_ Hok].
  exact (Hok sample Hs).
Defined.

(** X8: with h5py importable and the archive opened, [__getitem__] raises
    KeyError naming the first of the arrays 'data', 'gt' and 'gt_instance'
    that the archive lacks: the image is loaded before the target, and
    within the target the class array before the instance array. *)
Theorem getitem_missing_array (self : ZueriCrop) (w : World) (index : Z)
    (f : gmap string Tensor) :
  h5py_installed w = true -> h5py_File w (filepath self) = Ok f ->
  (f !! "data" = None -> __getitem__ self w index = Raise (KeyError "data")) ∧
  (∀ image, _load_image self w index = Ok image -> f !! "gt" = None ->
     __getitem__ self w index = Raise (KeyError "gt")) ∧
  (∀ image gt N rest, _load_image self w index = Ok image ->
     f !! "gt" = Some gt -> shape gt = N :: rest ->
     (- Z.of_nat N <= index < Z.of_nat N)%Z -> f !! "gt_instance" = None ->
     __getitem__ self w index = Raise (KeyError "gt_instance")).
Proof.
  intros Hh Hf. split; [|split].
  - intros Hnone. unfold __getitem__, _load_image, lazy_import. rewrite Hh.
    cbn [mbind result_bind]. rewrite Hf. cbn [mbind result_bind].
    unfold h5_get. now rewrite Hnone.
  - intros image Himg Hnone. unfold __getitem__. rewrite Himg. cbn [mbind result_bind].
    unfold _load_target, import_h5py. rewrite Hh. cbn [mbind result_bind].
    rewrite Hf. cbn [mbind result_bind]. unfold h5_get. now rewrite Hnone.
  - intros image gt N rest Himg Hgt Hsgt Hidx Hnone.
    destruct (wrap_index_Ok index N Hidx) as (n & Hn).
    unfold __getitem__. rewrite Himg. cbn [mbind result_bind].
    unfold _load_target, import_h5py. rewrite Hh. cbn [mbind result_bind].
    rewrite Hf. cbn [mbind result_bind]. unfold h5_get. rewrite Hgt.
    cbn [mbind result_bind]. unfold getitem0. rewrite Hsgt, Hn.
    cbn [mbind result_bind]. now rewrite Hnone.
Qed.

Lemma getitem_missing_array_witness :
  __getitem__ all_bands_dataset (world_of images_only_archive) 0 = Raise (KeyError "gt") ∧
  __getitem__ all_bands_dataset (world_of ∅) 0 = Raise (KeyError "data").
Proof.
  split.
  - destruct (getitem_missing_array all_bands_dataset (world_of images_only_archive) 0
                images_only_archive eq_refl eq_refl) as (_ & Hgt & _).
    destruct (_load_image all_bands_dataset (world_of images_only_archive) 0)
      as [image|e] eqn:Himg; [|vm_compute in Himg; discriminate Himg].
    apply (Hgt image); reflexivity.
  - destruct (getitem_missing_array all_bands_dataset (world_of ∅) 0 ∅ eq_refl eq_refl)
      as (Hdata & _). apply Hdata. reflexivity.
Defined.

(** ** Further properties: the figure of [plot] *)



(** X10: with the RGB bands in the subset of a constructed dataset,
    [plot] raises KeyError 'image' for a sample without image, IndexError
    for a 64-bit time step outside -T..T-1 of a T×C×H×W image, and KeyError
    'mask' for a sample whose image can be indexed (the time step is a
    64-bit integer within -T..T-1) but that has no mask. *)
Theorem plot_missing_inputs (pn : Tensor -> list nat -> Z) (w0 w : World)
    (dir : string) (subset : pyobj) (tr : option (Sample -> result Sample))
    (dl ck : bool) (self : ZueriCrop) (items : list string) :
  __init__ w0 dir subset tr dl ck = Ok (self, w) -> py_iter subset = Ok items ->
  (∀ b, b ∈ rgb_bands -> b ∈ items) ->
  ∀ sample time_step show_titles suptitle,
    (sample !! "image" = None ->
     plot pn self sample time_step show_titles suptitle = Raise (KeyError "image")) ∧
    (∀ image T C H W,
       sample !! "image" = Some image -> shape image = [T; C; H; W] ->
       (- 2 ^ 63 <= time_step < 2 ^ 63)%Z ->
       ¬ (- Z.of_nat T <= time_step < Z.of_nat T)%Z ->
       plot pn self sample time_step show_titles suptitle = Raise IndexError) ∧
    (∀ image T C H W,
       sample !! "image" = Some image -> shape image = [T; C; H; W] ->
       length items <= C ->
       (- 2 ^ 63 <= time_step < 2 ^ 63)%Z ->
       (- Z.of_nat T <= time_step < Z.of_nat T)%Z ->
       sample !! "mask" = None ->
       plot pn self sample time_step show_titles suptitle = Raise (KeyError "mask")).
Proof.
  intros Hinit Hit Hall sample time_step show_titles suptitle.
  destruct (constructed_bands _ _ _ _ _ _ _ _ _ Hinit Hit) as [Hbands Hform].
  destruct (rgb_positions_constructed subset items Hform) as [Hok _].
  rewrite <- Hbands in Hok.
  destruct (Hok Hall) as (i0 & i1 & i2 & Hrgb & Hi0 & Hi1 & Hi2).
  split; [|split].
  - intros Hnone. unfold plot. rewrite Hrgb. cbn [mbind result_bind].
    unfold dict_get. now rewrite Hnone.
  - intros image T C H W Himg Hsimg H64 Hout. unfold plot. rewrite Hrgb.
    cbn [mbind result_bind]. unfold dict_get. rewrite Himg. cbn [mbind result_bind].
    unfold getitem_int_list. rewrite Hsimg, (torch_index_int64 _ _ H64).
    now rewrite (wrap_index_out _ _ Hout).
  - intros image T C H W Himg Hsimg HC H64 Hts Hnone.
    destruct (wrap_index_Ok time_step T Hts) as (t0 & Ht0).
    assert (Hsel : forallb (fun j => j <? C) [i0; i1; i2] = true).
    { simpl. rewrite !andb_true_iff, !Nat.ltb_lt. lia. }
    unfold plot. rewrite Hrgb. cbn [mbind result_bind].
    unfold dict_get. rewrite Himg. cbn [mbind result_bind].
    unfold getitem_int_list. rewrite Hsimg, (torch_index_int64 _ _ H64), Ht0.
    cbn [mbind result_bind].
    rewrite Hsel. cbn [mbind result_bind]. now rewrite Hnone.
Qed.

Lemma plot_missing_inputs_witness :
  plot (fun _ _ => 0%Z) all_bands_dataset ∅ 0 true None = Raise (KeyError "image") ∧
  plot (fun _ _ => 0%Z) all_bands_dataset plot_sample 2 true None = Raise IndexError ∧
  plot (fun _ _ => 0%Z) all_bands_dataset (delete "mask" plot_sample) 0 true None
  = Raise (KeyError "mask").
Proof.
  pose proof (plot_missing_inputs (fun _ _ => 0%Z) (world_of example_archive)
                (world_of example_archive) "data" (PyTuple band_names) None false false
                all_bands_dataset band_names eq_refl eq_refl rgb_in_band_names) as Hplot.
  split; [|split].
  - destruct (Hplot ∅ 0%Z true None) as (Himage & _). apply Himage. reflexivity.
  - destruct (Hplot plot_sample 2%Z true None) as (_ & Hstep & _).
    apply (Hstep (mkTensor Int32 [2; 9; 1; 5] (fun ix => Z.of_nat (nth 1 ix 0))) 2 9 1 5);
      [reflexivity | reflexivity | lia | lia].
  - destruct (Hplot (delete "mask" plot_sample) 0%Z true None) as (_ & _ & Hmask).
    apply (Hmask (mkTensor Int32 [2; 9; 1; 5] (fun ix => Z.of_nat (nth 1 ix 0))) 2 9 1 5);
      [reflexivity | reflexivity | simpl; lia | lia | lia | reflexivity].
Defined.

Lemma argmax_from_spec (f : nat -> Z) (n : nat) :
  ∀ best i, best < i ->
    (∀ j, j < i -> (f j <= f best)%Z) ->
    (∀ j, j < best -> (f j < f best)%Z) ->
    argmax_from f best i n < i + n ∧
    (∀ j, j < i + n -> (f j <= f (argmax_from f best i n))%Z) ∧
    (∀ j, j < argmax_from f best i n -> (f j < f (argmax_from f best i n))%Z).
Proof.
  induction n as [|n IH]; intros best i Hbi Hmax Hfirst; simpl.
  - rewrite Nat.add_0_r. auto.
  - replace (i + S n) with (S i + n) by lia.
    destruct (Z.ltb_spec (f best) (f i)) as [Hlt|Hge]; apply IH; try lia.
    + intros j Hj. destruct (decide (j = i)) as [->|]; [lia|].
      specialize (Hmax j ltac:(lia)). lia.
    + intros j Hj. specialize (Hmax j Hj). lia.
    + intros j Hj. destruct (decide (j = i)) as [->|]; [lia|]. apply Hmax. lia.
    + exact Hfirst.
Qed.

(** X11: when [plot] returns (conditions as for C7), the mask panel holds
    at each pixel the index of the first plane of the mask that has the
    largest value there; a pixel that is in no plane is shown as 0, like a
    pixel of plane 0. *)
Theorem plot_mask_panel (pn : Tensor -> list nat -> Z) (w0 w : World)
    (dir : string) (subset : pyobj) (tr : option (Sample -> result Sample))
    (dl ck : bool) (self : ZueriCrop) (items : list string) :
  __init__ w0 dir subset tr dl ck = Ok (self, w) -> py_iter subset = Ok items ->
  (∀ b, b ∈ rgb_bands -> b ∈ items) ->
  ∀ sample time_step show_titles suptitle image masks T C H W I Hm Wm,
    sample !! "image" = Some image -> image_to_plot image T C H W ->
    length items <= C -> (- Z.of_nat T <= time_step < Z.of_nat T)%Z ->
    sample !! "mask" = Some masks -> planes_to_plot masks I Hm Wm ->
    (∀ prediction, sample !! "prediction" = Some prediction ->
       ∃ Ip Hp Wp, planes_to_plot prediction Ip Hp Wp) ->
    ∃ fig panel,
      plot pn self sample time_step show_titles suptitle = Ok fig ∧
      axes fig !! 1 ≫= ax_image = Some panel ∧ shape panel = [Hm; Wm] ∧
      ∀ h c,
        (∃ i, elt panel [h; c] = Z.of_nat i ∧ i < I ∧
              (∀ j, j < I -> (elt masks [j; h; c] <= elt masks [i; h; c])%Z) ∧
              (∀ j, j < i -> (elt masks [j; h; c] < elt masks [i; h; c])%Z)) ∧
        ((∀ j, j < I -> elt masks [j; h; c] = 0%Z) -> elt panel [h; c] = 0%Z).
Proof.
  intros Hinit Hit Hall sample time_step show_titles suptitle
    image masks T C H W I Hm Wm Himg (Hsimg & Hdimg & HH & HW & HT) HC Hts
    Hmask (Hsmask & Hdmask & HI & _) Hpred.
  destruct I as [|I]; [contradiction|].
  destruct (constructed_bands _ _ _ _ _ _ _ _ _ Hinit Hit) as [Hbands Hform].
  destruct (rgb_positions_constructed subset items Hform) as [Hok _].
  rewrite <- Hbands in Hok.
  destruct (Hok Hall) as (i0 & i1 & i2 & Hrgb & Hi0 & Hi1 & Hi2).
  destruct (torch_index_Ok time_step T HT Hts) as (t0 & Ht0).
  pose proof (no_empty_dimension H W HH HW) as Hne.
  assert (Hsel : forallb (fun j => j <? C) [i0; i1; i2] = true).
  { simpl. rewrite !andb_true_iff, !Nat.ltb_lt. lia. }
  assert (Hspec : ∀ h c,
    (∃ i, Z.of_nat (argmax_from (fun i => elt masks [i; h; c]) 0 1 I) = Z.of_nat i ∧
          i < S I ∧
          (∀ j, j < S I -> (elt masks [j; h; c] <= elt masks [i; h; c])%Z) ∧
          (∀ j, j < i -> (elt masks [j; h; c] < elt masks [i; h; c])%Z)) ∧
    ((∀ j, j < S I -> elt masks [j; h; c] = 0%Z) ->
     Z.of_nat (argmax_from (fun i => elt masks [i; h; c]) 0 1 I) = 0%Z)).
  { intros h c.
    destruct (argmax_from_spec (fun i => elt masks [i; h; c]) I 0 1) as (Hlt & Hmax & Hfirst);
      [lia | intros j Hj; assert (j = 0) as -> by lia; lia | intros j Hj; lia |].
    split.
    - eexists. split; [reflexivity|]. split; [lia|]. split; [exact Hmax | exact Hfirst].
    - intros Hzero.
      destruct (argmax_from (fun i => elt masks [i; h; c]) 0 1 I) as [|r] eqn:Hr;
        [reflexivity|].
      specialize (Hfirst 0 ltac:(lia)). cbv beta in Hfirst.
      rewrite (Hzero 0), (Hzero (S r)) in Hfirst by lia. lia. }
  destruct (sample !! "prediction") as [prediction|] eqn:Hp.
  - destruct (Hpred prediction eq_refl) as (Ip & Hp' & Wp & Hsp & Hdp & HIp & _).
    destruct Ip as [|Ip]; [contradiction|].
    plot_steps Hrgb Himg Hsimg Hdimg Hne Ht0 Hsel Hmask Hsmask Hdmask.
    rewrite Hp, Hsp, Hdp. cbn.
    destruct show_titles, suptitle;
      (do 2 eexists; split; [reflexivity|]; split; [reflexivity|];
       split; [reflexivity|]; exact Hspec).
  - plot_steps Hrgb Himg Hsimg Hdimg Hne Ht0 Hsel Hmask Hsmask Hdmask.
    rewrite Hp. cbn.
    destruct show_titles, suptitle;
      (do 2 eexists; split; [reflexivity|]; split; [reflexivity|];
       split; [reflexivity|]; exact Hspec).
Qed.

Lemma plot_mask_panel_witness :
  ∃ fig panel,
    plot (fun _ _ => 0%Z) all_bands_dataset plot_sample 0 true None = Ok fig ∧
    axes fig !! 1 ≫= ax_image = Some panel ∧ shape panel = [1; 5] ∧
    map (fun c => elt panel [0; c]) (seq 0 5) = [0; 0; 0; 0; 1]%Z.
Proof.
  destruct (plot_mask_panel (fun _ _ => 0%Z) (world_of example_archive)
              (world_of example_archive) "data" (PyTuple band_names) None false false
              all_bands_dataset band_names eq_refl eq_refl rgb_in_band_names
              plot_sample 0%Z true None
              (mkTensor Int32 [2; 9; 1; 5] (fun ix => Z.of_nat (nth 1 ix 0)))
              (mkTensor UInt8 [2; 1; 5]
                 (fun ix => match ix with
                            | [0; 0; 2] | [0; 0; 3] | [1; 0; 4] => 1%Z
                            | _ => 0%Z
                            end))
              2 9 1 5 2 1 5 eq_refl plot_sample_image ltac:(simpl; lia) ltac:(lia)
              eq_refl plot_sample_mask ltac:(intros p Hp; discriminate Hp))
    as (fig & panel & Hfig & Hpanel & Hshape & Hspec).
  exists fig, panel. split; [exact Hfig|]. split; [exact Hpanel|]. split; [exact Hshape|].
  cbn [map seq].
  assert (H0 : ∀ c, c < 4 -> elt panel [0; c] = 0%Z).
  { intros c Hc. destruct (Hspec 0 c) as [(i & Hi & Hlt & Hmax & Hfirst) _].
    rewrite Hi. destruct i as [|[|i]]; [reflexivity | | lia].
    specialize (Hfirst 0 ltac:(lia)). cbn [elt] in Hfirst.
    do 4 (destruct c as [|c]; [cbn in Hfirst; lia|]). lia. }
  assert (H4 : elt panel [0; 4] = 1%Z).
  { destruct (Hspec 0 4) as [(i & Hi & Hlt & Hmax & Hfirst) _].
    rewrite Hi. destruct i as [|[|i]]; [|reflexivity|lia].
    specialize (Hmax 1 ltac:(lia)). cbn in Hmax. lia. }
  rewrite !H0, H4 by lia. reflexivity.
Defined.

(** ** Further properties: a constructed dataset finds its archive *)

Lemma bind_Raise_inv {A B : Type} (m : result A) (k : A -> result B) (e : exn) :
  m ≫= k = Raise e -> m = Raise e ∨ ∃ a, m = Ok a ∧ k a = Raise e.
Proof. destruct m as [a|e']; simpl; [eauto | intros [= <-]; auto]. Qed.

Lemma for_each_Raise_inv {A B : Type} (f : A -> result B) (l : list A) (e : exn) :
  for_each f l = Raise e -> ∃ a, f a = Raise e.
Proof.
  induction l as [|a l IH]; simpl; [discriminate|]. intros H.
  apply bind_Raise_inv in H as [H|(b & _ & H)]; [eauto|].
  apply bind_Raise_inv in H as [H|(bs & _ & H)]; [auto | discriminate].
Qed.

Ltac raise_cases H :=
  repeat match type of H with
         | _ ≫= _ = Raise _ =>
             let a := fresh "a" in
             apply bind_Raise_inv in H as [H|(a & _ & H)]
         end.

Lemma wrap_index_Raise (i : Z) (n : nat) (e : exn) :
  wrap_index i n = Raise e -> missing_environment e = false.
Proof. unfold wrap_index. destruct (_ && _); [discriminate|]. now intros [= <-]. Qed.

Lemma getitem0_Raise (a : Tensor) (index : Z) (e : exn) :
  getitem0 a index = Raise e -> missing_environment e = false.
Proof.
  unfold getitem0. destruct (shape a); [now intros [= <-]|]. intros H.
  apply bind_Raise_inv in H as [H|(? & _ & H)]; [|discriminate].
  now apply wrap_index_Raise in H.
Qed.

Lemma h5_get_Raise (f : gmap string Tensor) (name : string) (e : exn) :
  h5_get f name = Raise e -> missing_environment e = false.
Proof. unfold h5_get. destruct (f !! name); [discriminate|]. now intros [= <-]. Qed.

Lemma from_numpy_Raise (a : Tensor) (e : exn) :
  from_numpy a = Raise e -> missing_environment e = false.
Proof. unfold from_numpy. destruct (shape a); [|discriminate]. now intros [= <-]. Qed.

Lemma permute_Raise (dims : list nat) (t : Tensor) (e : exn) :
  permute dims t = Raise e -> missing_environment e = false.
Proof. unfold permute. destruct (is_permutation _ _); [discriminate|]. now intros [= <-]. Qed.

Lemma index_select_Raise (t : Tensor) (dim : nat) (index : Tensor) (e : exn) :
  index_select t dim index = Raise e -> missing_environment e = false.
Proof.
  unfold index_select.
  destruct (shape index) as [|n [|? ?]], (shape t !! dim); try (now intros [= <-]).
  destruct (forallb _ _); [discriminate|]. now intros [= <-].
Qed.

Lemma index_bool_Raise (t m : Tensor) (e : exn) :
  index_bool t m = Raise e -> missing_environment e = false.
Proof. unfold index_bool. case_decide; [discriminate|]. now intros [= <-]. Qed.

Lemma eq_tensor_Raise (a b : Tensor) (e : exn) :
  eq_tensor a b = Raise e -> missing_environment e = false.
Proof.
  unfold eq_tensor. destruct (broadcast_shapes _ _); [discriminate|]. now intros [= <-].
Qed.

Lemma iterate_Raise (t : Tensor) (e : exn) :
  iterate t = Raise e -> missing_environment e = false.
Proof. unfold iterate. destruct (shape t); [|discriminate]. now intros [= <-]. Qed.

Lemma first_element_Raise (t : Tensor) (e : exn) :
  first_element t = Raise e -> missing_environment e = false.
Proof. unfold first_element. destruct (flatten t); [|discriminate]. now intros [= <-]. Qed.

Lemma torch_min_Raise (t : Tensor) (e : exn) :
  torch_min t = Raise e -> missing_environment e = false.
Proof. unfold torch_min. destruct (flatten t); [|discriminate]. now intros [= <-]. Qed.

Lemma torch_max_Raise (t : Tensor) (e : exn) :
  torch_max t = Raise e -> missing_environment e = false.
Proof. unfold torch_max. destruct (flatten t); [|discriminate]. now intros [= <-]. Qed.

Lemma tuple_get_Raise {A : Type} (l : list A) (k : nat) (e : exn) :
  tuple_get l k = Raise e -> missing_environment e = false.
Proof. unfold tuple_get. destruct (l !! k); [discriminate|]. now intros [= <-]. Qed.

Lemma torch_tensor2_Raise (dt : DType) (rows : list (list Z)) (e : exn) :
  torch_tensor2 dt rows = Raise e -> missing_environment e = false.
Proof.
  unfold torch_tensor2. destruct rows; [discriminate|].
  destruct (forallb _ _); [discriminate|]. now intros [= <-].
Qed.

Lemma instance_label_Raise (mt mask : Tensor) (e : exn) :
  instance_label mt mask = Raise e -> missing_environment e = false.
Proof.
  unfold instance_label. intros H. raise_cases H.
  - now apply index_bool_Raise in H.
  - now apply first_element_Raise in H.
Qed.

Lemma instance_box_Raise (mask : Tensor) (e : exn) :
  instance_box mask = Raise e -> missing_environment e = false.
Proof.
  unfold instance_box. intros H. raise_cases H;
    first [ now apply tuple_get_Raise in H
          | now apply torch_min_Raise in H
          | now apply torch_max_Raise in H
          | discriminate H ].
Qed.

Lemma target_of_Raise (mt it : Tensor) (e : exn) :
  target_of mt it = Raise e -> missing_environment e = false.
Proof.
  unfold target_of. intros H. raise_cases H;
    first [ now apply index_bool_Raise in H
          | now apply eq_tensor_Raise in H
          | now apply iterate_Raise in H
          | now apply torch_tensor2_Raise in H
          | apply for_each_Raise_inv in H as (? & H);
            first [ now apply instance_label_Raise in H
                  | now apply instance_box_Raise in H ]
          | discriminate H ].
Qed.

Lemma init_keeps_and_completes_files_aux (w0 w : World) (dir : string) (subset : pyobj)
    (tr : option (Sample -> result Sample)) (dl ck : bool) (self : ZueriCrop) :
  __init__ w0 dir subset tr dl ck = Ok (self, w) ->
  h5py_installed w = true ∧ filepath self = path_join dir "ZueriCrop.hdf5" ∧
  path_exists w (filepath self) = true ∧ transforms self = tr.
Proof.
  intros Hinit. pose proof Hinit as Hinv.
  apply init_inv in Hinv as (Hh & _ & items & indices & _ & _ & _ & Hself & Hv).
  assert (Hroot : root self = dir) by (now subst self).
  assert (Hpath : filepath self = path_join dir "ZueriCrop.hdf5") by (now subst self).
  split; [exact Hh|]. split; [exact Hpath|]. split; [|now subst self].
  rewrite Hpath. unfold _verify in Hv. rewrite Hroot in Hv.
  destruct (forallb id _) eqn:Hall.
  - injection Hv as <-. rewrite forallb_forall in Hall.
    apply (Hall (path_exists w0 (path_join dir "ZueriCrop.hdf5"))).
    simpl. now left.
  - destruct (negb (download self)); [discriminate|]. unfold _download in Hv.
    rewrite Hroot in Hv. apply download_files_inv in Hv as (_ & _ & Hfiles).
    apply (Hfiles ("ZueriCrop.hdf5", "1635231df67f3d25f4f1e62c98e221a4")).
    apply (bool_decide_eq_true_1 _). reflexivity.
Qed.

(** X13: after a successful construction the archive is where the dataset
    looks for it and h5py can be imported: on the resulting world
    [__len__] and, without a transform, [__getitem__] raise no
    FileNotFoundError, DatasetNotFoundError, DependencyNotFoundError or
    ModuleNotFoundError, whatever the index. *)
Theorem constructed_dataset_finds_archive (w0 w : World) (dir : string)
    (subset : pyobj) (dl ck : bool) (self : ZueriCrop) :
  __init__ w0 dir subset None dl ck = Ok (self, w) ->
  filepath self = path_join dir "ZueriCrop.hdf5" ∧
  path_exists w (filepath self) = true ∧
  (∀ e, __len__ self w = Raise e -> missing_environment e = false) ∧
  (∀ index e, __getitem__ self w index = Raise e -> missing_environment e = false).
Proof.
  intros Hinit.
  destruct (init_keeps_and_completes_files_aux w0 w dir subset None dl ck self Hinit)
    as (Hh & Hpath & Hexists & Htr).
  assert (Hfile : ∀ e, h5py_File w (filepath self) = Raise e ->
                       missing_environment e = false).
  { intros e. unfold h5py_File. apply path_exists_true in Hexists as [file Hfile'].
    rewrite Hfile'. destruct file; [discriminate|]. now intros [= <-]. }
  split; [exact Hpath|]. split; [exact Hexists|]. split.
  - intros e H. unfold __len__, lazy_import in H. rewrite Hh in H.
    cbn [mbind result_bind] in H. raise_cases H.
    + now apply Hfile.
    + now apply h5_get_Raise in H.
    + now apply tuple_get_Raise in H.
  - intros index e H. unfold __getitem__ in H. rewrite Htr in H.
    apply bind_Raise_inv in H as [H|(image & _ & H)].
    + unfold _load_image, lazy_import in H. rewrite Hh in H.
      cbn [mbind result_bind] in H. raise_cases H;
        first [ now apply Hfile | now apply h5_get_Raise in H
              | now apply getitem0_Raise in H | now apply from_numpy_Raise in H
              | now apply permute_Raise in H
              | now apply index_select_Raise in H | discriminate H ].
    + apply bind_Raise_inv in H as [H|([[? ?] ?] & _ & H)]; [|discriminate H].
      unfold _load_target, import_h5py in H. fold target_of in H. rewrite Hh in H.
      cbn [mbind result_bind] in H.
      repeat (apply bind_Raise_inv in H as [H|(? & _ & H)];
              [first [ now apply Hfile | now apply h5_get_Raise in H
                     | now apply getitem0_Raise in H | now apply from_numpy_Raise in H
                     | now apply permute_Raise in H ]|]).
      now apply target_of_Raise in H.
Qed.

Lemma constructed_dataset_finds_archive_witness :
  filepath all_bands_dataset = path_join "data" "ZueriCrop.hdf5" ∧
  path_exists (world_of example_archive) (filepath all_bands_dataset) = true ∧
  (∀ e, __len__ all_bands_dataset (world_of example_archive) = Raise e ->
        missing_environment e = false) ∧
  (∀ index e,
     __getitem__ all_bands_dataset (world_of example_archive) index = Raise e ->
     missing_environment e = false).
Proof.
  exact (constructed_dataset_finds_archive (world_of example_archive)
           (world_of example_archive) "data" (PyTuple band_names) false false
           all_bands_dataset eq_refl).
Defined.

Lemma validate_bands_accepts_exactly_witness :
  _validate_bands (PyTuple ["B02"; "NIR"]) = Ok () ∧
  _validate_bands (PyStr "B02") = Raise (ValueError "'B' is an invalid band name.").
Proof.
  split.
  - apply (proj1 (validate_bands_accepts_exactly (PyTuple ["B02"; "NIR"]))).
    split; [reflexivity|]. exists ["B02"; "NIR"]. split; [reflexivity|].
    repeat constructor; apply (bool_decide_eq_true_1 _); reflexivity.
  - exact (proj2 (proj2 (validate_bands_accepts_exactly (PyStr "B02"))) "B"%char "02").
Defined.
